(** * CCYOE analytics: the backtester and the optimizer, embedded in Rocq

    The development follows [cambi_analytics/core/backtester.py] and
    [cambi_analytics/core/optimizer.py].

    Conventions of the embedding:
    - Python floats are idealised as rationals [Q]; results are compared
      with [==] (equality of fractions) and [<=].
    - A Python [dict] from asset names to floats is an insertion-ordered
      association list with unique keys.
    - Mutable dictionaries that are passed by reference (the portfolio) live
      in a store indexed by locations; code that mutates them is written in
      a state-and-exception monad over that store.
    - Exceptions are explicit outcomes.  A computation whose float result
      would leave the rationals (a division by zero, which Python turns into
      [ZeroDivisionError] and numpy into [inf]/[nan]) has outcome [Undef]:
      the embedding does not follow the program there. *)

From Stdlib Require Import QArith Qabs Qminmax ZArith List Sorted Lqa Lia.
From stdpp Require Import base option gmap strings pretty.

Local Open Scope Q_scope.

(** ** Outcomes and the state-and-exception monad *)

Inductive exn : Type :=
| KeyError (key : string)
| ValueError (msg : string)
| IndexError
| RuntimeError (msg : string).

Inductive outcome (A : Type) : Type :=
| Ok (a : A)
| Raise (e : exn)
| Undef.

Arguments Ok {A} a.
Arguments Raise {A} e.
Arguments Undef {A}.

Definition obind {A B} (o : outcome A) (k : A -> outcome B) : outcome B :=
  match o with
  | Ok a => k a
  | Raise e => Raise e
  | Undef => Undef
  end.

(** A stateful computation: the state survives an exception, as the
    mutations done before a Python [raise] do. *)
Definition M (S A : Type) : Type := S -> outcome A * S.

Definition ret {S A} (a : A) : M S A := fun s => (Ok a, s).

Definition bind {S A B} (m : M S A) (k : A -> M S B) : M S B :=
  fun s =>
    match m s with
    | (Ok a, s') => k a s'
    | (Raise e, s') => (Raise e, s')
    | (Undef, s') => (Undef, s')
    end.

Definition raise {S A} (e : exn) : M S A := fun s => (Raise e, s).

Definition lift {S A} (o : outcome A) : M S A := fun s => (o, s).

(** [try: m except Exception as e: h e] *)
Definition try_except {S A} (m : M S A) (h : exn -> M S A) : M S A :=
  fun s =>
    match m s with
    | (Raise e, s') => h e s'
    | r => r
    end.

Declare Scope monad_scope.
Delimit Scope monad_scope with monad.
Notation "x <- c1 ;; c2" := (bind c1 (fun x => c2))
  (at level 100, c1 at next level, right associativity) : monad_scope.
Notation "x <~ c1 ;; c2" := (obind c1 (fun x => c2))
  (at level 100, c1 at next level, right associativity) : monad_scope.

(** [for x in l: acc = body acc x], in either monad. *)
Fixpoint for_each {S A B} (l : list B) (body : A -> B -> M S A) (acc : A) : M S A :=
  match l with
  | [] => ret acc
  | x :: l' => bind (body acc x) (for_each l' body)
  end.

Fixpoint ofor_each {A B} (l : list B) (body : A -> B -> outcome A) (acc : A) : outcome A :=
  match l with
  | [] => Ok acc
  | x :: l' => obind (body acc x) (ofor_each l' body)
  end.

(** ** Floats as rationals *)

Definition Qltb (a b : Q) : bool := negb (Qle_bool b a).

(** Python's [max(0, x)]: the first argument unless the second is larger. *)
Definition py_max0 (x : Q) : Q := if Qltb 0 x then x else 0.

(** Python's [sum]: a left fold from [0]. *)
Definition py_sum (l : list Q) : Q := fold_left Qplus l 0.

(** [x / y] where [y] may be zero. *)
Definition py_div (x y : Q) : outcome Q :=
  if Qeq_bool y 0 then Undef else Ok (x / y).

(** [np.isclose(a, b)] with numpy's defaults [rtol=1e-05], [atol=1e-08]. *)
Definition np_isclose (a b : Q) : bool :=
  Qle_bool (Qabs (a - b)) ((1 # 100000000) + (1 # 100000) * Qabs b).

(** ** Dictionaries *)

Abbreviation dict := (list (string * Q)).

(** [d.get(k)], for values of any type *)
Fixpoint dict_get {V} (d : list (string * V)) (k : string) : option V :=
  match d with
  | [] => None
  | (k', v) :: d' => if String.eqb k' k then Some v else dict_get d' k
  end.

(** [d[k] = v]: an existing key keeps its position, a new one goes last. *)
Fixpoint dict_set {V} (d : list (string * V)) (k : string) (v : V)
  : list (string * V) :=
  match d with
  | [] => [(k, v)]
  | (k', v') :: d' =>
      if String.eqb k' k then (k', v) :: d' else (k', v') :: dict_set d' k v
  end.

Definition dict_keys (d : dict) : list string := map fst d.
Definition dict_values (d : dict) : list Q := map snd d.

(** [d[k]], raising [KeyError] *)
Definition dict_getitem (d : dict) (k : string) : outcome Q :=
  match dict_get d k with
  | Some v => Ok v
  | None => Raise (KeyError k)
  end.

(** [d[k] += v] *)
Definition dict_iadd (d : dict) (k : string) (v : Q) : outcome dict :=
  (old <~ dict_getitem d k ;; Ok (dict_set d k (old + v)))%monad.

(** ** The store of shared dictionaries *)

(** Locations are natural numbers. *)
Abbreviation loc := nat (only parsing).

Definition H (A : Type) : Type := M (gmap nat dict) A.

Definition alloc (d : dict) : H loc :=
  fun h => let l := fresh (dom h) in (Ok l, <[l := d]> h).

Definition load (l : loc) : H dict :=
  fun h => match h !! l with
           | Some d => (Ok d, h)
           | None => (Undef, h)
           end.

(** [portfolio[k]] *)
Definition getitem (l : loc) (k : string) : H Q :=
  (d <- load l ;; lift (dict_getitem d k))%monad.

(** [portfolio[k] = v] *)
Definition setitem (l : loc) (k : string) (v : Q) : H unit :=
  fun h => match h !! l with
           | Some d => (Ok tt, <[l := dict_set d k v]> h)
           | None => (Undef, h)
           end.

(** [copy.deepcopy] of a dictionary of floats: a new object, equal contents. *)
Definition deepcopy (l : loc) : H loc :=
  (d <- load l ;; alloc d)%monad.

(** ** backtester.py: [OptimizationConfig] *)

Local Open Scope string_scope.
Local Open Scope list_scope.

Record OptimizationConfig : Type := {
  under_supplied_allocation : Q;
  strategic_growth_allocation : Q;
  proportional_allocation : Q;
  treasury_allocation : Q;
  rebalance_threshold : Q;
  min_rebalance_interval : Z;
  max_rebalance_frequency : Z;
  target_yields : dict;
  supply_caps : dict;
  transaction_cost : Q;
  gas_cost_usd : Q
}.

(** The arguments of the dataclass constructor; the two dictionaries may be
    [None]. *)
Record OptimizationConfigArgs : Type := {
  arg_under_supplied_allocation : Q;
  arg_strategic_growth_allocation : Q;
  arg_proportional_allocation : Q;
  arg_treasury_allocation : Q;
  arg_rebalance_threshold : Q;
  arg_min_rebalance_interval : Z;
  arg_max_rebalance_frequency : Z;
  arg_target_yields : option dict;
  arg_supply_caps : option dict;
  arg_transaction_cost : Q;
  arg_gas_cost_usd : Q
}.

(** The field defaults of the dataclass. *)
Definition default_args : OptimizationConfigArgs := {|
  arg_under_supplied_allocation := 40 # 100;
  arg_strategic_growth_allocation := 30 # 100;
  arg_proportional_allocation := 20 # 100;
  arg_treasury_allocation := 10 # 100;
  arg_rebalance_threshold := 100;
  arg_min_rebalance_interval := 1;
  arg_max_rebalance_frequency := 7;
  arg_target_yields := None;
  arg_supply_caps := None;
  arg_transaction_cost := 5;
  arg_gas_cost_usd := 50
|}.

Definition default_target_yields : dict :=
  [("cmBTC", 500); ("cmUSD", 1400); ("cmBRL", 2000)].

Definition default_supply_caps : dict :=
  [("cmBTC", 20); ("cmUSD", 50); ("cmBRL", 1000)].

(** The generated [__init__] followed by [__post_init__]. *)
Definition OptimizationConfig__post_init__ (a : OptimizationConfigArgs)
  : outcome OptimizationConfig :=
  let target_yields :=
    match arg_target_yields a with
    | None => default_target_yields
    | Some d => d
    end in
  let supply_caps :=
    match arg_supply_caps a with
    | None => default_supply_caps
    | Some d => d
    end in
  let total_allocation :=
    arg_under_supplied_allocation a + arg_strategic_growth_allocation a
    + arg_proportional_allocation a + arg_treasury_allocation a in
  if negb (np_isclose total_allocation 1) then
    Raise (ValueError "Allocations must sum to 1.0")
  else
    Ok {| under_supplied_allocation := arg_under_supplied_allocation a;
          strategic_growth_allocation := arg_strategic_growth_allocation a;
          proportional_allocation := arg_proportional_allocation a;
          treasury_allocation := arg_treasury_allocation a;
          rebalance_threshold := arg_rebalance_threshold a;
          min_rebalance_interval := arg_min_rebalance_interval a;
          max_rebalance_frequency := arg_max_rebalance_frequency a;
          target_yields := target_yields;
          supply_caps := supply_caps;
          transaction_cost := arg_transaction_cost a;
          gas_cost_usd := arg_gas_cost_usd a |}.

(** ** backtester.py: the redistribution algorithm *)

Definition assets : list string := ["cmBTC"; "cmUSD"; "cmBRL"].

(** [value / self.config.supply_caps.get(asset, float('inf')) / 1e6]:
    a missing cap is infinite and the quotient is zero. *)
Definition utilization (cfg : OptimizationConfig) (asset : string) (value : Q)
  : outcome Q :=
  match dict_get (supply_caps cfg) asset with
  | None => Ok 0
  | Some cap => (r <~ py_div value cap ;; Ok (r / 1000000))%monad
  end.

Definition _calculate_yield_redistribution
    (cfg : OptimizationConfig) (portfolio excess_yields : dict) (total_excess : Q)
  : outcome dict :=
  let under_supplied_amount := total_excess * under_supplied_allocation cfg in
  let strategic_amount := total_excess * strategic_growth_allocation cfg in
  let proportional_amount := total_excess * proportional_allocation cfg in
  let treasury_amount := total_excess * treasury_allocation cfg in
  let redistribution : dict := [("cmBTC", 0); ("cmUSD", 0); ("cmBRL", 0)] in
  (* 1. under-supplied allocation *)
  let under_supplied_assets := ["cmBTC"; "cmUSD"] in
  (redistribution <~
     ofor_each under_supplied_assets
       (fun redistribution asset =>
          if Qltb 0 under_supplied_amount then
            let allocation :=
              under_supplied_amount
              / inject_Z (Z.of_nat (length under_supplied_assets)) in
            dict_iadd redistribution asset allocation
          else Ok redistribution)
       redistribution ;;
   (* 2. strategic growth allocation *)
   let total_portfolio_value := py_sum (dict_values portfolio) in
   redistribution <~
     ofor_each portfolio
       (fun redistribution '(asset, value) =>
          u <~ utilization cfg asset value ;;
          if Qltb (8 # 10) u then
            let allocation := strategic_amount / 3 in
            dict_iadd redistribution asset allocation
          else Ok redistribution)
       redistribution ;;
   (* 3. proportional allocation *)
   redistribution <~
     ofor_each portfolio
       (fun redistribution '(asset, value) =>
          weight <~ py_div value total_portfolio_value ;;
          let allocation := proportional_amount * weight in
          dict_iadd redistribution asset allocation)
       redistribution ;;
   (* 4. treasury allocation: not redistributed *)
   Ok redistribution)%monad.

(** ** backtester.py: the yield series *)

(** A pandas [Timestamp], in nanoseconds; [(a - b).days] rounds down. *)
Definition timestamp : Type := Z.

Definition ns_per_day : Z := 86400000000000.

Definition timedelta_days (a b : timestamp) : Z := ((a - b) / ns_per_day)%Z.

(** One row of the data frame: the columns the engine reads. *)
Record Row : Type := {
  date : timestamp;
  cmBTC : Q;
  cmUSD : Q;
  cmBRL : Q
}.

(** [{asset: row[asset] for asset in assets}] *)
Definition current_yields_of (row : Row) : dict :=
  [("cmBTC", cmBTC row); ("cmUSD", cmUSD row); ("cmBRL", cmBRL row)].

(** ** backtester.py: trigger and rebalancing *)

Record RebalanceEvent : Type := {
  ev_date : timestamp;
  total_excess_yield : Q;
  redistribution : dict;
  portfolio_impact : dict;
  ev_transaction_cost : Q;
  gas_cost : Q
}.

Definition _check_rebalance_conditions
    (cfg : OptimizationConfig) (current_yields : dict) (current_portfolio : loc)
    (last_rebalance_date : option timestamp) (current_date : timestamp)
  : bool * dict :=
  let '(excess_yields, total_excess) :=
    fold_left
      (fun '(excess_yields, total_excess) '(asset, yield_value) =>
         let target_yield := default 0 (dict_get (target_yields cfg) asset) in
         let excess := py_max0 (yield_value - target_yield) in
         (dict_set excess_yields asset excess, total_excess + excess))
      current_yields
      ([], 0) in
  let threshold_met := Qle_bool (rebalance_threshold cfg) total_excess in
  let time_interval_ok :=
    match last_rebalance_date with
    | Some last =>
        let days_since_rebalance := timedelta_days current_date last in
        (min_rebalance_interval cfg <=? days_since_rebalance)%Z
    | None => true
    end in
  (threshold_met && time_interval_ok, excess_yields).

(** The body of the loop over [redistribution.items()]. *)
Definition apply_boost (cfg : OptimizationConfig) (portfolio : loc)
    (acc : dict * Q) (item : string * Q) : H (dict * Q) :=
  let '(rebalance_impact, total_transaction_cost) := acc in
  let '(asset, boost) := item in
  if Qltb 0 boost then
    (let boost_rate := boost / 10000 in
     value <- getitem portfolio asset ;;
     let value_increase := value * boost_rate in
     value <- getitem portfolio asset ;;
     _ <- setitem portfolio asset (value + value_increase) ;;
     let rebalance_impact := dict_set rebalance_impact asset value_increase in
     let transaction_cost := value_increase * transaction_cost cfg / 10000 in
     value <- getitem portfolio asset ;;
     _ <- setitem portfolio asset (value - transaction_cost) ;;
     ret (rebalance_impact, total_transaction_cost + transaction_cost))%monad
  else ret (rebalance_impact, total_transaction_cost).

(** The result is [None] for the empty dictionary [{}] that the source
    returns when there is nothing to redistribute. *)
Definition _execute_rebalancing
    (cfg : OptimizationConfig) (portfolio : loc)
    (excess_yields current_yields : dict) (date : timestamp)
  : H (option RebalanceEvent) :=
  let total_excess := py_sum (dict_values excess_yields) in
  if Qle_bool total_excess 0 then ret None
  else
    (snapshot <- load portfolio ;;
     redistribution <-
       lift (_calculate_yield_redistribution cfg snapshot excess_yields total_excess) ;;
     acc <- for_each redistribution (apply_boost cfg portfolio) ([], 0) ;;
     ret (Some {| ev_date := date;
                  total_excess_yield := total_excess;
                  redistribution := redistribution;
                  portfolio_impact := fst acc;
                  ev_transaction_cost := snd acc;
                  gas_cost := gas_cost_usd cfg |}))%monad.

Definition _calculate_portfolio_value (portfolio : loc) (current_yields : dict) : H Q :=
  (d <- load portfolio ;; ret (py_sum (dict_values d)))%monad.

(** ** backtester.py: the simulation loop *)

Record DailyValue : Type := {
  dv_date : timestamp;
  portfolio_value : Q;
  cmBTC_value : Q;
  cmUSD_value : Q;
  cmBRL_value : Q
}.

(** The local variables that the loop of [_run_simulation] updates. *)
Record SimState : Type := {
  daily_values : list DailyValue;
  rebalance_events : list (option RebalanceEvent);
  daily_yields : list Row;
  last_rebalance_date : option timestamp
}.

Definition initial_state : SimState :=
  {| daily_values := []; rebalance_events := []; daily_yields := [];
     last_rebalance_date := None |}.

(** [current_portfolio[asset] *= (1 + daily_yield_rate)] *)
Definition compound (current_portfolio : loc) (current_yields : dict)
    (_ : unit) (asset : string) : H unit :=
  (y <- lift (dict_getitem current_yields asset) ;;
   let daily_yield_rate := y / 10000 / 365 in
   value <- getitem current_portfolio asset ;;
   setitem current_portfolio asset (value * (1 + daily_yield_rate)))%monad.

(** The rebalancing part of one iteration: the trigger and, when it fires,
    the redistribution. *)
Definition rebalance_phase (cfg : OptimizationConfig) (current_portfolio : loc)
    (st : SimState) (row : Row)
  : H (list (option RebalanceEvent) * option timestamp) :=
  let current_date := date row in
  let current_yields := current_yields_of row in
  let '(rebalance_needed, excess_yields) :=
    _check_rebalance_conditions cfg current_yields current_portfolio
      (last_rebalance_date st) current_date in
  if rebalance_needed then
    (rebalance_result <-
       _execute_rebalancing cfg current_portfolio excess_yields current_yields
         current_date ;;
     ret (rebalance_events st ++ [rebalance_result], Some current_date))%monad
  else ret (rebalance_events st, last_rebalance_date st).

(** One iteration of [for idx, row in data.iterrows()]. *)
Definition simulation_step (cfg : OptimizationConfig) (current_portfolio : loc)
    (st : SimState) (row : Row) : H SimState :=
  let current_date := date row in
  let current_yields := current_yields_of row in
  let daily_yields' := daily_yields st ++ [row] in
  (reb <- rebalance_phase cfg current_portfolio st row ;;
   daily_value <- _calculate_portfolio_value current_portfolio current_yields ;;
   btc <- getitem current_portfolio "cmBTC" ;;
   usd <- getitem current_portfolio "cmUSD" ;;
   brl <- getitem current_portfolio "cmBRL" ;;
   let daily_values' :=
     daily_values st ++ [{| dv_date := current_date;
                            portfolio_value := daily_value;
                            cmBTC_value := btc;
                            cmUSD_value := usd;
                            cmBRL_value := brl |}] in
   _ <- for_each assets (compound current_portfolio current_yields) tt ;;
   ret {| daily_values := daily_values';
          rebalance_events := fst reb;
          daily_yields := daily_yields';
          last_rebalance_date := snd reb |})%monad.

Record SimulationResults : Type := {
  sim_daily_values : list DailyValue;
  sim_rebalance_events : list (option RebalanceEvent);
  sim_daily_yields : list Row;
  final_portfolio : loc
}.

Definition _run_simulation (cfg : OptimizationConfig) (data : list Row)
    (initial_portfolio : loc) : H SimulationResults :=
  (current_portfolio <- deepcopy initial_portfolio ;;
   st <- for_each data (simulation_step cfg current_portfolio) initial_state ;;
   ret {| sim_daily_values := daily_values st;
          sim_rebalance_events := rebalance_events st;
          sim_daily_yields := daily_yields st;
          final_portfolio := current_portfolio |})%monad.

(** ** backtester.py: data preparation *)

(** [data.sort_values('date')]; rows with the same date keep their order. *)
Fixpoint insert_by_date (r : Row) (l : list Row) : list Row :=
  match l with
  | [] => [r]
  | x :: l' =>
      if (date r <=? date x)%Z then r :: l else x :: insert_by_date r l'
  end.

Definition sort_values_date (l : list Row) : list Row :=
  fold_right insert_by_date [] l.

Record CCYOEBacktester : Type := {
  self_data : list Row;
  self_config : OptimizationConfig
}.

Definition _prepare_data (data : list Row) : list Row := sort_values_date data.

Definition CCYOEBacktester__init__ (data : list Row) (config : OptimizationConfig)
  : CCYOEBacktester :=
  {| self_data := _prepare_data data; self_config := config |}.

Definition _filter_data (self : CCYOEBacktester) (start_date end_date : timestamp)
  : list Row :=
  List.filter (fun r => (start_date <=? date r)%Z && (date r <=? end_date)%Z)
    (self_data self).

(** ** backtester.py: result assembly *)

(** [Series.pct_change().dropna()] *)
Fixpoint pct_change_from (prev : Q) (l : list Q) : outcome (list Q) :=
  match l with
  | [] => Ok []
  | v :: l' =>
      (q <~ py_div v prev ;;
       rest <~ pct_change_from v l' ;;
       Ok ((q - 1) :: rest))%monad
  end.

Definition pct_change (l : list Q) : outcome (list Q) :=
  match l with
  | [] => Ok []
  | v :: l' => pct_change_from v l'
  end.

(** [Series.cumprod()] *)
Fixpoint cumprod_from (acc : Q) (l : list Q) : list Q :=
  match l with
  | [] => []
  | x :: l' => (acc * x) :: cumprod_from (acc * x) l'
  end.

Definition cumprod (l : list Q) : list Q :=
  match l with
  | [] => []
  | x :: l' => x :: cumprod_from x l'
  end.

(** [Series.expanding().max()] *)
Fixpoint expanding_max_from (m : Q) (l : list Q) : list Q :=
  match l with
  | [] => []
  | x :: l' => Qmax m x :: expanding_max_from (Qmax m x) l'
  end.

Definition expanding_max (l : list Q) : list Q :=
  match l with
  | [] => []
  | x :: l' => x :: expanding_max_from x l'
  end.

(** [(cumulative_wealth - running_max) / running_max], element by element *)
Fixpoint drawdown_series (wealth running : list Q) : outcome (list Q) :=
  match wealth, running with
  | w :: wealth', m :: running' =>
      (q <~ py_div (w - m) m ;;
       rest <~ drawdown_series wealth' running' ;;
       Ok (q :: rest))%monad
  | _, _ => Ok []
  end.

(** [Series.min()] of a series that is not empty *)
Definition series_min (x : Q) (l : list Q) : Q := fold_left Qmin l x.

(** [Series.iloc[-1]] *)
Definition iloc_last (l : list Q) : outcome Q :=
  match last l with
  | Some x => Ok x
  | None => Raise IndexError
  end.

(** [Series.mean()] of one column of the yields *)
Definition column_mean (col : Row -> Q) (rows : list Row) : outcome Q :=
  py_div (py_sum (map col rows)) (inject_Z (Z.of_nat (length rows))).

Record BacktestResults : Type := {
  total_return : Q;
  annualized_return : Q;
  volatility : Q;
  sharpe_ratio : Q;
  max_drawdown : Q;
  calmar_ratio : Q;
  total_rebalances : nat;
  rebalance_frequency : Q;
  avg_excess_yield : Q;
  yield_improvement : dict;
  total_transaction_costs : Q;
  total_gas_costs : Q;
  net_yield_after_costs : Q;
  daily_returns : list Q;
  cumulative_returns : list Q;
  yield_series : list Row;
  res_rebalance_events : list (option RebalanceEvent)
}.

(** [rebalance_events[column].sum()]: the frame built from the list of event
    dictionaries has the column only if some event is not empty, and the
    empty events contribute nothing to the sum. *)
Definition events_column_sum (column : string) (proj : RebalanceEvent -> Q)
    (events : list (option RebalanceEvent)) : outcome Q :=
  match omap id events with
  | [] => Raise (KeyError column)
  | evs => Ok (py_sum (map proj evs))
  end.

Section Results.

(** The float operations that have no rational counterpart: [x ** y],
    [Series.std()] and [np.sqrt(252)]. *)
Variable float_pow : Q -> Q -> Q.
Variable series_std : list Q -> Q.
Variable sqrt_252 : Q.

(** The assembly of the scalar metrics, the cost totals and the series.
    The value-at-risk figures and the correlation summary of the source
    are computed after these from the same inputs and are left out. *)
Definition _calculate_results (cfg : OptimizationConfig)
    (daily_values : list DailyValue)
    (rebalance_events : list (option RebalanceEvent))
    (daily_yields : list Row) : outcome BacktestResults :=
  (daily_returns <~ pct_change (map portfolio_value daily_values) ;;
   let cumulative_returns :=
     map (fun w => w - 1) (cumprod (map (fun r => 1 + r) daily_returns)) in
   total_return <~ iloc_last cumulative_returns ;;
   let periods := inject_Z (Z.of_nat (length daily_returns)) in
   let annualized_return := float_pow (1 + total_return) (252 / periods) - 1 in
   let volatility := series_std daily_returns * sqrt_252 in
   let sharpe_ratio :=
     if Qltb 0 volatility then annualized_return / volatility else 0 in
   let cumulative_wealth := cumprod (map (fun r => 1 + r) daily_returns) in
   let running_max := expanding_max cumulative_wealth in
   drawdown <~ drawdown_series cumulative_wealth running_max ;;
   max_drawdown <~
     match drawdown with
     | [] => Undef
     | x :: l => Ok (series_min x l)
     end ;;
   let calmar_ratio :=
     if negb (Qeq_bool max_drawdown 0)
     then annualized_return / Qabs max_drawdown else 0 in
   let total_rebalances := length rebalance_events in
   let days_total := length daily_values in
   let rebalance_frequency :=
     if (0 <? days_total)%nat
     then inject_Z (Z.of_nat total_rebalances)
          / (inject_Z (Z.of_nat days_total) / 252)
     else 0 in
   let baseline_yields := target_yields cfg in
   avg_btc <~ column_mean cmBTC daily_yields ;;
   avg_usd <~ column_mean cmUSD daily_yields ;;
   avg_brl <~ column_mean cmBRL daily_yields ;;
   let actual_avg_yields : dict :=
     [("cmBTC", avg_btc); ("cmUSD", avg_usd); ("cmBRL", avg_brl)] in
   yield_improvement <~
     ofor_each baseline_yields
       (fun acc '(asset, baseline) =>
          actual <~ dict_getitem actual_avg_yields asset ;;
          Ok (dict_set acc asset (actual - baseline)))
       [] ;;
   excesses <~
     ofor_each baseline_yields
       (fun acc '(asset, baseline) =>
          actual <~ dict_getitem actual_avg_yields asset ;;
          Ok (acc ++ [py_max0 (actual - baseline)]))
       [] ;;
   avg_excess_yield <~
     py_div (py_sum excesses) (inject_Z (Z.of_nat (length baseline_yields))) ;;
   total_transaction_costs <~
     (if (0 <? length rebalance_events)%nat
      then events_column_sum "transaction_cost" ev_transaction_cost rebalance_events
      else Ok 0) ;;
   total_gas_costs <~
     (if (0 <? length rebalance_events)%nat
      then events_column_sum "gas_cost" gas_cost rebalance_events
      else Ok 0) ;;
   first_value <~
     match daily_values with
     | [] => Raise IndexError
     | dv :: _ => Ok (portfolio_value dv)
     end ;;
   cost_share <~ py_div (total_transaction_costs + total_gas_costs) first_value ;;
   let net_yield_after_costs := total_return - cost_share in
   Ok {| total_return := total_return;
         annualized_return := annualized_return;
         volatility := volatility;
         sharpe_ratio := sharpe_ratio;
         max_drawdown := max_drawdown;
         calmar_ratio := calmar_ratio;
         total_rebalances := total_rebalances;
         rebalance_frequency := rebalance_frequency;
         avg_excess_yield := avg_excess_yield;
         yield_improvement := yield_improvement;
         total_transaction_costs := total_transaction_costs;
         total_gas_costs := total_gas_costs;
         net_yield_after_costs := net_yield_after_costs;
         daily_returns := daily_returns;
         cumulative_returns := cumulative_returns;
         yield_series := daily_yields;
         res_rebalance_events := rebalance_events |})%monad.

Definition default_portfolio : dict :=
  [("cmBTC", 10); ("cmUSD", 25); ("cmBRL", 40)].

(** [initial_portfolio] is a reference to the caller's dictionary, or
    [None]. *)
Definition run_backtest (self : CCYOEBacktester)
    (start_date end_date : timestamp) (initial_portfolio : option loc)
  : H BacktestResults :=
  let backtest_data := _filter_data self start_date end_date in
  if (length backtest_data =? 0)%nat then
    raise (ValueError "No data available for specified date range")
  else
    (initial_portfolio <-
       match initial_portfolio with
       | None => alloc default_portfolio
       | Some l => ret l
       end ;;
     simulation_results <-
       _run_simulation (self_config self) backtest_data initial_portfolio ;;
     lift (_calculate_results (self_config self)
             (sim_daily_values simulation_results)
             (sim_rebalance_events simulation_results)
             (sim_daily_yields simulation_results)))%monad.

End Results.

(** ** optimizer.py: data *)

(** A float that may be [float('inf')]. *)
Inductive score : Type :=
| Fin (q : Q)
| PosInf.

Definition score_lt (a b : score) : bool :=
  match a, b with
  | Fin x, Fin y => Qltb x y
  | Fin _, PosInf => true
  | PosInf, _ => false
  end.

Definition score_add (a : score) (q : Q) : score :=
  match a with
  | Fin x => Fin (x + q)
  | PosInf => PosInf
  end.

(** [-fun if fun != float('inf') else fun] *)
Definition negate_unless_inf (a : score) : score :=
  match a with
  | Fin x => Fin (- x)
  | PosInf => PosInf
  end.

Record OptimizationResult : Type := {
  optimal_params : dict;
  optimal_value : score;
  optimization_method : string;
  convergence_status : string;
  iterations : nat;
  function_evaluations : nat;
  backtest_results : option BacktestResults
}.

(** What a scipy search returns. *)
Record OptimizeResult : Type := {
  res_x : list Q;
  res_fun : score;
  res_success : bool;
  res_nit : option nat;
  res_nfev : option nat;
  res_minimization_failures : nat
}.

Record constraint : Type := {
  ctype : string;
  cfun : list Q -> outcome Q
}.

Record minimizer_kwargs : Type := {
  mk_method : string;
  mk_bounds : list (Q * Q);
  mk_constraints : list constraint
}.

(** The immutable part of a [YieldOptimizer]. *)
Record YieldOptimizer : Type := {
  opt_data : list Row;
  base_config : option OptimizationConfig
}.

(** Its mutable part, and the random generator of the process, which an
    unseeded search draws from. *)
Record OptState : Type := {
  _cache : gmap string Q;
  _evaluation_count : nat;
  global_random_state : Z
}.

Definition O (A : Type) : Type := M OptState A.

Definition cache_lookup (key : string) : O (option Q) :=
  fun s => (Ok (_cache s !! key), s).

Definition cache_store (key : string) (value : Q) : O unit :=
  fun s => (Ok tt, {| _cache := <[key := value]> (_cache s);
                      _evaluation_count := _evaluation_count s;
                      global_random_state := global_random_state s |}).

Definition set_evaluation_count (f : nat -> nat) : O unit :=
  fun s => (Ok tt, {| _cache := _cache s;
                      _evaluation_count := f (_evaluation_count s);
                      global_random_state := global_random_state s |}).

Definition get_evaluation_count : O nat :=
  fun s => (Ok (_evaluation_count s), s).

(** constants.py: [OPTIMIZATION_CONSTRAINTS] *)
Definition min_allocation : Q := 5 # 100.
Definition max_allocation : Q := 50 # 100.
Definition min_treasury_allocation : Q := 5 # 100.
Definition max_treasury_allocation : Q := 15 # 100.
Definition rebalance_threshold_min : Q := 25.
Definition rebalance_threshold_max : Q := 500.
Definition transaction_cost_min : Q := 1.
Definition transaction_cost_max : Q := 50.

Definition param_names : list string :=
  ["under_supplied_allocation"; "strategic_growth_allocation";
   "proportional_allocation"; "treasury_allocation";
   "rebalance_threshold"; "transaction_cost"].

(** [params[i]] *)
Definition param_at (params : list Q) (i : nat) : outcome Q :=
  match nth_error params i with
  | Some v => Ok v
  | None => Raise IndexError
  end.

Definition set_allocations (c : OptimizationConfig) (u s p t : Q)
  : OptimizationConfig :=
  {| under_supplied_allocation := u;
     strategic_growth_allocation := s;
     proportional_allocation := p;
     treasury_allocation := t;
     rebalance_threshold := rebalance_threshold c;
     min_rebalance_interval := min_rebalance_interval c;
     max_rebalance_frequency := max_rebalance_frequency c;
     target_yields := target_yields c;
     supply_caps := supply_caps c;
     transaction_cost := transaction_cost c;
     gas_cost_usd := gas_cost_usd c |}.

Definition set_rebalance_threshold (c : OptimizationConfig) (v : Q)
  : OptimizationConfig :=
  {| under_supplied_allocation := under_supplied_allocation c;
     strategic_growth_allocation := strategic_growth_allocation c;
     proportional_allocation := proportional_allocation c;
     treasury_allocation := treasury_allocation c;
     rebalance_threshold := v;
     min_rebalance_interval := min_rebalance_interval c;
     max_rebalance_frequency := max_rebalance_frequency c;
     target_yields := target_yields c;
     supply_caps := supply_caps c;
     transaction_cost := transaction_cost c;
     gas_cost_usd := gas_cost_usd c |}.

Definition set_transaction_cost (c : OptimizationConfig) (v : Q)
  : OptimizationConfig :=
  {| under_supplied_allocation := under_supplied_allocation c;
     strategic_growth_allocation := strategic_growth_allocation c;
     proportional_allocation := proportional_allocation c;
     treasury_allocation := treasury_allocation c;
     rebalance_threshold := rebalance_threshold c;
     min_rebalance_interval := min_rebalance_interval c;
     max_rebalance_frequency := max_rebalance_frequency c;
     target_yields := target_yields c;
     supply_caps := supply_caps c;
     transaction_cost := v;
     gas_cost_usd := gas_cost_usd c |}.

(** Attribute assignment does not run [__post_init__] again. *)
Definition _params_to_config (self : YieldOptimizer) (params : list Q)
  : outcome OptimizationConfig :=
  (config <~
     match base_config self with
     | Some c => Ok c
     | None => OptimizationConfig__post_init__ default_args
     end ;;
   config <~
     (if (4 <=? length params)%nat then
        p0 <~ param_at params 0 ;;
        p1 <~ param_at params 1 ;;
        p2 <~ param_at params 2 ;;
        p3 <~ param_at params 3 ;;
        Ok (set_allocations config p0 p1 p2 p3)
      else Ok config) ;;
   config <~
     (if (5 <=? length params)%nat then
        p4 <~ param_at params 4 ;;
        Ok (set_rebalance_threshold config p4)
      else Ok config) ;;
   config <~
     (if (6 <=? length params)%nat then
        p5 <~ param_at params 5 ;;
        Ok (set_transaction_cost config p5)
      else Ok config) ;;
   Ok config)%monad.

Definition _config_to_params (config : OptimizationConfig) : list Q :=
  [under_supplied_allocation config;
   strategic_growth_allocation config;
   proportional_allocation config;
   treasury_allocation config;
   rebalance_threshold config;
   transaction_cost config].

Definition weight_sum_constraint (params : list Q) : outcome Q :=
  (p0 <~ param_at params 0 ;;
   p1 <~ param_at params 1 ;;
   p2 <~ param_at params 2 ;;
   p3 <~ param_at params 3 ;;
   Ok ((p0 + p1 + p2 + p3) - 1))%monad.

Definition min_constraint (idx : nat) (params : list Q) : outcome Q :=
  (p <~ param_at params idx ;; Ok (p - min_allocation))%monad.

Definition max_constraint (idx : nat) (params : list Q) : outcome Q :=
  (p <~ param_at params idx ;; Ok (max_allocation - p))%monad.

Definition _setup_constraints
    (additional_constraints : option (list (string * (list Q -> outcome Q))))
  : list constraint :=
  [{| ctype := "eq"; cfun := weight_sum_constraint |}]
  ++ map (fun i => {| ctype := "ineq"; cfun := min_constraint i |}) (seq 0 4)
  ++ map (fun i => {| ctype := "ineq"; cfun := max_constraint i |}) (seq 0 4)
  ++ match additional_constraints with
     | Some extra => map (fun '(_, f) => {| ctype := "ineq"; cfun := f |}) extra
     | None => []
     end.

Definition _setup_bounds (bounds_override : option (list (string * (Q * Q))))
  : list (Q * Q) :=
  let default_bounds :=
    [(min_allocation, max_allocation);
     (min_allocation, max_allocation);
     (min_allocation, max_allocation);
     (min_treasury_allocation, max_treasury_allocation);
     (rebalance_threshold_min, rebalance_threshold_max);
     (transaction_cost_min, transaction_cost_max)] in
  match bounds_override with
  | Some override =>
      map (fun '(param_name, b) => default b (dict_get override param_name))
        (combine param_names default_bounds)
  | None => default_bounds
  end.

(** [hasattr(results, objective)] and [getattr(results, objective)] for a
    float-valued result; the other attributes of the tuple exist but hold no
    float ([Some Undef]). *)
Definition results_getattr (r : BacktestResults) (name : string)
  : option (outcome Q) :=
  if String.eqb name "total_return" then Some (Ok (total_return r))
  else if String.eqb name "annualized_return" then Some (Ok (annualized_return r))
  else if String.eqb name "volatility" then Some (Ok (volatility r))
  else if String.eqb name "sharpe_ratio" then Some (Ok (sharpe_ratio r))
  else if String.eqb name "max_drawdown" then Some (Ok (max_drawdown r))
  else if String.eqb name "calmar_ratio" then Some (Ok (calmar_ratio r))
  else if String.eqb name "rebalance_frequency" then Some (Ok (rebalance_frequency r))
  else if String.eqb name "avg_excess_yield" then Some (Ok (avg_excess_yield r))
  else if String.eqb name "total_transaction_costs"
       then Some (Ok (total_transaction_costs r))
  else if String.eqb name "total_gas_costs" then Some (Ok (total_gas_costs r))
  else if String.eqb name "net_yield_after_costs"
       then Some (Ok (net_yield_after_costs r))
  else if String.eqb name "total_rebalances"
       then Some (Ok (inject_Z (Z.of_nat (total_rebalances r))))
  else if existsb (String.eqb name)
            ["yield_improvement"; "daily_returns";
             "cumulative_returns"; "yield_series"; "rebalance_events";
             "var_95"; "var_99"; "expected_shortfall"; "correlation_analysis"]
       then Some Undef
  else None.

Definition maximization_objectives : list string :=
  ["total_return"; "annualized_return"; "sharpe_ratio"; "calmar_ratio"].

(** ** optimizer.py: objective and search strategies *)

Section Optimizer.

Variable float_pow : Q -> Q -> Q.
Variable series_std : list Q -> Q.
Variable sqrt_252 : Q.

(** [str(params)] of a numpy array: the cache key. *)
Variable np_str : list Q -> string.

Variable CVXPY_AVAILABLE : bool.

(** The scipy searches.  Each takes the objective as a stateful function
    and may itself raise.  [seed] is [None] when the caller passes none. *)
Variable minimize :
  (list Q -> O score) -> list Q -> string -> list (Q * Q) ->
  option (list constraint) -> nat -> O OptimizeResult.
Variable differential_evolution :
  (list Q -> O score) -> list (Q * Q) -> option Z -> nat -> nat -> Q ->
  O OptimizeResult.
Variable basinhopping :
  (list Q -> O score) -> list Q -> nat -> minimizer_kwargs -> option Z ->
  O OptimizeResult.

(** A backtest on a backtester of its own: no dictionary is shared with
    the caller, so the store starts empty and is dropped afterwards. *)
Definition run_backtest_fresh (backtester : CCYOEBacktester)
    (start_date end_date : timestamp) : outcome BacktestResults :=
  fst (run_backtest float_pow series_std sqrt_252 backtester
         start_date end_date None ∅).

(** The closure returned by [_create_objective_function]. *)
Definition objective_function (self : YieldOptimizer) (objective : string)
    (start_date end_date : timestamp) (params : list Q) : O score :=
  (config <- lift (_params_to_config self params) ;;
   let cache_key := np_str params in
   cached <- cache_lookup cache_key ;;
   match cached with
   | Some value => ret (Fin value)
   | None =>
       let backtester := CCYOEBacktester__init__ (opt_data self) config in
       try_except
         (results <- lift (run_backtest_fresh backtester start_date end_date) ;;
          match results_getattr results objective with
          | Some value =>
              value <- lift value ;;
              let value :=
                if existsb (String.eqb objective) maximization_objectives
                then - value else value in
              _ <- cache_store cache_key value ;;
              _ <- set_evaluation_count S ;;
              ret (Fin value)
          | None => ret PosInf
          end)
         (fun e => ret PosInf)
   end)%monad.

Definition _create_objective_function (self : YieldOptimizer)
    (objective : string) (start_date end_date : timestamp)
  : list Q -> O score :=
  objective_function self objective start_date end_date.

Definition default_x0 : list Q := [4 # 10; 3 # 10; 2 # 10; 1 # 10; 100; 5].

Definition initial_guess (self : YieldOptimizer) : list Q :=
  match base_config self with
  | Some c => _config_to_params c
  | None => default_x0
  end.

(** [{name: x[i] for i, name in enumerate(param_names) if i < len(x)}] *)
Definition named_params (x : list Q) : dict := combine param_names x.

(** One iteration of [for method in methods] in [_optimize_scipy]: the
    state is [(best_result, best_value)]. *)
Definition try_method (objective_func : list Q -> O score) (x0 : list Q)
    (constraints : list constraint) (bounds : list (Q * Q))
    (best : option OptimizeResult * score) (method : string)
  : O (option OptimizeResult * score) :=
  try_except
    (if String.eqb method "SLSQP" then
       (result <- minimize objective_func x0 method bounds (Some constraints)
                    1000%nat ;;
        if score_lt (res_fun result) (snd best)
        then ret (Some result, res_fun result)
        else ret best)%monad
     else
       match constraints with
       | _ :: _ => ret best
       | [] =>
           (result <- minimize objective_func x0 method bounds None 1000%nat ;;
            if score_lt (res_fun result) (snd best)
            then ret (Some result, res_fun result)
            else ret best)%monad
       end)
    (fun e => ret best).

Definition _optimize_scipy (self : YieldOptimizer)
    (objective_func : list Q -> O score)
    (constraints : list constraint) (bounds : list (Q * Q))
  : O OptimizationResult :=
  let x0 := initial_guess self in
  let methods := ["SLSQP"; "L-BFGS-B"] in
  (best <- for_each methods (try_method objective_func x0 constraints bounds)
             (None, PosInf) ;;
   match fst best with
   | None => raise (RuntimeError "All optimization methods failed")
   | Some best_result =>
       count <- get_evaluation_count ;;
       ret {| optimal_params := named_params (res_x best_result);
              optimal_value := negate_unless_inf (res_fun best_result);
              optimization_method := "scipy";
              convergence_status :=
                if res_success best_result then "success" else "failed";
              iterations := default 0%nat (res_nit best_result);
              function_evaluations := default count (res_nfev best_result);
              backtest_results := None |}
   end)%monad.

Definition penalized_objective (objective_func : list Q -> O score)
    (constraints : list constraint) (params : list Q) : O score :=
  (penalty <-
     lift (ofor_each constraints
             (fun penalty c =>
                if String.eqb (ctype c) "eq" then
                  v <~ cfun c params ;;
                  let violation := Qabs v in
                  Ok (penalty + 1000 * violation ^ 2)
                else if String.eqb (ctype c) "ineq" then
                  v <~ cfun c params ;;
                  let violation := py_max0 (- v) in
                  Ok (penalty + 1000 * violation ^ 2)
                else Ok penalty)
             0) ;;
   value <- objective_func params ;;
   ret (score_add value penalty))%monad.

(** [result.nit], an attribute every scipy result of these searches has *)
Definition attr (a : option nat) : O nat :=
  match a with
  | Some n => ret n
  | None => fun s => (Undef, s)
  end.

Definition _optimize_genetic (self : YieldOptimizer)
    (objective_func : list Q -> O score)
    (constraints : list constraint) (bounds : list (Q * Q))
  : O OptimizationResult :=
  (result <- differential_evolution
               (penalized_objective objective_func constraints)
               bounds (Some 42%Z) 300%nat 15%nat (1 # 1000000) ;;
   nit <- attr (res_nit result) ;;
   nfev <- attr (res_nfev result) ;;
   ret {| optimal_params := named_params (res_x result);
          optimal_value := negate_unless_inf (res_fun result);
          optimization_method := "genetic";
          convergence_status :=
            if res_success result then "success" else "failed";
          iterations := nit;
          function_evaluations := nfev;
          backtest_results := None |})%monad.

Definition _optimize_basinhopping (self : YieldOptimizer)
    (objective_func : list Q -> O score)
    (constraints : list constraint) (bounds : list (Q * Q))
  : O OptimizationResult :=
  let x0 := initial_guess self in
  let kwargs := {| mk_method := "SLSQP";
                   mk_bounds := bounds;
                   mk_constraints := constraints |} in
  (result <- basinhopping objective_func x0 100%nat kwargs (Some 42%Z) ;;
   nit <- attr (res_nit result) ;;
   nfev <- attr (res_nfev result) ;;
   ret {| optimal_params := named_params (res_x result);
          optimal_value := negate_unless_inf (res_fun result);
          optimization_method := "basinhopping";
          convergence_status :=
            if (res_minimization_failures result =? 0)%nat
            then "success" else "failed";
          iterations := nit;
          function_evaluations := nfev;
          backtest_results := None |})%monad.

Definition _optimize_cvxpy (self : YieldOptimizer)
    (objective_func : list Q -> O score)
    (constraints : list constraint) (bounds : list (Q * Q))
  : O OptimizationResult :=
  if negb CVXPY_AVAILABLE then raise (RuntimeError "CVXPY not available")
  else _optimize_scipy self objective_func constraints bounds.

(** [YieldOptimizer] has no [_run_backtest_with_params], so the final
    backtest guarded by [hasattr] never runs. *)
Definition optimize_distribution_weights (self : YieldOptimizer)
    (objective : string)
    (constraints : option (list (string * (list Q -> outcome Q))))
    (bounds : option (list (string * (Q * Q))))
    (method : string) (start_date end_date : timestamp)
  : O OptimizationResult :=
  let optimization_constraints := _setup_constraints constraints in
  let optimization_bounds := _setup_bounds bounds in
  let objective_func :=
    _create_objective_function self objective start_date end_date in
  (_ <- set_evaluation_count (fun _ => 0%nat) ;;
   if String.eqb method "scipy" then
     _optimize_scipy self objective_func optimization_constraints
       optimization_bounds
   else if String.eqb method "cvxpy" && CVXPY_AVAILABLE then
     _optimize_cvxpy self objective_func optimization_constraints
       optimization_bounds
   else if String.eqb method "genetic" then
     _optimize_genetic self objective_func optimization_constraints
       optimization_bounds
   else if String.eqb method "basinhopping" then
     _optimize_basinhopping self objective_func optimization_constraints
       optimization_bounds
   else raise (ValueError "Unknown optimization method"))%monad.

End Optimizer.

(** ** metrics.py: [PerformanceMetrics] *)

(** [PerformanceMetrics.max_drawdown] *)
Definition PerformanceMetrics_max_drawdown (returns : list Q) : outcome Q :=
  if (length returns =? 0)%nat then Ok 0
  else
    let cumulative := cumprod (map (fun r => 1 + r) returns) in
    let running_max := expanding_max cumulative in
    (drawdown <~ drawdown_series cumulative running_max ;;
     match drawdown with
     | [] => Undef
     | x :: l => Ok (Qabs (series_min x l))
     end)%monad.

(** [PerformanceMetrics.calmar_ratio], given the annualized return *)
Definition PerformanceMetrics_calmar_ratio (ann_return : Q) (returns : list Q)
  : outcome Q :=
  if (length returns =? 0)%nat then Ok 0
  else
    (max_dd <~ PerformanceMetrics_max_drawdown returns ;;
     if Qeq_bool max_dd 0 then Ok 0 else Ok (ann_return / max_dd))%monad.

(** ** Auxiliary definitions for the statements *)

(** The strategic-growth test of the source, as a predicate on an entry of
    the portfolio. *)
Definition eligible (cfg : OptimizationConfig) (item : string * Q) : bool :=
  match utilization cfg (fst item) (snd item) with
  | Ok u => Qltb (8 # 10) u
  | _ => false
  end.

(** The sum of the four allocation weights. *)
Definition total_allocation (cfg : OptimizationConfig) : Q :=
  under_supplied_allocation cfg + strategic_growth_allocation cfg
  + proportional_allocation cfg + treasury_allocation cfg.

(** The relative tolerance that [np.isclose(total, 1.0)] leaves to the sum
    of the weights: [1e-08 + 1e-05]. *)
Definition weight_tolerance : Q := 1001 # 100000000.

(** What [OptimizationConfig()] builds. *)
Definition default_config : OptimizationConfig :=
  {| under_supplied_allocation := 40 # 100;
     strategic_growth_allocation := 30 # 100;
     proportional_allocation := 20 # 100;
     treasury_allocation := 10 # 100;
     rebalance_threshold := 100;
     min_rebalance_interval := 1;
     max_rebalance_frequency := 7;
     target_yields := default_target_yields;
     supply_caps := default_supply_caps;
     transaction_cost := 5;
     gas_cost_usd := 50 |}.

(** Midnight of day [n]. *)
Definition day (n : Z) : timestamp := (n * ns_per_day)%Z.

(** A store that holds the default portfolio at location [0]. *)
Definition store0 : gmap nat dict := {[ 0%nat := default_portfolio ]}.

(** A day on which cmBRL yields 300 bp above its target. *)
Definition shock_row : Row :=
  {| date := day 0; cmBTC := 500; cmUSD := 1400; cmBRL := 2300 |}.

Definition shock_excess : dict := [("cmBTC", 0); ("cmUSD", 0); ("cmBRL", 300)].

(** The strategic-growth rule in the words of the specification:
    utilization is balance over supply cap, an asset is eligible above 0.8,
    and the eligible assets share the bucket equally. *)
Definition spec_utilization (cfg : OptimizationConfig) (item : string * Q) : Q :=
  match dict_get (supply_caps cfg) (fst item) with
  | Some cap => snd item / cap
  | None => 0
  end.

Definition spec_eligible (cfg : OptimizationConfig) (item : string * Q) : bool :=
  Qltb (8 # 10) (spec_utilization cfg item).

Definition spec_strategic_share (cfg : OptimizationConfig) (portfolio : dict)
    (total_excess : Q) (item : string * Q) : Q :=
  if spec_eligible cfg item then
    total_excess * strategic_growth_allocation cfg
    / inject_Z (Z.of_nat (length (List.filter (spec_eligible cfg) portfolio)))
  else 0.

(** A portfolio in USD millions with cmBTC at 90% of its 20M cap, and one
    whose cmBTC balance is a million times larger. *)
Definition btc_near_cap : dict := [("cmBTC", 18); ("cmUSD", 25); ("cmBRL", 40)].
Definition btc_scaled : dict := [("cmBTC", 18000000); ("cmUSD", 25); ("cmBRL", 40)].

(** The default arguments with the rebalance threshold set to zero. *)
Definition zero_threshold_args : OptimizationConfigArgs :=
  {| arg_under_supplied_allocation := 40 # 100;
     arg_strategic_growth_allocation := 30 # 100;
     arg_proportional_allocation := 20 # 100;
     arg_treasury_allocation := 10 # 100;
     arg_rebalance_threshold := 0;
     arg_min_rebalance_interval := 1;
     arg_max_rebalance_frequency := 7;
     arg_target_yields := None;
     arg_supply_caps := None;
     arg_transaction_cost := 5;
     arg_gas_cost_usd := 50 |}.

(** The sum that [__post_init__] checks. *)
Definition args_total_allocation (a : OptimizationConfigArgs) : Q :=
  arg_under_supplied_allocation a + arg_strategic_growth_allocation a
  + arg_proportional_allocation a + arg_treasury_allocation a.

(** The trigger in the words of the specification: the sum over the assets
    of [max(0, yield - target_yield)], a missing target counting as zero. *)
Definition target_of (cfg : OptimizationConfig) (asset : string) : Q :=
  default 0 (dict_get (target_yields cfg) asset).


(** A day on which every yield is at its target. *)
Definition flat_row : Row :=
  {| date := day 0; cmBTC := 500; cmUSD := 1400; cmBRL := 2000 |}.

(** [balance * (1 + yield_bp / 10000 / 365)] *)
Definition compounded (yield_bp balance : Q) : Q :=
  balance * (1 + yield_bp / 10000 / 365).

(** A computation that writes to no location of the store but [c]. *)
Definition only_writes {A} (c : loc) (m : H A) : Prop :=
  forall (h : gmap nat dict) (l : loc), l <> c -> snd (m h) !! l = h !! l.

(** A computation that leaves every dictionary of the store as it is. *)
Definition preserves {A} (m : H A) : Prop :=
  forall (h : gmap nat dict) (l : loc) (d : dict),
    h !! l = Some d -> snd (m h) !! l = Some d.

(** Rows in the order of their dates. *)
Definition date_sorted (rows : list Row) : Prop :=
  StronglySorted (fun a b => (date a <= date b)%Z) rows.

(** Any two dated events of the list lie at least the minimum interval of
    days apart. *)
Definition spaced (cfg : OptimizationConfig)
    (events : list (option RebalanceEvent)) : Prop :=
  forall (i j : nat) (e1 e2 : RebalanceEvent),
    (i < j)%nat ->
    events !! i = Some (Some e1) ->
    events !! j = Some (Some e2) ->
    (min_rebalance_interval cfg <= timedelta_days (ev_date e2) (ev_date e1))%Z.

(** No dated event of the list is later than the last rebalance date. *)
Definition not_after (events : list (option RebalanceEvent))
    (last : option timestamp) : Prop :=
  forall (i : nat) (e : RebalanceEvent),
    events !! i = Some (Some e) ->
    exists l, last = Some l /\ (ev_date e <= l)%Z.

(** Two days in a row with 300 bp of excess. *)
Definition two_shocks : list Row :=
  [shock_row; {| date := day 1; cmBTC := 500; cmUSD := 1400; cmBRL := 2300 |}].

(** The backtest of [two_shocks] under the default configuration, with the
    float operations that play no part in the event log set to zero. *)
Definition two_shocks_backtest : outcome BacktestResults * gmap nat dict :=
  Eval vm_compute in
    run_backtest (fun _ _ => 0) (fun _ => 0) 0
      (CCYOEBacktester__init__ two_shocks default_config) (day 0) (day 1)
      None ∅.

(** Three days, the second with every yield at -365 bp. *)
Definition negative_yield_days : list Row :=
  [flat_row;
   {| date := day 1; cmBTC := -365; cmUSD := -365; cmBRL := -365 |};
   {| date := day 2; cmBTC := 500; cmUSD := 1400; cmBRL := 2000 |}].

Definition negative_yield_backtest
    (float_pow : Q -> Q -> Q) (series_std : list Q -> Q) (sqrt_252 : Q)
  : outcome BacktestResults * gmap nat dict :=
  Eval vm_compute in
    run_backtest float_pow series_std sqrt_252
      (CCYOEBacktester__init__ negative_yield_days default_config)
      (day 0) (day 2) None ∅.


(** Two optimizer states that agree on the cache and the evaluation count;
    the state of the process-wide random generator may differ. *)
Definition same_optimizer (s1 s2 : OptState) : Prop :=
  _cache s1 = _cache s2 /\ _evaluation_count s1 = _evaluation_count s2.

(** A computation whose result and whose effect on the optimizer do not
    depend on the process-wide random generator. *)
Definition rng_independent {A} (m : O A) : Prop :=
  forall s1 s2 : OptState,
    same_optimizer s1 s2 ->
    fst (m s1) = fst (m s2) /\ same_optimizer (snd (m s1)) (snd (m s2)).

(** A search that always raises. *)
Definition failing_search {A} : O A :=
  raise (RuntimeError "search failed").

(** A one-step search: it draws a number, from the seed when there is one
    and from the process-wide generator otherwise, moves the starting point
    by it and evaluates the objective there. *)
Definition draw (seed : option Z) : O Z :=
  fun s =>
    match seed with
    | Some z => (Ok z, s)
    | None =>
        (Ok (global_random_state s),
         {| _cache := _cache s;
            _evaluation_count := _evaluation_count s;
            global_random_state := (global_random_state s + 1)%Z |})
    end.

Definition one_step_search (objective_func : list Q -> O score) (x0 : list Q)
    (seed : option Z) : O OptimizeResult :=
  (z <- draw seed ;;
   let x := map (fun v => v + inject_Z z / 1000) x0 in
   value <- objective_func x ;;
   ret {| res_x := x;
          res_fun := value;
          res_success := true;
          res_nit := Some 1%nat;
          res_nfev := Some 1%nat;
          res_minimization_failures := 0 |})%monad.

Definition fresh_optimizer (random_state : Z) : OptState :=
  {| _cache := ∅; _evaluation_count := 0; global_random_state := random_state |}.

(** An optimizer over the two days of [two_shocks], without base
    configuration. *)
Definition two_shocks_optimizer : YieldOptimizer :=
  {| opt_data := two_shocks; base_config := None |}.




(** A rendering of a parameter vector that tells any two vectors apart,
    standing for [str] of a numpy array. *)
Definition show_params (params : list Q) : string :=
  String.concat " "
    (map (fun q => pretty (Qnum q) +:+ "/" +:+ pretty (Z.pos (Qden q))) params).

(** An optimizer over two days with every yield at its target. *)
Definition flat_days_optimizer : YieldOptimizer :=
  {| opt_data :=
       [flat_row;
        {| date := day 1; cmBTC := 500; cmUSD := 1400; cmBRL := 2000 |}];
     base_config := None |}.

(** [optimize_distribution_weights] with the method 'genetic' on that
    optimizer, the searches being one-step searches. *)
Definition genetic_run (objective : string) (s : OptState)
  : outcome OptimizationResult * OptState :=
  optimize_distribution_weights (fun _ _ => 0) (fun _ => 0) 0
    show_params false
    (fun _ _ _ _ _ _ => failing_search)
    (fun f bounds seed _ _ _ => one_step_search f (map fst bounds) seed)
    (fun f x0 _ _ seed => one_step_search f x0 seed)
    flat_days_optimizer objective None None "genetic" (day 0) (day 1) s.

(** The optimizer after it has served a run for another objective. *)
Definition served_optimizer : OptState :=
  Eval vm_compute in snd (genetic_run "total_rebalances" (fresh_optimizer 0)).

Definition fresh_run : outcome OptimizationResult :=
  Eval vm_compute in fst (genetic_run "total_return" (fresh_optimizer 0)).

Definition served_run : outcome OptimizationResult :=
  Eval vm_compute in fst (genetic_run "total_return" served_optimizer).

(** ** Auxiliary definitions for the further properties *)

(** The total that the trigger compares with the threshold. *)
Definition code_total_excess (cfg : OptimizationConfig) (row : Row) : Q :=
  0 + py_max0 (cmBTC row - target_of cfg "cmBTC")
  + py_max0 (cmUSD row - target_of cfg "cmUSD")
  + py_max0 (cmBRL row - target_of cfg "cmBRL").

(** The yields of a row do not exceed their targets. *)
Definition at_or_below_target (cfg : OptimizationConfig) (row : Row) : Prop :=
  cmBTC row <= target_of cfg "cmBTC"
  /\ cmUSD row <= target_of cfg "cmUSD"
  /\ cmBRL row <= target_of cfg "cmBRL".

(** A balance compounded over the rows, one after the other. *)
Definition compound_over (col : Row -> Q) (rows : list Row) (balance : Q) : Q :=
  fold_left (fun v row => compounded (col row) v) rows balance.

(** A recorded event that is a full record for one of the rows: dated as the
    row, with an excess that reached the threshold and the configured gas
    cost. *)
Definition full_event (cfg : OptimizationConfig) (rows : list Row)
    (ev : option RebalanceEvent) : Prop :=
  exists e row,
    ev = Some e
    /\ In row rows
    /\ ev_date e = date row
    /\ total_excess_yield e = code_total_excess cfg row
    /\ rebalance_threshold cfg <= total_excess_yield e
    /\ gas_cost e = gas_cost_usd cfg.

(** ** metrics.py and helpers.py: further functions *)

(** [Series.prod()]: a left fold from [1]. *)
Definition py_prod (l : list Q) : Q := fold_left Qmult l 1.

(** [PerformanceMetrics.total_return] *)
Definition PerformanceMetrics_total_return (returns : list Q) : Q :=
  if (length returns =? 0)%nat then 0
  else py_prod (map (fun r => 1 + r) returns) - 1.

(** A first evaluation of the objective on a new optimizer. *)
Definition first_evaluation : outcome score * OptState :=
  Eval vm_compute in
    objective_function (fun _ _ => 0) (fun _ => 0) 0 (fun _ => "params")
      two_shocks_optimizer "total_return" (day 0) (day 1) default_x0
      (fresh_optimizer 0).

(** The weights of a parameter vector meet the default constraints of the
    search: they sum to one and each lies between the minimum and the
    maximum allocation. *)
Definition feasible_weights (p0 p1 p2 p3 : Q) : Prop :=
  p0 + p1 + p2 + p3 == 1
  /\ (min_allocation <= p0 /\ p0 <= max_allocation)
  /\ (min_allocation <= p1 /\ p1 <= max_allocation)
  /\ (min_allocation <= p2 /\ p2 <= max_allocation)
  /\ (min_allocation <= p3 /\ p3 <= max_allocation).

(** ** optimizer.py and helpers.py: validation of a result *)

(** [s.endswith(suffix)] *)
Definition str_endswith (s suffix : string) : bool :=
  let n := String.length s in
  let m := String.length suffix in
  (m <=? n)%nat && String.eqb (String.substring (n - m) m s) suffix.

(** helpers.py: [validate_asset_weights] *)
Definition validate_asset_weights (weights : dict) (tolerance : Q) : bool :=
  let total_weight := py_sum (dict_values weights) in
  Qle_bool (Qabs (total_weight - 1)) tolerance.

(** [validate_optimization_results]; the loop that returns [False] at the
    first parameter out of bounds is a conjunction over the parameters. *)
Definition validate_optimization_results (result : OptimizationResult) : bool :=
  let allocation_weights :=
    List.filter (fun kv => str_endswith (fst kv) "_allocation")
      (optimal_params result) in
  if negb (validate_asset_weights allocation_weights (1 # 1000000)) then false
  else
    let bounds := _setup_bounds None in
    forallb
      (fun '(param_name, (min_bound, max_bound)) =>
         match dict_get (optimal_params result) param_name with
         | Some value => negb (Qltb value min_bound || Qltb max_bound value)
         | None => true
         end)
      (combine param_names bounds).

(** The six parameters lie within the default bounds of the search. *)
Definition within_default_bounds (x0 x1 x2 x3 x4 x5 : Q) : Prop :=
  (min_allocation <= x0 /\ x0 <= max_allocation)
  /\ (min_allocation <= x1 /\ x1 <= max_allocation)
  /\ (min_allocation <= x2 /\ x2 <= max_allocation)
  /\ (min_treasury_allocation <= x3 /\ x3 <= max_treasury_allocation)
  /\ (rebalance_threshold_min <= x4 /\ x4 <= rebalance_threshold_max)
  /\ (transaction_cost_min <= x5 /\ x5 <= transaction_cost_max).

(** ** backtester.py: stress scenarios *)

(** A scenario dictionary; a missing key is [None].  The yields of a
    frame are its three asset columns. *)
Record Scenario : Type := {
  sc_name : option string;
  sc_type : option string;
  sc_shocks : option dict;
  sc_multiplier : option Q
}.

(** [row[asset]] for an asset column *)
Definition column (asset : string) (r : Row) : Q :=
  if String.eqb asset "cmBTC" then cmBTC r
  else if String.eqb asset "cmUSD" then cmUSD r
  else cmBRL r.

(** [data[asset] = f(data[asset])], on one row *)
Definition map_column (asset : string) (f : Q -> Q) (r : Row) : Row :=
  {| date := date r;
     cmBTC := if String.eqb asset "cmBTC" then f (cmBTC r) else cmBTC r;
     cmUSD := if String.eqb asset "cmUSD" then f (cmUSD r) else cmUSD r;
     cmBRL := if String.eqb asset "cmBRL" then f (cmBRL r) else cmBRL r |}.

(** [if asset in stressed_data.columns: stressed_data[asset] += shock];
    adding a number to the column of dates is outside the model. *)
Definition column_iadd (stressed_data : list Row) (entry : string * Q)
  : outcome (list Row) :=
  let '(asset, shock) := entry in
  if String.eqb asset "date" then Undef
  else Ok (map (map_column asset (fun y => y + shock)) stressed_data).

(** The body of the loop of 'volatility_increase' for one asset.  On an
    empty frame the mean is not a number and the column stays empty. *)
Definition scale_deviations (volatility_multiplier : Q)
    (stressed_data : list Row) (asset : string) : list Row :=
  match stressed_data with
  | [] => []
  | _ :: _ =>
      let mean_yield :=
        py_sum (map (column asset) stressed_data)
        / inject_Z (Z.of_nat (length stressed_data)) in
      map (map_column asset
             (fun y => mean_yield + (y - mean_yield) * volatility_multiplier))
        stressed_data
  end.

(** [_apply_stress_scenario]; 'correlation_breakdown' draws from numpy's
    global generator and is outside the model. *)
Definition _apply_stress_scenario (self : CCYOEBacktester) (scenario : Scenario)
  : outcome (list Row) :=
  let stressed_data := self_data self in
  let scenario_type := default "yield_shock" (sc_type scenario) in
  if String.eqb scenario_type "yield_shock" then
    ofor_each (default [] (sc_shocks scenario)) column_iadd stressed_data
  else if String.eqb scenario_type "volatility_increase" then
    let volatility_multiplier := default (3 # 2) (sc_multiplier scenario) in
    Ok (fold_left (scale_deviations volatility_multiplier) assets stressed_data)
  else if String.eqb scenario_type "correlation_breakdown" then Undef
  else Ok stressed_data.

Section StressTest.

Variable float_pow : Q -> Q -> Q.
Variable series_std : list Q -> Q.
Variable sqrt_252 : Q.

Definition run_stress_test (self : CCYOEBacktester)
    (start_date end_date : timestamp) (stress_scenarios : list Scenario)
  : H (list (string * BacktestResults)) :=
  for_each stress_scenarios
    (fun stress_results scenario =>
       let scenario_name := default "unnamed_scenario" (sc_name scenario) in
       (stressed_data <- lift (_apply_stress_scenario self scenario) ;;
        let temp_backtester :=
          CCYOEBacktester__init__ stressed_data (self_config self) in
        results <- run_backtest float_pow series_std sqrt_252 temp_backtester
                     start_date end_date None ;;
        ret (dict_set stress_results scenario_name results))%monad)
    [].

End StressTest.

(** A scenario that doubles the deviations of every yield from its mean. *)
Definition doubled_volatility : Scenario :=
  {| sc_name := Some "vol";
     sc_type := Some "volatility_increase";
     sc_shocks := None;
     sc_multiplier := Some 2 |}.

(** A scenario that lowers the yield of cmBRL by 300 bp. *)
Definition brl_shock : Scenario :=
  {| sc_name := Some "brl";
     sc_type := None;
     sc_shocks := Some [("cmBRL", - (300)); ("SELIC", 50)];
     sc_multiplier := None |}.

(** All the shocks of a 'yield_shock' scenario, on one row *)
Definition shift_row (shocks : dict) (r : Row) : Row :=
  fold_left (fun r entry => map_column (fst entry) (fun y => y + snd entry) r)
    shocks r.

(** The simulation of [two_shocks] under the default configuration. *)
Definition two_shocks_simulation
  : outcome SimulationResults * gmap nat dict :=
  Eval vm_compute in _run_simulation default_config two_shocks 0%nat store0.

(** ** backtester.py: grid search *)

(** [setattr(config, name, value)] for a number [value]; no validation is
    run again.  A name that is no field adds an attribute that nothing
    reads.  The two day counts take whole numbers; a fraction there, or a
    number in place of a dictionary, is outside the model. *)
Definition config_setattr (c : OptimizationConfig) (name : string) (value : Q)
  : outcome OptimizationConfig :=
  let whole := (Z.pos (Qden (Qred value)) =? 1)%Z in
  if String.eqb name "under_supplied_allocation" then
    Ok (set_allocations c value (strategic_growth_allocation c)
          (proportional_allocation c) (treasury_allocation c))
  else if String.eqb name "strategic_growth_allocation" then
    Ok (set_allocations c (under_supplied_allocation c) value
          (proportional_allocation c) (treasury_allocation c))
  else if String.eqb name "proportional_allocation" then
    Ok (set_allocations c (under_supplied_allocation c)
          (strategic_growth_allocation c) value (treasury_allocation c))
  else if String.eqb name "treasury_allocation" then
    Ok (set_allocations c (under_supplied_allocation c)
          (strategic_growth_allocation c) (proportional_allocation c) value)
  else if String.eqb name "rebalance_threshold" then
    Ok (set_rebalance_threshold c value)
  else if String.eqb name "transaction_cost" then
    Ok (set_transaction_cost c value)
  else if String.eqb name "gas_cost_usd" then
    Ok {| under_supplied_allocation := under_supplied_allocation c;
          strategic_growth_allocation := strategic_growth_allocation c;
          proportional_allocation := proportional_allocation c;
          treasury_allocation := treasury_allocation c;
          rebalance_threshold := rebalance_threshold c;
          min_rebalance_interval := min_rebalance_interval c;
          max_rebalance_frequency := max_rebalance_frequency c;
          target_yields := target_yields c;
          supply_caps := supply_caps c;
          transaction_cost := transaction_cost c;
          gas_cost_usd := value |}
  else if String.eqb name "min_rebalance_interval" then
    if whole then
      Ok {| under_supplied_allocation := under_supplied_allocation c;
            strategic_growth_allocation := strategic_growth_allocation c;
            proportional_allocation := proportional_allocation c;
            treasury_allocation := treasury_allocation c;
            rebalance_threshold := rebalance_threshold c;
            min_rebalance_interval := Qnum (Qred value);
            max_rebalance_frequency := max_rebalance_frequency c;
            target_yields := target_yields c;
            supply_caps := supply_caps c;
            transaction_cost := transaction_cost c;
            gas_cost_usd := gas_cost_usd c |}
    else Undef
  else if String.eqb name "max_rebalance_frequency" then
    if whole then
      Ok {| under_supplied_allocation := under_supplied_allocation c;
            strategic_growth_allocation := strategic_growth_allocation c;
            proportional_allocation := proportional_allocation c;
            treasury_allocation := treasury_allocation c;
            rebalance_threshold := rebalance_threshold c;
            min_rebalance_interval := min_rebalance_interval c;
            max_rebalance_frequency := Qnum (Qred value);
            target_yields := target_yields c;
            supply_caps := supply_caps c;
            transaction_cost := transaction_cost c;
            gas_cost_usd := gas_cost_usd c |}
    else Undef
  else if String.eqb name "target_yields" || String.eqb name "supply_caps"
  then Undef
  else Ok c.

(** [_generate_parameter_combinations]: a range is a list of numbers
    ([Some]) or something that is not a list ([None]) and is skipped. *)
Definition _generate_parameter_combinations
    (parameter_ranges : list (string * option (list Q))) : list dict :=
  flat_map
    (fun '(param_name, param_range) =>
       match param_range with
       | Some values => map (fun value => [(param_name, value)]) values
       | None => []
       end)
    parameter_ranges.

Section GridSearch.

Variable float_pow : Q -> Q -> Q.
Variable series_std : list Q -> Q.
Variable sqrt_252 : Q.

(** The body of the loop of [optimize_parameters].  The state is
    [(best_config, best_results, best_metric_value)], where [None] stands
    for [float('-inf')].  The temporary backtester runs on a portfolio of
    its own.  An exception of the backtest or a missing attribute is
    caught; an attribute that is no number of the model is outside it. *)
Definition grid_step (self : CCYOEBacktester)
    (start_date end_date : timestamp) (optimization_metric : string)
    (best : option OptimizationConfig * option BacktestResults * option Q)
    (params : dict)
  : outcome (option OptimizationConfig * option BacktestResults * option Q) :=
  (test_config <~
     ofor_each params
       (fun test_config '(param_name, param_value) =>
          config_setattr test_config param_name param_value)
       (self_config self) ;;
   let temp_backtester :=
     CCYOEBacktester__init__ (self_data self) test_config in
   match run_backtest_fresh float_pow series_std sqrt_252 temp_backtester
           start_date end_date with
   | Ok results =>
       match results_getattr results optimization_metric with
       | Some (Ok metric_value) =>
           if match snd best with
              | None => true
              | Some best_metric_value => Qltb best_metric_value metric_value
              end
           then Ok (Some test_config, Some results, Some metric_value)
           else Ok best
       | Some _ => Undef
       | None => Ok best
       end
   | Raise _ => Ok best
   | Undef => Undef
   end)%monad.

Definition optimize_parameters (self : CCYOEBacktester)
    (start_date end_date : timestamp)
    (parameter_ranges : list (string * option (list Q)))
    (optimization_metric : string)
  : outcome (option OptimizationConfig * option BacktestResults) :=
  let param_combinations :=
    _generate_parameter_combinations parameter_ranges in
  (best <~
     ofor_each param_combinations
       (grid_step self start_date end_date optimization_metric)
       (None, None, None) ;;
   Ok (fst best))%monad.

(** The grid point [name = value] gives the configuration [c], whose
    backtest gives [r] with the metric at [m]. *)
Definition grid_point (self : CCYOEBacktester)
    (start_date end_date : timestamp) (optimization_metric : string)
    (name : string) (value : Q)
    (c : OptimizationConfig) (r : BacktestResults) (m : Q) : Prop :=
  config_setattr (self_config self) name value = Ok c
  /\ run_backtest_fresh float_pow series_std sqrt_252
       (CCYOEBacktester__init__ (self_data self) c) start_date end_date
     = Ok r
  /\ results_getattr r optimization_metric = Some (Ok m).

(** The same for a combination of parameters. *)
Definition combination_point (self : CCYOEBacktester)
    (start_date end_date : timestamp) (optimization_metric : string)
    (params : dict)
    (c : OptimizationConfig) (r : BacktestResults) (m : Q) : Prop :=
  ofor_each params
    (fun test_config '(param_name, param_value) =>
       config_setattr test_config param_name param_value)
    (self_config self) = Ok c
  /\ run_backtest_fresh float_pow series_std sqrt_252
       (CCYOEBacktester__init__ (self_data self) c) start_date end_date
     = Ok r
  /\ results_getattr r optimization_metric = Some (Ok m).

(** The invariant of the loop of [optimize_parameters] after the
    combinations [seen]. *)
Definition grid_inv (self : CCYOEBacktester)
    (start_date end_date : timestamp) (optimization_metric : string)
    (seen : list dict)
    (best : option OptimizationConfig * option BacktestResults * option Q)
  : Prop :=
  match best with
  | (Some c, Some r, Some m) =>
      (exists params,
         In params seen
         /\ combination_point self start_date end_date optimization_metric
              params c r m)
      /\ forall params c' r' m',
           In params seen ->
           combination_point self start_date end_date optimization_metric
             params c' r' m' ->
           m' <= m
  | (None, None, None) =>
      forall params c r m,
        In params seen ->
        ~ combination_point self start_date end_date optimization_metric
            params c r m
  | _ => False
  end.

End GridSearch.

(** A grid over two thresholds, with a range that is not a list. *)
Definition threshold_grid : list (string * option (list Q)) :=
  [("rebalance_threshold", Some [50; 5000]); ("transaction_cost", None)].

Definition threshold_grid_search
  : outcome (option OptimizationConfig * option BacktestResults) :=
  Eval vm_compute in
    optimize_parameters (fun _ _ => 0) (fun _ => 0) 0
      (CCYOEBacktester__init__ two_shocks default_config) (day 0) (day 1)
      threshold_grid "total_return".

(** ** backtester.py: data preparation of a frame with missing values *)

(** A row of a frame in which a yield may be missing ([NaN]). *)
Record RawRow : Type := {
  raw_date : timestamp;
  raw_cmBTC : option Q;
  raw_cmUSD : option Q;
  raw_cmBRL : option Q
}.

Definition raw_columns : list (RawRow -> option Q) :=
  [raw_cmBTC; raw_cmUSD; raw_cmBRL].

(** A row without a missing value, as a row of such a frame. *)
Definition raw (r : Row) : RawRow :=
  {| raw_date := date r;
     raw_cmBTC := Some (cmBTC r);
     raw_cmUSD := Some (cmUSD r);
     raw_cmBRL := Some (cmBRL r) |}.

(** [Series.fillna(method='ffill')]: a missing value takes the last value
    before it, if there is one. *)
Fixpoint ffill_from (last : option Q) (col : list (option Q))
  : list (option Q) :=
  match col with
  | [] => []
  | v :: col' =>
      let v' := match v with Some _ => v | None => last end in
      v' :: ffill_from v' col'
  end.

Definition ffill (col : list (option Q)) : list (option Q) :=
  ffill_from None col.

(** [Series.fillna(method='bfill')]: a missing value takes the next value
    after it, if there is one. *)
Fixpoint bfill (col : list (option Q)) : list (option Q) :=
  match col with
  | [] => []
  | v :: col' =>
      let rest := bfill col' in
      match v with Some _ => v | None => hd None rest end :: rest
  end.

(** The frame with its three columns of yields replaced. *)
Fixpoint with_columns (data : list RawRow) (btc usd brl : list (option Q))
  : list RawRow :=
  match data, btc, usd, brl with
  | d :: data', b :: btc', u :: usd', r :: brl' =>
      {| raw_date := raw_date d;
         raw_cmBTC := b; raw_cmUSD := u; raw_cmBRL := r |}
      :: with_columns data' btc' usd' brl'
  | _, _, _, _ => []
  end.

(** [DataFrame.fillna(method=...)]: every column is filled on its own. *)
Definition fillna (fill : list (option Q) -> list (option Q))
    (data : list RawRow) : list RawRow :=
  with_columns data
    (fill (map raw_cmBTC data))
    (fill (map raw_cmUSD data))
    (fill (map raw_cmBRL data)).

(** [_prepare_data] on a frame that may have missing values.  pandas'
    [sort_values] does not say in which order it leaves rows of the same
    date, so the sort is a parameter.  The backtester above works on frames
    without missing values, on which the two fills change nothing. *)
Module Missing.

Definition _prepare_data (sort_values : list RawRow -> list RawRow)
    (data : list RawRow) : list RawRow :=
  let data := sort_values data in
  fillna bfill (fillna ffill data).

End Missing.

(** [data.sort_values('date')] by insertion. *)
Fixpoint insert_raw_by_date (r : RawRow) (l : list RawRow) : list RawRow :=
  match l with
  | [] => [r]
  | x :: l' =>
      if (raw_date r <=? raw_date x)%Z then r :: l
      else x :: insert_raw_by_date r l'
  end.

Definition sort_raw_values_date (l : list RawRow) : list RawRow :=
  fold_right insert_raw_by_date [] l.



(** * Properties *)

(** ** Rational arithmetic *)

Lemma Qltb_true (a b : Q) : Qltb a b = true <-> a < b.
Proof.
  unfold Qltb. rewrite negb_true_iff, <- not_true_iff_false, Qle_bool_iff.
  split; [apply Qnot_le_lt | apply Qlt_not_le].
Qed.

Lemma Qltb_false (a b : Q) : Qltb a b = false <-> b <= a.
Proof.
  unfold Qltb. rewrite negb_false_iff. apply Qle_bool_iff.
Qed.


Lemma py_max0_nonneg (x : Q) : 0 <= py_max0 x.
Proof.
  unfold py_max0. destruct (Qltb 0 x) eqn:E; [|lra].
  apply Qltb_true in E. lra.
Qed.

Lemma fold_left_Qplus (l : list Q) (a : Q) :
  fold_left Qplus l a == a + fold_left Qplus l 0.
Proof.
  revert a. induction l as [|x l IH]; intros a; simpl.
  - lra.
  - rewrite (IH (a + x)), (IH (0 + x)). lra.
Qed.

Lemma py_sum_cons (x : Q) (l : list Q) : py_sum (x :: l) == x + py_sum l.
Proof.
  unfold py_sum. simpl. rewrite fold_left_Qplus. lra.
Qed.

Lemma py_sum_nil : py_sum [] == 0.
Proof. reflexivity. Qed.

Lemma py_div_Ok (x y q : Q) : py_div x y = Ok q -> ~ y == 0 /\ q = x / y.
Proof.
  unfold py_div. destruct (Qeq_bool y 0) eqn:E; [discriminate|].
  intros [= <-]. split; [|reflexivity].
  intros Hy. apply Qeq_bool_iff in Hy. congruence.
Qed.

Lemma np_isclose_one (w : Q) :
  np_isclose w 1 = true <-> Qabs (w - 1) <= weight_tolerance.
Proof.
  unfold np_isclose, weight_tolerance. rewrite Qle_bool_iff.
  assert (E : (1 # 100000000) + (1 # 100000) * Qabs 1 == 1001 # 100000000)
    by reflexivity.
  rewrite E. reflexivity.
Qed.

(** ** Dictionaries *)

Lemma dict_iadd_sum (d d' : dict) (k : string) (v : Q) :
  dict_iadd d k v = Ok d' ->
  py_sum (dict_values d') == py_sum (dict_values d) + v.
Proof.
  unfold dict_iadd, dict_getitem. revert d'.
  induction d as [|[k0 v0] d IH]; intros d'; simpl; [discriminate|].
  destruct (String.eqb k0 k) eqn:E.
  - simpl. intros [= <-]. unfold dict_values. simpl.
    rewrite !py_sum_cons. lra.
  - destruct (dict_get d k) eqn:G; simpl; [|discriminate].
    intros [= <-]. unfold dict_values in *. simpl.
    rewrite !py_sum_cons. rewrite (IH _ eq_refl). lra.
Qed.

Lemma dict_iadd_keys (d d' : dict) (k : string) (v : Q) :
  dict_iadd d k v = Ok d' -> dict_keys d' = dict_keys d.
Proof.
  unfold dict_iadd, dict_getitem. revert d'.
  induction d as [|[k0 v0] d IH]; intros d'; simpl; [discriminate|].
  destruct (String.eqb k0 k) eqn:E.
  - simpl. intros [= <-]. reflexivity.
  - destruct (dict_get d k) eqn:G; simpl; [|discriminate].
    intros [= <-]. unfold dict_keys in *. simpl. f_equal. apply (IH _ eq_refl).
Qed.

(** ** The redistribution algorithm *)

Lemma ofor_each_total {B} (l : list B) (body : dict -> B -> outcome dict)
    (delta : B -> Q) :
  (forall acc x acc', body acc x = Ok acc' ->
     py_sum (dict_values acc') == py_sum (dict_values acc) + delta x) ->
  forall acc r, ofor_each l body acc = Ok r ->
    py_sum (dict_values r) == py_sum (dict_values acc) + py_sum (map delta l).
Proof.
  intros Hbody. induction l as [|x l IH]; intros acc r; simpl.
  - intros [= <-]. rewrite py_sum_nil. lra.
  - destruct (body acc x) as [acc'| |] eqn:E; simpl; try discriminate.
    intros Hr. rewrite (IH _ _ Hr), (Hbody _ _ _ E), py_sum_cons. lra.
Qed.

Lemma py_sum_all (l : list (string * Q)) (f : string * Q -> bool) (c : Q) :
  Forall (fun x => f x = true) l ->
  py_sum (map (fun x => if f x then c else 0) l)
  == inject_Z (Z.of_nat (length l)) * c.
Proof.
  induction 1 as [|x l Hx _ IH].
  - reflexivity.
  - cbn [map length]. rewrite py_sum_cons, IH, Hx, Nat2Z.inj_succ.
    unfold Z.succ. rewrite inject_Z_plus. change (inject_Z 1) with 1. lra.
Qed.

Lemma py_sum_none (l : list (string * Q)) (f : string * Q -> bool) (c : Q) :
  Forall (fun x => f x = false) l ->
  py_sum (map (fun x => if f x then c else 0) l) == 0.
Proof.
  induction 1 as [|x l Hx _ IH].
  - reflexivity.
  - cbn [map]. rewrite py_sum_cons, IH, Hx. lra.
Qed.

Lemma py_sum_shares (l : list (string * Q)) (c t : Q) :
  ~ t == 0 ->
  py_sum (map (fun x => c * (snd x / t)) l) == c * (py_sum (map snd l) / t).
Proof.
  intros Ht. induction l as [|x l IH].
  - cbn [map]. rewrite !py_sum_nil. field. exact Ht.
  - cbn [map]. rewrite !py_sum_cons, IH. field. exact Ht.
Qed.

(** What the three loops add to the total of [redistribution]: the
    under-supplied amount when it is positive, a third of the strategic
    amount per eligible entry, and the proportional amount. *)
Lemma redistribution_total (cfg : OptimizationConfig)
    (portfolio excess_yields : dict) (total_excess : Q) (r : dict) :
  _calculate_yield_redistribution cfg portfolio excess_yields total_excess = Ok r ->
  portfolio <> [] ->
  py_sum (dict_values r)
  == (if Qltb 0 (total_excess * under_supplied_allocation cfg)
      then total_excess * under_supplied_allocation cfg else 0)
     + py_sum (map (fun x => if eligible cfg x
                             then total_excess * strategic_growth_allocation cfg / 3
                             else 0) portfolio)
     + total_excess * proportional_allocation cfg.
Proof.
  unfold _calculate_yield_redistribution. intros Hr Hne.
  match type of Hr with
  | obind ?o1 _ = _ => destruct o1 as [r1| |] eqn:E1; simpl in Hr; try discriminate
  end.
  match type of Hr with
  | obind ?o2 _ = _ => destruct o2 as [r2| |] eqn:E2; simpl in Hr; try discriminate
  end.
  match type of Hr with
  | obind ?o3 _ = _ => destruct o3 as [r3| |] eqn:E3; simpl in Hr; try discriminate
  end.
  injection Hr as <-.
  (* the proportional loop *)
  assert (Ht : ~ py_sum (dict_values portfolio) == 0).
  { destruct portfolio as [|[a v] p']; [congruence|].
    cbn [ofor_each] in E3.
    destruct (py_div v (py_sum (dict_values ((a, v) :: p')))) eqn:D;
      cbn [obind] in E3; try discriminate.
    apply py_div_Ok in D. tauto. }
  eapply (ofor_each_total portfolio _
            (fun x => total_excess * proportional_allocation cfg
                      * (snd x / py_sum (dict_values portfolio)))) in E3.
  2:{ intros acc [a v] acc'. simpl.
      destruct (py_div v (py_sum (dict_values portfolio))) as [w| |] eqn:D;
        simpl; try discriminate.
      apply py_div_Ok in D as [_ ->]. apply dict_iadd_sum. }
  rewrite py_sum_shares in E3 by exact Ht.
  (* the strategic loop *)
  eapply (ofor_each_total portfolio _
            (fun x => if eligible cfg x
                      then total_excess * strategic_growth_allocation cfg / 3
                      else 0)) in E2.
  2:{ intros acc [a v] acc'. unfold eligible. simpl.
      destruct (utilization cfg a v) as [u| |]; simpl; try discriminate.
      destruct (Qltb (8 # 10) u).
      - apply dict_iadd_sum.
      - intros [= <-]. lra. }
  (* the under-supplied loop *)
  eapply (ofor_each_total _ _
            (fun _ : string =>
               if Qltb 0 (total_excess * under_supplied_allocation cfg)
               then total_excess * under_supplied_allocation cfg / 2
               else 0)) in E1.
  2:{ intros acc a acc'.
      destruct (Qltb 0 (total_excess * under_supplied_allocation cfg)).
      - apply dict_iadd_sum.
      - intros [= <-]. lra. }
  rewrite E3, E2, E1. cbn [map]. rewrite !py_sum_cons, py_sum_nil.
  unfold dict_values at 1. cbn [map snd]. rewrite !py_sum_cons, py_sum_nil.
  fold (dict_values portfolio).
  destruct (Qltb 0 (total_excess * under_supplied_allocation cfg)); field; exact Ht.
Qed.

(** ** The monad *)

Lemma bind_Ok {S A B} (m : M S A) (k : A -> M S B) (s s' : S) (b : B) :
  bind m k s = (Ok b, s') ->
  exists a s1, m s = (Ok a, s1) /\ k a s1 = (Ok b, s').
Proof.
  unfold bind. destruct (m s) as [[a| |] s1]; try discriminate.
  intros Hk. exists a, s1. split; [reflexivity | exact Hk].
Qed.

Lemma lift_Ok {S A} (o : outcome A) (s s' : S) (a : A) :
  lift o s = (Ok a, s') -> o = Ok a /\ s' = s.
Proof. unfold lift. intros [= -> ->]. split; reflexivity. Qed.

Lemma ret_Ok {S A} (a b : A) (s s' : S) :
  ret a s = (Ok b, s') -> b = a /\ s' = s.
Proof. unfold ret. intros [= -> ->]. split; reflexivity. Qed.

Lemma load_Ok (l : loc) (h h' : gmap nat dict) (d : dict) :
  load l h = (Ok d, h') -> h !! l = Some d /\ h' = h.
Proof.
  unfold load. destruct (h !! l); intros [= <- <-]. split; reflexivity.
Qed.

(** Takes the hypotheses [m s = (Ok b, s')] apart along the structure of
    [m]. *)
Ltac inv_M :=
  repeat match goal with
    | H : bind _ _ _ = (Ok _, _) |- _ =>
        let a := fresh "a" in
        let s := fresh "s" in
        let Ha := fresh "Ha" in
        apply bind_Ok in H as (a & s & Ha & H)
    | H : load _ _ = (Ok _, _) |- _ => apply load_Ok in H as [? ?]; subst
    | H : lift _ _ = (Ok _, _) |- _ => apply lift_Ok in H as [? ?]; subst
    | H : ret _ _ = (Ok _, _) |- _ => apply ret_Ok in H as [? ?]; subst
    end.

(** Takes one hypothesis [m s = (Ok b, s')] apart along the binds of [m]. *)
Ltac inv_bind Hm :=
  repeat match type of Hm with
    | bind _ _ _ = (Ok _, _) =>
        let a := fresh "a" in
        let s := fresh "s" in
        let Ha := fresh "Ha" in
        apply bind_Ok in Hm as (a & s & Ha & Hm)
    end.

(** ** Conservation of the redistributed amount *)

Lemma execute_rebalancing_event (cfg : OptimizationConfig) (portfolio : loc)
    (excess_yields current_yields : dict) (date : timestamp)
    (h h' : gmap nat dict) (ev : RebalanceEvent) :
  _execute_rebalancing cfg portfolio excess_yields current_yields date h
  = (Ok (Some ev), h') ->
  exists d,
    h !! portfolio = Some d
    /\ 0 < total_excess_yield ev
    /\ total_excess_yield ev = py_sum (dict_values excess_yields)
    /\ ev_date ev = date
    /\ _calculate_yield_redistribution cfg d excess_yields (total_excess_yield ev)
       = Ok (redistribution ev).
Proof.
  unfold _execute_rebalancing.
  destruct (Qle_bool (py_sum (dict_values excess_yields)) 0) eqn:E.
  - intros Hr. apply ret_Ok in Hr as [[=] _].
  - intros Hr. inv_bind Hr.
    apply load_Ok in Ha as [Hd ->].
    apply lift_Ok in Ha0 as [Hc ->].
    apply ret_Ok in Hr as [[= ->] _]. simpl.
    exists a. repeat split; try assumption.
    apply Qnot_le_lt. intros Hle. apply Qle_bool_iff in Hle. congruence.
Qed.

Lemma tolerance_scaled (w te x : Q) :
  0 < te -> Qabs (w - 1) <= weight_tolerance -> x == te * w ->
  Qabs (x - te) <= weight_tolerance * te.
Proof.
  intros Hte Hw Hx. apply Qabs_Qle_condition in Hw as [Hlo Hhi].
  apply Qabs_Qle_condition. rewrite Hx. split; nra.
Qed.

(** C1 (as amended).  For a rebalance event computed from a portfolio that
    holds exactly the three assets, under a configuration whose weights the
    constructor accepts and whose under-supplied weight is not negative:
    when every asset passes the strategic-growth test, the per-asset
    redistribution amounts plus the treasury amount equal the event's total
    excess up to the tolerance of the weight check; when no asset passes
    it, the strategic amount is given to nobody and the per-asset amounts
    plus the treasury and strategic amounts equal the total excess up to
    that tolerance. *)
Theorem C1_redistribution_conservation
    (cfg : OptimizationConfig) (portfolio : loc)
    (excess_yields current_yields : dict) (date : timestamp)
    (h h' : gmap nat dict) (d : dict) (ev : RebalanceEvent) :
  h !! portfolio = Some d ->
  dict_keys d ≡ₚ assets ->
  0 <= under_supplied_allocation cfg ->
  np_isclose (total_allocation cfg) 1 = true ->
  _execute_rebalancing cfg portfolio excess_yields current_yields date h
  = (Ok (Some ev), h') ->
  let te := total_excess_yield ev in
  let distributed :=
    py_sum (dict_values (redistribution ev)) + te * treasury_allocation cfg in
  (Forall (fun x => eligible cfg x = true) d ->
   Qabs (distributed - te) <= weight_tolerance * te)
  /\ (Forall (fun x => eligible cfg x = false) d ->
      Qabs (distributed + te * strategic_growth_allocation cfg - te)
      <= weight_tolerance * te).
Proof.
  intros Hd Hkeys Hu Hw Hev te distributed.
  apply execute_rebalancing_event in Hev as (d' & Hd' & Hte & _ & _ & Hr).
  assert (d' = d) as -> by congruence.
  assert (Hlen : length d = 3%nat).
  { apply Permutation_length in Hkeys. unfold dict_keys in Hkeys.
    rewrite length_map in Hkeys. exact Hkeys. }
  assert (Hne : d <> []) by (intros ->; discriminate).
  apply redistribution_total in Hr; [|exact Hne].
  fold te in Hr, Hte.
  apply np_isclose_one in Hw. unfold total_allocation in Hw.
  assert (HU : (if Qltb 0 (te * under_supplied_allocation cfg)
                then te * under_supplied_allocation cfg else 0)
               == te * under_supplied_allocation cfg).
  { destruct (Qltb 0 (te * under_supplied_allocation cfg)) eqn:E; [reflexivity|].
    apply Qltb_false in E. nra. }
  rewrite HU in Hr. clear HU.
  split; intros Hel.
  - rewrite py_sum_all in Hr by exact Hel. rewrite Hlen in Hr.
    apply (tolerance_scaled _ _ _ Hte Hw).
    unfold distributed. rewrite Hr. change (inject_Z (Z.of_nat 3)) with 3. field.
  - rewrite py_sum_none in Hr by exact Hel.
    apply (tolerance_scaled _ _ _ Hte Hw).
    unfold distributed. rewrite Hr. field.
Qed.

(** C1 fails as stated: with the default configuration and portfolio, a day
    with 300 bp of excess yields an event whose per-asset amounts and
    treasury amount add up to 210 bp; the strategic 90 bp reach nobody. *)
Lemma C1_counterexample :
  exists res h' ev,
    _run_simulation default_config [shock_row] 0%nat store0 = (Ok res, h')
    /\ sim_rebalance_events res = [Some ev]
    /\ total_excess_yield ev == 300
    /\ py_sum (dict_values (redistribution ev))
       + total_excess_yield ev * treasury_allocation default_config == 210
    /\ ~ Qabs (py_sum (dict_values (redistribution ev))
               + total_excess_yield ev * treasury_allocation default_config
               - total_excess_yield ev)
         <= weight_tolerance * total_excess_yield ev.
Proof.
  destruct (_run_simulation default_config [shock_row] 0%nat store0)
    as [o h'] eqn:E.
  vm_compute in E. injection E as <- <-.
  eexists _, _, _. split; [reflexivity|]. split; [reflexivity|].
  split; [vm_compute; reflexivity|]. split; [vm_compute; reflexivity|].
  vm_compute. intros Hle. apply Hle. reflexivity.
Qed.

Lemma C1_redistribution_conservation_witness :
  exists ev h',
    _execute_rebalancing default_config 0%nat shock_excess
      (current_yields_of shock_row) (day 0) store0 = (Ok (Some ev), h')
    /\ Forall (fun x => eligible default_config x = false) default_portfolio
    /\ Qabs (py_sum (dict_values (redistribution ev))
             + total_excess_yield ev * treasury_allocation default_config
             + total_excess_yield ev * strategic_growth_allocation default_config
             - total_excess_yield ev)
       <= weight_tolerance * total_excess_yield ev.
Proof.
  destruct (_execute_rebalancing default_config 0%nat shock_excess
              (current_yields_of shock_row) (day 0) store0)
    as [[[ev|]| |] h'] eqn:E; try (vm_compute in E; discriminate).
  exists ev, h'. split; [reflexivity|].
  assert (Hnone : Forall (fun x => eligible default_config x = false)
                    default_portfolio)
    by (repeat constructor).
  split; [exact Hnone|].
  refine (proj2 (C1_redistribution_conservation default_config 0%nat shock_excess
                   (current_yields_of shock_row) (day 0) store0 h'
                   default_portfolio ev _ _ _ _ E) Hnone).
  - reflexivity.
  - reflexivity.
  - vm_compute. discriminate.
  - reflexivity.
Defined.

(** ** The strategic-growth bucket *)

(** C2.  The source at two inputs.  With cmBTC at 90% of its cap the
    specification makes cmBTC the only eligible asset and gives it the whole
    strategic amount, 90 bp of 300; the source divides the ratio by a
    further [1e6], finds nobody eligible, and cmBTC receives only its
    under-supplied and proportional shares.  With the balance a million
    times larger the source does find cmBTC eligible, alone, and gives it a
    third of the strategic amount, 30 bp, where the equal share among the
    eligible assets is again 90 bp. *)
Theorem C2_strategic_bucket_at_failing_inputs :
  (spec_strategic_share default_config btc_near_cap 300 ("cmBTC", 18) == 90
   /\ exists r v,
        _calculate_yield_redistribution default_config btc_near_cap
          shock_excess 300 = Ok r
        /\ dict_get r "cmBTC" = Some v
        /\ v == 300 * (40 # 100) / 2 + 0 + 300 * (20 # 100) * (18 / (18 + 25 + 40)))
  /\ (eligible default_config ("cmBTC", 18000000) = true
      /\ List.filter (eligible default_config) btc_scaled
         = [("cmBTC", 18000000)]
      /\ exists r v,
           _calculate_yield_redistribution default_config btc_scaled
             shock_excess 300 = Ok r
           /\ dict_get r "cmBTC" = Some v
           /\ v == 300 * (40 # 100) / 2 + 30
                   + 300 * (20 # 100) * (18000000 / (18000000 + 25 + 40))).
Proof.
  split.
  - split; [vm_compute; reflexivity|].
    destruct (_calculate_yield_redistribution default_config btc_near_cap
                shock_excess 300) as [r| |] eqn:E;
      try (vm_compute in E; discriminate).
    vm_compute in E. injection E as <-.
    eexists _, _. split; [reflexivity|]. split; [reflexivity|].
    vm_compute. reflexivity.
  - split; [vm_compute; reflexivity|]. split; [vm_compute; reflexivity|].
    destruct (_calculate_yield_redistribution default_config btc_scaled
                shock_excess 300) as [r| |] eqn:E;
      try (vm_compute in E; discriminate).
    vm_compute in E. injection E as <-.
    eexists _, _. split; [reflexivity|]. split; [reflexivity|].
    vm_compute. reflexivity.
Qed.

(** ** Construction of a configuration *)

(** C5 fails as stated: a configuration whose rebalance threshold is zero is
    constructed without error and keeps the zero. *)
Lemma C5_counterexample :
  arg_rebalance_threshold zero_threshold_args <= 0
  /\ exists c,
       OptimizationConfig__post_init__ zero_threshold_args = Ok c
       /\ rebalance_threshold c = 0.
Proof.
  split.
  - vm_compute. discriminate.
  - eexists. split; reflexivity.
Qed.

(** C5 (as amended).  Construction raises exactly when the four weights do
    not sum to 1.0 within the tolerance of [np.isclose] (1e-08 + 1e-05), and
    then with [ValueError]; no other field is checked.  When construction
    succeeds every field holds the value that was passed, the two
    dictionaries defaulting when absent. *)
Theorem C5_constructor_validation (a : OptimizationConfigArgs) :
  ((exists e, OptimizationConfig__post_init__ a = Raise e)
   <-> ~ Qabs (args_total_allocation a - 1) <= weight_tolerance)
  /\ (forall e, OptimizationConfig__post_init__ a = Raise e ->
        e = ValueError "Allocations must sum to 1.0")
  /\ (forall c, OptimizationConfig__post_init__ a = Ok c <->
        Qabs (args_total_allocation a - 1) <= weight_tolerance
        /\ c = {| under_supplied_allocation := arg_under_supplied_allocation a;
                  strategic_growth_allocation := arg_strategic_growth_allocation a;
                  proportional_allocation := arg_proportional_allocation a;
                  treasury_allocation := arg_treasury_allocation a;
                  rebalance_threshold := arg_rebalance_threshold a;
                  min_rebalance_interval := arg_min_rebalance_interval a;
                  max_rebalance_frequency := arg_max_rebalance_frequency a;
                  target_yields := default default_target_yields (arg_target_yields a);
                  supply_caps := default default_supply_caps (arg_supply_caps a);
                  transaction_cost := arg_transaction_cost a;
                  gas_cost_usd := arg_gas_cost_usd a |}).
Proof.
  unfold OptimizationConfig__post_init__. fold (args_total_allocation a).
  destruct (np_isclose (args_total_allocation a) 1) eqn:E; cbn [negb].
  - pose proof (proj1 (np_isclose_one _) E) as Hc.
    split; [|split].
    + split; [intros [e [=]] | intros Hn; contradiction].
    + intros e [=].
    + intros c. split.
      * intros [= <-]. split; [exact Hc|].
        destruct (arg_target_yields a), (arg_supply_caps a); reflexivity.
      * intros [_ ->]. 
        destruct (arg_target_yields a), (arg_supply_caps a); reflexivity.
  - assert (Hn : ~ Qabs (args_total_allocation a - 1) <= weight_tolerance).
    { intros Hc. apply np_isclose_one in Hc. congruence. }
    split; [|split].
    + split; [intros _; exact Hn | intros _; eexists; reflexivity].
    + intros e [= <-]. reflexivity.
    + intros c. split; [intros [=] | intros [Hc _]; contradiction].
Qed.

(** ** The trigger *)

Lemma check_total_excess (cfg : OptimizationConfig) (row : Row) (p : loc)
    (last : option timestamp) (t : timestamp) :
  fst (_check_rebalance_conditions cfg (current_yields_of row) p last t)
  = Qle_bool (rebalance_threshold cfg)
      (0 + py_max0 (cmBTC row - target_of cfg "cmBTC")
       + py_max0 (cmUSD row - target_of cfg "cmUSD")
       + py_max0 (cmBRL row - target_of cfg "cmBRL"))
    && match last with
       | Some l => (min_rebalance_interval cfg <=? timedelta_days t l)%Z
       | None => true
       end.
Proof. reflexivity. Qed.

Lemma rebalance_phase_fires (cfg : OptimizationConfig) (p : loc) (st : SimState)
    (row : Row) (h h' : gmap nat dict)
    (reb : list (option RebalanceEvent) * option timestamp) :
  rebalance_phase cfg p st row h = (Ok reb, h') ->
  if fst (_check_rebalance_conditions cfg (current_yields_of row) p
            (last_rebalance_date st) (date row))
  then exists ev,
         _execute_rebalancing cfg p
           (snd (_check_rebalance_conditions cfg (current_yields_of row) p
                   (last_rebalance_date st) (date row)))
           (current_yields_of row) (date row) h = (Ok ev, h')
         /\ reb = (rebalance_events st ++ [ev], Some (date row))
  else reb = (rebalance_events st, last_rebalance_date st) /\ h' = h.
Proof.
  unfold rebalance_phase.
  destruct (_check_rebalance_conditions cfg (current_yields_of row) p
              (last_rebalance_date st) (date row)) as [needed ex].
  cbn [fst snd]. destruct needed.
  - intros Hr. inv_bind Hr. apply ret_Ok in Hr as [-> ->].
    exists a. split; [assumption | reflexivity].
  - intros Hr. apply ret_Ok in Hr as [-> ->]. split; reflexivity.
Qed.

Lemma simulation_step_Ok (cfg : OptimizationConfig) (p : loc) (st st' : SimState)
    (row : Row) (h h' : gmap nat dict) :
  simulation_step cfg p st row h = (Ok st', h') ->
  exists reb h1 d1 btc usd brl,
    rebalance_phase cfg p st row h = (Ok reb, h1)
    /\ h1 !! p = Some d1
    /\ dict_get d1 "cmBTC" = Some btc
    /\ dict_get d1 "cmUSD" = Some usd
    /\ dict_get d1 "cmBRL" = Some brl
    /\ for_each assets (compound p (current_yields_of row)) tt h1 = (Ok tt, h')
    /\ st' = {| daily_values :=
                  daily_values st
                  ++ [{| dv_date := date row;
                         portfolio_value := py_sum (dict_values d1);
                         cmBTC_value := btc;
                         cmUSD_value := usd;
                         cmBRL_value := brl |}];
                rebalance_events := fst reb;
                daily_yields := daily_yields st ++ [row];
                last_rebalance_date := snd reb |}.
Proof.
  unfold simulation_step, _calculate_portfolio_value, getitem.
  intros Hs. inv_M. simplify_eq. destruct a4.
  unfold dict_getitem in *.
  destruct (dict_get a8 "cmBTC") eqn:G1; [|discriminate].
  destruct (dict_get a8 "cmUSD") eqn:G2; [|discriminate].
  destruct (dict_get a8 "cmBRL") eqn:G3; [|discriminate].
  simplify_eq.
  eexists _, _, _, _, _, _. repeat split; eassumption.
Qed.


(** ** The order of operations within a period *)

Lemma dict_get_set_eq {V} (d : list (string * V)) (k : string) (v : V) :
  dict_get (dict_set d k v) k = Some v.
Proof.
  induction d as [|[k0 v0] d IH]; simpl.
  - rewrite String.eqb_refl. reflexivity.
  - destruct (String.eqb k0 k) eqn:E; simpl; rewrite E; [reflexivity | exact IH].
Qed.

Lemma dict_get_set_ne {V} (d : list (string * V)) (k k' : string) (v : V) :
  k <> k' -> dict_get (dict_set d k v) k' = dict_get d k'.
Proof.
  intros Hne. induction d as [|[k0 v0] d IH]; simpl.
  - destruct (String.eqb k k') eqn:E; [|reflexivity].
    apply String.eqb_eq in E. contradiction.
  - destruct (String.eqb k0 k) eqn:E; simpl.
    + apply String.eqb_eq in E. subst k0.
      destruct (String.eqb k k') eqn:E'; [|reflexivity].
      apply String.eqb_eq in E'. contradiction.
    + destruct (String.eqb k0 k'); [reflexivity | exact IH].
Qed.

Lemma setitem_Ok (l : loc) (k : string) (v : Q) (h h' : gmap nat dict) (u : unit) :
  setitem l k v h = (Ok u, h') ->
  exists d, h !! l = Some d /\ h' = <[l := dict_set d k v]> h.
Proof.
  unfold setitem. destruct (h !! l) as [d|]; intros ?; simplify_eq.
  exists d. split; reflexivity.
Qed.

Lemma compound_Ok (p : loc) (ys : dict) (asset : string) (h h' : gmap nat dict)
    (u u' : unit) :
  compound p ys u asset h = (Ok u', h') ->
  exists d y v,
    h !! p = Some d /\ dict_get ys asset = Some y /\ dict_get d asset = Some v
    /\ h' = <[p := dict_set d asset (compounded y v)]> h.
Proof.
  unfold compound, getitem. intros Hc.
  apply bind_Ok in Hc as (y & h0 & Hy & Hc). apply lift_Ok in Hy as [Hy ->].
  apply bind_Ok in Hc as (v & h1 & Hv & Hc).
  apply bind_Ok in Hv as (d & h2 & Hd & Hv). apply load_Ok in Hd as [Hd ->].
  apply lift_Ok in Hv as [Hv ->].
  apply setitem_Ok in Hc as (d0 & Hd0 & ->).
  assert (d0 = d) as -> by congruence.
  unfold dict_getitem in Hy, Hv.
  destruct (dict_get ys asset) as [y'|] eqn:Gy; [|discriminate].
  destruct (dict_get d asset) as [v'|] eqn:Gv; [|discriminate].
  injection Hy as ->. injection Hv as ->.
  exists d, y, v. repeat split; assumption.
Qed.

(** The compounding loop multiplies each of the three balances, and touches
    nothing else in the store. *)
Lemma compounding_loop (p : loc) (row : Row) (h h' : gmap nat dict) (d : dict) :
  h !! p = Some d ->
  for_each assets (compound p (current_yields_of row)) tt h = (Ok tt, h') ->
  exists d',
    h' = <[p := d']> h
    /\ dict_get d' "cmBTC" = compounded (cmBTC row) <$> dict_get d "cmBTC"
    /\ dict_get d' "cmUSD" = compounded (cmUSD row) <$> dict_get d "cmUSD"
    /\ dict_get d' "cmBRL" = compounded (cmBRL row) <$> dict_get d "cmBRL".
Proof.
  intros Hd Hl. cbn [for_each assets] in Hl.
  apply bind_Ok in Hl as (u0 & h0 & Ha & Hl).
  apply bind_Ok in Hl as (u1 & h1 & Ha0 & Hl).
  apply bind_Ok in Hl as (u2 & h2 & Ha1 & Hl).
  apply ret_Ok in Hl as [_ ->].
  apply compound_Ok in Ha as (d0 & y0 & v0 & Hd0 & Hy0 & Hv0 & ->).
  apply compound_Ok in Ha0 as (d1 & y1 & v1 & Hd1 & Hy1 & Hv1 & ->).
  apply compound_Ok in Ha1 as (d2 & y2 & v2 & Hd2 & Hy2 & Hv2 & ->).
  rewrite lookup_insert_eq in Hd1. rewrite lookup_insert_eq in Hd2.
  simplify_eq. cbn in Hy0, Hy1, Hy2. simplify_eq.
  rewrite dict_get_set_ne in Hv1 by discriminate.
  rewrite !dict_get_set_ne in Hv2 by discriminate.
  eexists. split.
  - rewrite !insert_insert_eq. reflexivity.
  - rewrite dict_get_set_eq.
    rewrite !(dict_get_set_ne _ "cmBRL") by discriminate.
    rewrite dict_get_set_eq.
    rewrite (dict_get_set_ne _ "cmUSD") by discriminate.
    rewrite dict_get_set_eq.
    rewrite Hv0, Hv1, Hv2. repeat split; reflexivity.
Qed.

(** C8 fails as stated: on a first day with every yield at target, the value
    appended for the day is the 75 of the initial balances, not the sum of
    the balances after compounding. *)
Lemma C8_counterexample :
  exists st' h' d' dv,
    simulation_step default_config 0%nat initial_state flat_row store0
    = (Ok st', h')
    /\ h' !! 0%nat = Some d'
    /\ daily_values st' = [dv]
    /\ portfolio_value dv == 75
    /\ ~ portfolio_value dv == py_sum (dict_values d').
Proof.
  destruct (simulation_step default_config 0%nat initial_state flat_row store0)
    as [o h'] eqn:E.
  vm_compute in E. injection E as <- <-.
  eexists _, _, _, _. split; [reflexivity|]. split; [reflexivity|].
  split; [reflexivity|]. split; [reflexivity|].
  vm_compute. discriminate.
Qed.

(** C8 (as amended).  Each period runs, in this order: the trigger and, when
    it fires, the redistribution; the appending of the day's portfolio
    value, which is the sum of the balances as the redistribution left them
    and before the day's yield is compounded; and the compounding of each
    of the three balances by [1 + yield_bp / 10000 / 365]. *)
Theorem C8_period_order (cfg : OptimizationConfig) (p : loc)
    (st st' : SimState) (row : Row) (h h' : gmap nat dict) :
  simulation_step cfg p st row h = (Ok st', h') ->
  exists reb h1 d1 d' dv,
    rebalance_phase cfg p st row h = (Ok reb, h1)
    /\ rebalance_events st' = fst reb
    /\ h1 !! p = Some d1
    /\ daily_values st' = daily_values st ++ [dv]
    /\ dv_date dv = date row
    /\ portfolio_value dv = py_sum (dict_values d1)
    /\ h' = <[p := d']> h1
    /\ dict_get d' "cmBTC" = compounded (cmBTC row) <$> dict_get d1 "cmBTC"
    /\ dict_get d' "cmUSD" = compounded (cmUSD row) <$> dict_get d1 "cmUSD"
    /\ dict_get d' "cmBRL" = compounded (cmBRL row) <$> dict_get d1 "cmBRL".
Proof.
  intros Hs.
  apply simulation_step_Ok in Hs
    as (reb & h1 & d1 & btc & usd & brl & Hreb & Hd1 & _ & _ & _ & Hl & ->).
  destruct (compounding_loop _ _ _ _ _ Hd1 Hl) as (d' & -> & Hb & Hu & Hr).
  eexists reb, h1, d1, d', _. cbn [daily_values rebalance_events].
  repeat split; try eassumption; reflexivity.
Qed.

Lemma C8_period_order_witness :
  exists st' h' reb h1 d1 d' dv,
    simulation_step default_config 0%nat initial_state flat_row store0
    = (Ok st', h')
    /\ rebalance_phase default_config 0%nat initial_state flat_row store0
       = (Ok reb, h1)
    /\ h1 !! 0%nat = Some d1
    /\ daily_values st' = daily_values initial_state ++ [dv]
    /\ portfolio_value dv = py_sum (dict_values d1)
    /\ h' = <[0%nat := d']> h1.
Proof.
  destruct (simulation_step default_config 0%nat initial_state flat_row store0)
    as [[st'| |] h'] eqn:E; try (vm_compute in E; discriminate).
  destruct (C8_period_order _ _ _ _ _ _ _ E)
    as (reb & h1 & d1 & d' & dv & H1 & _ & H2 & H3 & _ & H4 & H5 & _).
  exists st', h', reb, h1, d1, d', dv. repeat split; assumption.
Defined.

(** ** The caller's portfolio *)

Lemma only_writes_ret {A} (c : loc) (a : A) : only_writes c (ret a).
Proof. intros h l _. reflexivity. Qed.

Lemma only_writes_lift {A} (c : loc) (o : outcome A) : only_writes c (lift o).
Proof. intros h l _. reflexivity. Qed.

Lemma only_writes_load (c l0 : loc) : only_writes c (load l0).
Proof. intros h l _. unfold load. destruct (h !! l0); reflexivity. Qed.

Lemma only_writes_bind {A B} (c : loc) (m : H A) (k : A -> H B) :
  only_writes c m -> (forall a, only_writes c (k a)) -> only_writes c (bind m k).
Proof.
  intros Hm Hk h l Hl. unfold bind.
  specialize (Hm h l Hl). destruct (m h) as [[a| |] h1]; cbn [snd] in *.
  - rewrite (Hk a h1 l Hl). exact Hm.
  - exact Hm.
  - exact Hm.
Qed.

Lemma only_writes_for_each {A B} (c : loc) (l : list B) (body : A -> B -> H A) :
  (forall acc x, only_writes c (body acc x)) ->
  forall acc, only_writes c (for_each l body acc).
Proof.
  intros Hb. induction l as [|x l IH]; intros acc; cbn [for_each].
  - apply only_writes_ret.
  - apply only_writes_bind; [apply Hb | exact IH].
Qed.

Lemma only_writes_getitem (c l0 : loc) (k : string) : only_writes c (getitem l0 k).
Proof.
  apply only_writes_bind; [apply only_writes_load|].
  intros d. apply only_writes_lift.
Qed.

Lemma only_writes_setitem (c : loc) (k : string) (v : Q) :
  only_writes c (setitem c k v).
Proof.
  intros h l Hl. unfold setitem. destruct (h !! c); cbn [snd]; [|reflexivity].
  apply lookup_insert_ne. congruence.
Qed.

Create HintDb frame.

#[local] Hint Resolve only_writes_ret only_writes_lift only_writes_load
  only_writes_getitem only_writes_setitem : frame.

Ltac frame_step :=
  repeat first
    [ apply only_writes_bind; [|intros ?]
    | apply only_writes_for_each; intros ? ?
    | solve [auto with frame] ].

Lemma only_writes_execute_rebalancing (cfg : OptimizationConfig) (c : loc)
    (ex ys : dict) (t : timestamp) :
  only_writes c (_execute_rebalancing cfg c ex ys t).
Proof.
  unfold _execute_rebalancing.
  destruct (Qle_bool (py_sum (dict_values ex)) 0); [apply only_writes_ret|].
  frame_step. unfold apply_boost.
  match goal with |- only_writes _ (let '(_, _) := ?p in _) => destruct p end.
  match goal with |- only_writes _ (let '(_, _) := ?p in _) => destruct p end.
  destruct (Qltb 0 _); frame_step.
Qed.

Lemma only_writes_simulation_step (cfg : OptimizationConfig) (c : loc)
    (st : SimState) (row : Row) :
  only_writes c (simulation_step cfg c st row).
Proof.
  unfold simulation_step. apply only_writes_bind.
  - unfold rebalance_phase.
    destruct (_check_rebalance_conditions _ _ _ _ _) as [[] ex].
    + apply only_writes_bind; [apply only_writes_execute_rebalancing|].
      intros ?. apply only_writes_ret.
    + apply only_writes_ret.
  - intros reb. unfold _calculate_portfolio_value, compound. frame_step.
Qed.

Lemma preserves_bind {A B} (m : H A) (k : A -> H B) :
  preserves m -> (forall a, preserves (k a)) -> preserves (bind m k).
Proof.
  intros Hm Hk h l d Hl. unfold bind.
  specialize (Hm h l d Hl). destruct (m h) as [[a| |] h1]; cbn [snd] in *.
  - apply (Hk a h1 l d Hm).
  - exact Hm.
  - exact Hm.
Qed.

Lemma preserves_lift {A} (o : outcome A) : preserves (lift o).
Proof. intros h l d Hl. exact Hl. Qed.

Lemma preserves_alloc0 (d0 : dict) : preserves (alloc d0).
Proof.
  intros h l d Hl. unfold alloc. cbn [snd].
  rewrite lookup_insert_ne; [exact Hl|].
  intros <-. apply (is_fresh (dom h)). apply elem_of_dom. eauto.
Qed.

(** A new dictionary, and then writes to it alone. *)
Lemma preserves_alloc {A} (d0 : dict) (k : loc -> H A) :
  (forall c, only_writes c (k c)) -> preserves (bind (alloc d0) k).
Proof.
  intros Hk h l d Hl. unfold bind, alloc.
  set (c := fresh (dom h)).
  assert (Hc : l <> c).
  { intros ->. apply (is_fresh (dom h)). apply elem_of_dom. eauto. }
  specialize (Hk c (<[c := d0]> h) l Hc).
  destruct (k c (<[c := d0]> h)) as [[a| |] h1]; cbn [snd] in *;
    rewrite Hk; rewrite lookup_insert_ne by congruence; exact Hl.
Qed.

Lemma preserves_deepcopy {A} (ip : loc) (k : loc -> H A) :
  (forall c, only_writes c (k c)) -> preserves (bind (deepcopy ip) k).
Proof.
  intros Hk h l d Hl. unfold deepcopy.
  unfold bind at 1. unfold bind at 1. unfold load.
  destruct (h !! ip) as [d0|]; [|exact Hl].
  apply (preserves_alloc d0 k Hk h l d Hl).
Qed.

(** The simulation leaves every dictionary that was in the store as it
    was: it writes to the copy only. *)
Lemma run_simulation_frame (cfg : OptimizationConfig) (data : list Row)
    (initial_portfolio : loc) :
  preserves (_run_simulation cfg data initial_portfolio).
Proof.
  unfold _run_simulation. apply preserves_deepcopy. intros c.
  apply only_writes_bind; [|intros ?; apply only_writes_ret].
  apply only_writes_for_each. intros st row.
  apply only_writes_simulation_step.
Qed.

(** C9.  A backtest leaves every dictionary of the caller, and so the
    [initial_portfolio] that was passed in, with the contents it had,
    whether the call returns or raises: the simulation writes only to its
    own deep copy. *)
Theorem C9_initial_portfolio_unchanged
    (float_pow : Q -> Q -> Q) (series_std : list Q -> Q) (sqrt_252 : Q)
    (self : CCYOEBacktester) (start_date end_date : timestamp)
    (initial_portfolio : option loc) (h : gmap nat dict) (l : loc) (d : dict) :
  h !! l = Some d ->
  snd (run_backtest float_pow series_std sqrt_252 self start_date end_date
         initial_portfolio h) !! l = Some d.
Proof.
  revert h l d. change (preserves (run_backtest float_pow series_std sqrt_252
                                     self start_date end_date initial_portfolio)).
  unfold run_backtest.
  destruct (length (_filter_data self start_date end_date) =? 0)%nat.
  { intros h l d Hl. exact Hl. }
  apply preserves_bind.
  - destruct initial_portfolio as [ip|].
    + intros h l d Hl. exact Hl.
    + apply preserves_alloc0.
  - intros ip. apply preserves_bind; [apply run_simulation_frame|].
    intros res. apply preserves_lift.
Qed.

Lemma C9_initial_portfolio_unchanged_witness :
  snd (run_backtest (fun _ _ => 0) (fun _ => 0) 0
         (CCYOEBacktester__init__ [flat_row] default_config) (day 0) (day 1)
         (Some 0%nat) store0) !! 0%nat
  = Some default_portfolio.
Proof.
  apply C9_initial_portfolio_unchanged. reflexivity.
Defined.

(** ** The minimum interval between rebalances *)

Lemma insert_by_date_Forall (P : Row -> Prop) (r : Row) (l : list Row) :
  P r -> Forall P l -> Forall P (insert_by_date r l).
Proof.
  intros Hr. induction 1 as [|x l Hx Hl IH]; simpl.
  - constructor; [exact Hr | constructor].
  - destruct (date r <=? date x)%Z; repeat constructor; assumption.
Qed.

Lemma insert_by_date_sorted (r : Row) (l : list Row) :
  date_sorted l -> date_sorted (insert_by_date r l).
Proof.
  unfold date_sorted. induction 1 as [|x l Hs IH Hx]; simpl.
  - constructor; constructor.
  - destruct (date r <=? date x)%Z eqn:E.
    + apply Z.leb_le in E. constructor.
      * constructor; assumption.
      * constructor; [exact E|].
        eapply List.Forall_impl; [|exact Hx]. cbv beta. intros y Hy. lia.
    + apply Z.leb_gt in E. constructor; [exact IH|].
      apply insert_by_date_Forall; [lia | exact Hx].
Qed.

Lemma sort_values_date_sorted (l : list Row) : date_sorted (sort_values_date l).
Proof.
  induction l as [|r l IH]; simpl.
  - constructor.
  - apply insert_by_date_sorted. exact IH.
Qed.

Lemma filter_sorted (f : Row -> bool) (l : list Row) :
  date_sorted l -> date_sorted (List.filter f l).
Proof.
  unfold date_sorted. induction 1 as [|x l Hs IH Hx]; simpl.
  - constructor.
  - destruct (f x); [|exact IH]. constructor; [exact IH|].
    apply List.Forall_forall. intros y Hy. apply List.filter_In in Hy as [Hy _].
    rewrite List.Forall_forall in Hx. apply Hx. exact Hy.
Qed.

Lemma timedelta_days_mono (t a b : timestamp) :
  (a <= b)%Z -> (timedelta_days t b <= timedelta_days t a)%Z.
Proof.
  intros Hab. unfold timedelta_days. apply Z.div_le_mono; [reflexivity | lia].
Qed.

(** What one period does to the event list and the last rebalance date. *)
Lemma simulation_step_events (cfg : OptimizationConfig) (p : loc)
    (st st' : SimState) (row : Row) (h h' : gmap nat dict) :
  simulation_step cfg p st row h = (Ok st', h') ->
  (rebalance_events st' = rebalance_events st
   /\ last_rebalance_date st' = last_rebalance_date st)
  \/ (exists ev,
        rebalance_events st' = rebalance_events st ++ [ev]
        /\ last_rebalance_date st' = Some (date row)
        /\ (forall e, ev = Some e -> ev_date e = date row)
        /\ (forall l, last_rebalance_date st = Some l ->
              (min_rebalance_interval cfg <= timedelta_days (date row) l)%Z)).
Proof.
  intros Hs.
  apply simulation_step_Ok in Hs
    as (reb & h1 & d1 & btc & usd & brl & Hreb & _ & _ & _ & _ & _ & ->).
  apply rebalance_phase_fires in Hreb. cbn [rebalance_events last_rebalance_date].
  destruct (fst (_check_rebalance_conditions cfg (current_yields_of row) p
                   (last_rebalance_date st) (date row))) eqn:Hf.
  - right. destruct Hreb as (ev & Hex & ->). exists ev.
    split; [reflexivity|]. split; [reflexivity|]. split.
    + intros e ->. apply execute_rebalancing_event in Hex.
      destruct Hex as (d & _ & _ & _ & Hd & _). exact Hd.
    + intros l Hl. rewrite check_total_excess, Hl in Hf.
      apply andb_true_iff in Hf as [_ Hf]. apply Z.leb_le. exact Hf.
  - left. destruct Hreb as [-> _]. split; reflexivity.
Qed.

Lemma step_keeps_spacing (cfg : OptimizationConfig) (p : loc)
    (st st' : SimState) (row : Row) (h h' : gmap nat dict) :
  simulation_step cfg p st row h = (Ok st', h') ->
  spaced cfg (rebalance_events st) ->
  not_after (rebalance_events st) (last_rebalance_date st) ->
  (forall l, last_rebalance_date st = Some l -> (l <= date row)%Z) ->
  spaced cfg (rebalance_events st')
  /\ not_after (rebalance_events st') (last_rebalance_date st')
  /\ (forall l, last_rebalance_date st' = Some l -> (l <= date row)%Z).
Proof.
  intros Hs Hsp Hna Hlast.
  apply simulation_step_events in Hs
    as [[-> ->] | (ev & -> & -> & Hev & Hint)].
  - repeat split; assumption.
  - split; [|split].
    + intros i j e1 e2 Hij H1 H2.
      destruct (decide (j < length (rebalance_events st))%nat) as [Hj|Hj].
      * rewrite lookup_app_l in H1 by lia. rewrite lookup_app_l in H2 by lia.
        exact (Hsp i j e1 e2 Hij H1 H2).
      * assert (j = length (rebalance_events st)) as ->.
        { apply lookup_lt_Some in H2. rewrite length_app in H2. simpl in H2. lia. }
        rewrite lookup_app_l in H1 by lia.
        rewrite lookup_app_r in H2 by lia. rewrite Nat.sub_diag in H2.
        injection H2 as ->. rewrite (Hev e2 eq_refl).
        destruct (Hna i e1 H1) as (l & Hl & Hle).
        pose proof (Hint l Hl) as Hmin.
        pose proof (timedelta_days_mono (date row) _ _ Hle). lia.
    + intros i e Hi. exists (date row). split; [reflexivity|].
      destruct (decide (i < length (rebalance_events st))%nat) as [Hlt|Hge].
      * rewrite lookup_app_l in Hi by lia.
        destruct (Hna i e Hi) as (l & Hl & Hle).
        pose proof (Hlast l Hl). lia.
      * assert (i = length (rebalance_events st)) as ->.
        { apply lookup_lt_Some in Hi. rewrite length_app in Hi. simpl in Hi. lia. }
        rewrite lookup_app_r in Hi by lia. rewrite Nat.sub_diag in Hi.
        injection Hi as ->. rewrite (Hev e eq_refl). lia.
    + intros l [= <-]. lia.
Qed.

Lemma loop_keeps_spacing (cfg : OptimizationConfig) (p : loc) (rows : list Row) :
  date_sorted rows ->
  forall (st st' : SimState) (h h' : gmap nat dict),
    for_each rows (simulation_step cfg p) st h = (Ok st', h') ->
    spaced cfg (rebalance_events st) ->
    not_after (rebalance_events st) (last_rebalance_date st) ->
    (forall l, last_rebalance_date st = Some l ->
       Forall (fun r => (l <= date r)%Z) rows) ->
    spaced cfg (rebalance_events st').
Proof.
  unfold date_sorted. induction 1 as [|row rows Hs IH Hrow];
    intros st st' h h' Hl Hsp Hna Hlast; cbn [for_each] in Hl.
  - apply ret_Ok in Hl as [-> _]. exact Hsp.
  - apply bind_Ok in Hl as (st1 & h1 & Hstep & Hl).
    destruct (step_keeps_spacing _ _ _ _ _ _ _ Hstep Hsp Hna)
      as (Hsp1 & Hna1 & Hlast1).
    { intros l Hl0. specialize (Hlast l Hl0).
      apply List.Forall_inv in Hlast. exact Hlast. }
    apply (IH st1 st' h1 h' Hl Hsp1 Hna1).
    intros l Hl1. specialize (Hlast1 l Hl1).
    eapply List.Forall_impl; [|exact Hrow]. cbv beta. intros r Hr. lia.
Qed.

Lemma calculate_results_events
    (float_pow : Q -> Q -> Q) (series_std : list Q -> Q) (sqrt_252 : Q)
    (cfg : OptimizationConfig) (dvs : list DailyValue)
    (events : list (option RebalanceEvent)) (ys : list Row) (r : BacktestResults) :
  _calculate_results float_pow series_std sqrt_252 cfg dvs events ys = Ok r ->
  res_rebalance_events r = events.
Proof.
  unfold _calculate_results. intros Hr.
  repeat match type of Hr with
    | obind ?o _ = Ok _ => destruct o; cbn [obind] in Hr; try discriminate
    end.
  injection Hr as <-. reflexivity.
Qed.

(** C4.  Whatever the yield series and the configuration, any two dated
    rebalance events of one backtest lie at least [min_rebalance_interval]
    days apart. *)
Theorem C4_min_interval
    (float_pow : Q -> Q -> Q) (series_std : list Q -> Q) (sqrt_252 : Q)
    (data : list Row) (cfg : OptimizationConfig)
    (start_date end_date : timestamp) (initial_portfolio : option loc)
    (h h' : gmap nat dict) (r : BacktestResults) :
  run_backtest float_pow series_std sqrt_252
    (CCYOEBacktester__init__ data cfg) start_date end_date initial_portfolio h
  = (Ok r, h') ->
  forall (i j : nat) (e1 e2 : RebalanceEvent),
    (i < j)%nat ->
    res_rebalance_events r !! i = Some (Some e1) ->
    res_rebalance_events r !! j = Some (Some e2) ->
    (min_rebalance_interval cfg <= timedelta_days (ev_date e2) (ev_date e1))%Z.
Proof.
  unfold run_backtest. intros Hr.
  destruct (length _ =? 0)%nat; [discriminate|].
  apply bind_Ok in Hr as (ip & h0 & _ & Hr).
  apply bind_Ok in Hr as (res & h1 & Hsim & Hr).
  apply lift_Ok in Hr as [Hr _].
  apply calculate_results_events in Hr. rewrite Hr.
  unfold _run_simulation in Hsim.
  apply bind_Ok in Hsim as (c & h2 & _ & Hsim).
  apply bind_Ok in Hsim as (st & h3 & Hloop & Hsim).
  apply ret_Ok in Hsim as [-> _]. cbn [sim_rebalance_events].
  change (spaced cfg (rebalance_events st)).
  eapply (loop_keeps_spacing cfg c _ _ initial_state st h2 h3 Hloop).
  - intros i j e1 e2 _ H1. discriminate.
  - intros i e H1. discriminate.
  - intros l [=].
  Unshelve.
  apply filter_sorted. apply sort_values_date_sorted.
Qed.

Lemma two_shocks_backtest_eq :
  run_backtest (fun _ _ => 0) (fun _ => 0) 0
    (CCYOEBacktester__init__ two_shocks default_config) (day 0) (day 1)
    None ∅ = two_shocks_backtest.
Proof. vm_compute. reflexivity. Qed.

Lemma C4_min_interval_witness :
  exists r h' e1 e2,
    run_backtest (fun _ _ => 0) (fun _ => 0) 0
      (CCYOEBacktester__init__ two_shocks default_config) (day 0) (day 1)
      None ∅ = (Ok r, h')
    /\ res_rebalance_events r !! 0%nat = Some (Some e1)
    /\ res_rebalance_events r !! 1%nat = Some (Some e2)
    /\ (min_rebalance_interval default_config
        <= timedelta_days (ev_date e2) (ev_date e1))%Z.
Proof.
  pose proof two_shocks_backtest_eq as E. unfold two_shocks_backtest in E.
  eexists _, _, _, _. split; [exact E|].
  split; [reflexivity|]. split; [reflexivity|].
  eapply (C4_min_interval _ _ _ _ _ _ _ _ _ _ _ E 0%nat 1%nat);
    [lia | reflexivity | reflexivity].
Defined.

(** ** Drawdown and the ratios *)

Lemma negative_yield_backtest_eq
    (float_pow : Q -> Q -> Q) (series_std : list Q -> Q) (sqrt_252 : Q) :
  run_backtest float_pow series_std sqrt_252
    (CCYOEBacktester__init__ negative_yield_days default_config)
    (day 0) (day 2) None ∅
  = negative_yield_backtest float_pow series_std sqrt_252.
Proof. vm_compute. reflexivity. Qed.

(** C6.  The source at a series whose second day has negative yields: the
    backtest returns, and the max drawdown it reports is -1/10000, below
    zero, where [PerformanceMetrics.max_drawdown] on the same daily returns
    gives 1/10000. *)
Theorem C6_max_drawdown_at_failing_input
    (float_pow : Q -> Q -> Q) (series_std : list Q -> Q) (sqrt_252 : Q) :
  exists r h',
    run_backtest float_pow series_std sqrt_252
      (CCYOEBacktester__init__ negative_yield_days default_config)
      (day 0) (day 2) None ∅ = (Ok r, h')
    /\ max_drawdown r == - (1 # 10000)
    /\ max_drawdown r < 0
    /\ exists m, PerformanceMetrics_max_drawdown (daily_returns r) = Ok m
                 /\ m == 1 # 10000.
Proof.
  pose proof (negative_yield_backtest_eq float_pow series_std sqrt_252) as E.
  unfold negative_yield_backtest in E.
  eexists _, _. split; [exact E|].
  split; [vm_compute; reflexivity|]. split; [vm_compute; reflexivity|].
  eexists. split; [vm_compute; reflexivity|]. vm_compute. reflexivity.
Qed.

Lemma series_min_le (l : list Q) (x : Q) : series_min x l <= x.
Proof.
  unfold series_min. revert x. induction l as [|y l IH]; intros x; simpl.
  - lra.
  - specialize (IH (Qmin x y)). pose proof (Q.le_min_l x y). lra.
Qed.

Lemma drawdown_head (w : list Q) (dd : list Q) :
  drawdown_series w (expanding_max w) = Ok dd ->
  match dd with
  | [] => w = []
  | q :: _ => q == 0
  end.
Proof.
  destruct w as [|x w]; simpl.
  - intros [= <-]. reflexivity.
  - destruct (py_div (x - x) x) as [q| |] eqn:D; simpl; try discriminate.
    destruct (drawdown_series w (expanding_max_from x w)); simpl; try discriminate.
    intros [= <-]. apply py_div_Ok in D as [Hx ->]. field. exact Hx.
Qed.

(** What [_calculate_results] reports: a max drawdown that is never
    positive, a Sharpe ratio that is zero unless the volatility is positive,
    and a Calmar ratio that is zero when the max drawdown is. *)
Lemma calculate_results_ratios
    (float_pow : Q -> Q -> Q) (series_std : list Q -> Q) (sqrt_252 : Q)
    (cfg : OptimizationConfig) (dvs : list DailyValue)
    (events : list (option RebalanceEvent)) (ys : list Row) (r : BacktestResults) :
  _calculate_results float_pow series_std sqrt_252 cfg dvs events ys = Ok r ->
  max_drawdown r <= 0
  /\ (volatility r <= 0 -> sharpe_ratio r = 0)
  /\ (max_drawdown r == 0 -> calmar_ratio r = 0).
Proof.
  unfold _calculate_results. intros Hr.
  destruct (pct_change (map portfolio_value dvs)) as [returns| |];
    cbn [obind] in Hr; try discriminate.
  destruct (iloc_last _) as [total| |]; cbn [obind] in Hr; try discriminate.
  destruct (drawdown_series _ _) as [dd| |] eqn:Hdd;
    cbn [obind] in Hr; try discriminate.
  apply drawdown_head in Hdd.
  destruct dd as [|q dd]; cbn [obind] in Hr; try discriminate.
  repeat match type of Hr with
    | obind ?o _ = Ok _ => destruct o; cbn [obind] in Hr; try discriminate
    end.
  injection Hr as <-.
  cbn [max_drawdown volatility sharpe_ratio calmar_ratio annualized_return].
  split; [|split].
  - pose proof (series_min_le dd q). lra.
  - intros Hv. apply Qltb_false in Hv. rewrite Hv. reflexivity.
  - intros Hm. apply Qeq_bool_iff in Hm. rewrite Hm. reflexivity.
Qed.

(** The metrics library reports a drawdown that is not negative. *)
Lemma PerformanceMetrics_max_drawdown_nonneg (returns : list Q) (m : Q) :
  PerformanceMetrics_max_drawdown returns = Ok m -> 0 <= m.
Proof.
  unfold PerformanceMetrics_max_drawdown.
  destruct (length returns =? 0)%nat.
  - intros [= <-]. lra.
  - destruct (drawdown_series _ _) as [[|x l]| |]; cbn [obind]; try discriminate.
    intros [= <-]. apply Qabs_nonneg.
Qed.

(** ** The optimizer: failed evaluations and failed searches *)

Lemma param_at_lt (params : list Q) (i : nat) :
  (i < length params)%nat -> exists v, param_at params i = Ok v.
Proof.
  intros Hi. unfold param_at.
  destruct (nth_error params i) as [v|] eqn:E; [eauto|].
  apply nth_error_None in E. lia.
Qed.

(** The mapping from a parameter vector to a configuration never fails. *)
Lemma params_to_config_total (self : YieldOptimizer) (params : list Q) :
  exists cfg, _params_to_config self params = Ok cfg.
Proof.
  unfold _params_to_config.
  assert (H0 : exists c, match base_config self with
                         | Some c => Ok c
                         | None => OptimizationConfig__post_init__ default_args
                         end = Ok c).
  { destruct (base_config self); eexists; reflexivity. }
  destruct H0 as [c ->]. cbn [obind].
  destruct (4 <=? length params)%nat eqn:E4.
  - apply Nat.leb_le in E4.
    destruct (param_at_lt params 0) as [p0 ->]; [lia|].
    destruct (param_at_lt params 1) as [p1 ->]; [lia|].
    destruct (param_at_lt params 2) as [p2 ->]; [lia|].
    destruct (param_at_lt params 3) as [p3 ->]; [lia|].
    cbn [obind].
    destruct (5 <=? length params)%nat eqn:E5.
    + apply Nat.leb_le in E5.
      destruct (param_at_lt params 4) as [p4 ->]; [lia|]. cbn [obind].
      destruct (6 <=? length params)%nat eqn:E6.
      * apply Nat.leb_le in E6.
        destruct (param_at_lt params 5) as [p5 ->]; [lia|]. cbn [obind].
        eexists; reflexivity.
      * eexists; reflexivity.
    + cbn [obind]. destruct (6 <=? length params)%nat eqn:E6.
      * apply Nat.leb_le in E6. apply Nat.leb_gt in E5. lia.
      * eexists; reflexivity.
  - cbn [obind]. apply Nat.leb_gt in E4.
    destruct (5 <=? length params)%nat eqn:E5;
      [apply Nat.leb_le in E5; lia|].
    cbn [obind].
    destruct (6 <=? length params)%nat eqn:E6;
      [apply Nat.leb_le in E6; lia|].
    eexists; reflexivity.
Qed.

Section OptimizerProperties.

Variable float_pow : Q -> Q -> Q.
Variable series_std : list Q -> Q.
Variable sqrt_252 : Q.
Variable np_str : list Q -> string.
Variable CVXPY_AVAILABLE : bool.
Variable minimize :
  (list Q -> O score) -> list Q -> string -> list (Q * Q) ->
  option (list constraint) -> nat -> O OptimizeResult.
Variable differential_evolution :
  (list Q -> O score) -> list (Q * Q) -> option Z -> nat -> nat -> Q ->
  O OptimizeResult.
Variable basinhopping :
  (list Q -> O score) -> list Q -> nat -> minimizer_kwargs -> option Z ->
  O OptimizeResult.

Let objective := objective_function float_pow series_std sqrt_252 np_str.





End OptimizerProperties.




(** ** The optimizer: seeded searches *)

Lemma same_optimizer_refl (s : OptState) : same_optimizer s s.
Proof. split; reflexivity. Qed.

Lemma rng_independent_ret {A} (a : A) : rng_independent (ret a).
Proof. intros s1 s2 Hs. split; [reflexivity | exact Hs]. Qed.

Lemma rng_independent_lift {A} (o : outcome A) : rng_independent (lift o).
Proof. intros s1 s2 Hs. split; [reflexivity | exact Hs]. Qed.

Lemma rng_independent_raise {A} (e : exn) : rng_independent (@raise OptState A e).
Proof. intros s1 s2 Hs. split; [reflexivity | exact Hs]. Qed.

Lemma rng_independent_bind {A B} (m : O A) (k : A -> O B) :
  rng_independent m -> (forall a, rng_independent (k a)) ->
  rng_independent (bind m k).
Proof.
  intros Hm Hk s1 s2 Hs. unfold bind.
  destruct (Hm s1 s2 Hs) as [Hf Hsnd].
  destruct (m s1) as [o1 t1], (m s2) as [o2 t2]. cbn [fst snd] in *. subst o2.
  destruct o1 as [a| |].
  - apply Hk. exact Hsnd.
  - split; [reflexivity | exact Hsnd].
  - split; [reflexivity | exact Hsnd].
Qed.

Lemma rng_independent_try_except {A} (m : O A) (handler : exn -> O A) :
  rng_independent m -> (forall e, rng_independent (handler e)) ->
  rng_independent (try_except m handler).
Proof.
  intros Hm Hh s1 s2 Hs. unfold try_except.
  destruct (Hm s1 s2 Hs) as [Hf Hsnd].
  destruct (m s1) as [o1 t1], (m s2) as [o2 t2]. cbn [fst snd] in *. subst o2.
  destruct o1 as [a| |].
  - split; [reflexivity | exact Hsnd].
  - apply Hh. exact Hsnd.
  - split; [reflexivity | exact Hsnd].
Qed.

Lemma rng_independent_cache_lookup (key : string) :
  rng_independent (cache_lookup key).
Proof.
  intros s1 s2 Hs. unfold cache_lookup. cbn [fst snd].
  split; [|exact Hs]. destruct Hs as [-> _]. reflexivity.
Qed.

Lemma rng_independent_cache_store (key : string) (value : Q) :
  rng_independent (cache_store key value).
Proof.
  intros s1 s2 [Hc Hn]. unfold cache_store. cbn [fst snd].
  split; [reflexivity|]. split; cbn; congruence.
Qed.

Lemma rng_independent_set_evaluation_count (f : nat -> nat) :
  rng_independent (set_evaluation_count f).
Proof.
  intros s1 s2 [Hc Hn]. unfold set_evaluation_count. cbn [fst snd].
  split; [reflexivity|]. split; cbn; congruence.
Qed.

Lemma rng_independent_attr (a : option nat) : rng_independent (attr a).
Proof.
  destruct a; [apply rng_independent_ret|].
  intros s1 s2 Hs. split; [reflexivity | exact Hs].
Qed.

(** A seeded one-step search does not look at the process-wide generator;
    an unseeded one does. *)
Lemma one_step_search_seeded (f : list Q -> O score) (x0 : list Q) (z : Z) :
  (forall x, rng_independent (f x)) ->
  rng_independent (one_step_search f x0 (Some z)).
Proof.
  intros Hf. unfold one_step_search.
  apply rng_independent_bind.
  - intros s1 s2 Hs. split; [reflexivity | exact Hs].
  - intros z'. apply rng_independent_bind; [apply Hf|].
    intros v. apply rng_independent_ret.
Qed.

Lemma one_step_search_unseeded :
  fst (one_step_search (fun x => ret (Fin (hd 0 x))) [0] None (fresh_optimizer 0))
  <> fst (one_step_search (fun x => ret (Fin (hd 0 x))) [0] None (fresh_optimizer 1)).
Proof. vm_compute. discriminate. Qed.

Section SeededSearches.

Variable float_pow : Q -> Q -> Q.
Variable series_std : list Q -> Q.
Variable sqrt_252 : Q.
Variable np_str : list Q -> string.
Variable CVXPY_AVAILABLE : bool.
Variable minimize :
  (list Q -> O score) -> list Q -> string -> list (Q * Q) ->
  option (list constraint) -> nat -> O OptimizeResult.
Variable differential_evolution :
  (list Q -> O score) -> list (Q * Q) -> option Z -> nat -> nat -> Q ->
  O OptimizeResult.
Variable basinhopping :
  (list Q -> O score) -> list Q -> nat -> minimizer_kwargs -> option Z ->
  O OptimizeResult.

(** What scipy promises of a search that is given a seed: run on an
    objective that does not depend on the process-wide generator, it does
    not depend on it either. *)
Hypothesis differential_evolution_seeded :
  forall f bounds seed maxiter popsize tol,
    (forall x, rng_independent (f x)) ->
    rng_independent
      (differential_evolution f bounds (Some seed) maxiter popsize tol).
Hypothesis basinhopping_seeded :
  forall f x0 niter kwargs seed,
    (forall x, rng_independent (f x)) ->
    rng_independent (basinhopping f x0 niter kwargs (Some seed)).

Lemma objective_function_rng_independent (self : YieldOptimizer)
    (name : string) (start_date end_date : timestamp) (params : list Q) :
  rng_independent
    (objective_function float_pow series_std sqrt_252 np_str self name
       start_date end_date params).
Proof.
  unfold objective_function.
  apply rng_independent_bind; [apply rng_independent_lift|]. intros config.
  apply rng_independent_bind; [apply rng_independent_cache_lookup|].
  intros [value|]; [apply rng_independent_ret|].
  apply rng_independent_try_except; [|intros e; apply rng_independent_ret].
  apply rng_independent_bind; [apply rng_independent_lift|]. intros results.
  destruct (results_getattr results name) as [value|];
    [|apply rng_independent_ret].
  apply rng_independent_bind; [apply rng_independent_lift|]. intros v.
  apply rng_independent_bind; [apply rng_independent_cache_store|]. intros _.
  apply rng_independent_bind; [apply rng_independent_set_evaluation_count|].
  intros _. apply rng_independent_ret.
Qed.

Lemma penalized_objective_rng_independent (f : list Q -> O score)
    (cs : list constraint) (params : list Q) :
  (forall x, rng_independent (f x)) ->
  rng_independent (penalized_objective f cs params).
Proof.
  intros Hf. unfold penalized_objective.
  apply rng_independent_bind; [apply rng_independent_lift|]. intros penalty.
  apply rng_independent_bind; [apply Hf|]. intros v.
  apply rng_independent_ret.
Qed.

Lemma optimize_genetic_rng_independent (self : YieldOptimizer)
    (f : list Q -> O score) (cs : list constraint) (bounds : list (Q * Q)) :
  (forall x, rng_independent (f x)) ->
  rng_independent (_optimize_genetic differential_evolution self f cs bounds).
Proof.
  intros Hf. unfold _optimize_genetic.
  apply rng_independent_bind.
  { apply differential_evolution_seeded. intros x.
    apply penalized_objective_rng_independent. exact Hf. }
  intros result.
  apply rng_independent_bind; [apply rng_independent_attr|]. intros nit.
  apply rng_independent_bind; [apply rng_independent_attr|]. intros nfev.
  apply rng_independent_ret.
Qed.

Lemma optimize_basinhopping_rng_independent (self : YieldOptimizer)
    (f : list Q -> O score) (cs : list constraint) (bounds : list (Q * Q)) :
  (forall x, rng_independent (f x)) ->
  rng_independent (_optimize_basinhopping basinhopping self f cs bounds).
Proof.
  intros Hf. unfold _optimize_basinhopping.
  apply rng_independent_bind.
  { apply basinhopping_seeded. exact Hf. }
  intros result.
  apply rng_independent_bind; [apply rng_independent_attr|]. intros nit.
  apply rng_independent_bind; [apply rng_independent_attr|]. intros nfev.
  apply rng_independent_ret.
Qed.

(** C10 (as amended).  With the method 'genetic' or 'basinhopping', two
    runs of [optimize_distribution_weights] on the same optimizer,
    objective, constraints, bounds and dates, started with the same cache,
    return the same result, whatever the state of the process-wide random
    generator in each run: both searches are called with the seed 42. *)
Theorem C10_seeded_searches_deterministic (self : YieldOptimizer)
    (name : string)
    (constraints : option (list (string * (list Q -> outcome Q))))
    (bounds : option (list (string * (Q * Q)))) (method : string)
    (start_date end_date : timestamp) (s1 s2 : OptState) :
  method = "genetic" \/ method = "basinhopping" ->
  _cache s1 = _cache s2 ->
  fst (optimize_distribution_weights float_pow series_std sqrt_252 np_str
         CVXPY_AVAILABLE minimize differential_evolution basinhopping
         self name constraints bounds method start_date end_date s1)
  = fst (optimize_distribution_weights float_pow series_std sqrt_252 np_str
           CVXPY_AVAILABLE minimize differential_evolution basinhopping
           self name constraints bounds method start_date end_date s2).
Proof.
  intros Hm Hc. unfold optimize_distribution_weights.
  unfold bind at 1. unfold bind at 1. unfold set_evaluation_count.
  assert (Hs : same_optimizer
                 {| _cache := _cache s1; _evaluation_count := 0;
                    global_random_state := global_random_state s1 |}
                 {| _cache := _cache s2; _evaluation_count := 0;
                    global_random_state := global_random_state s2 |}).
  { split; [exact Hc | reflexivity]. }
  destruct Hm as [-> | ->]; cbn [String.eqb Ascii.eqb Bool.eqb andb].
  - apply optimize_genetic_rng_independent; [|exact Hs].
    intros x. apply objective_function_rng_independent.
  - apply optimize_basinhopping_rng_independent; [|exact Hs].
    intros x. apply objective_function_rng_independent.
Qed.

End SeededSearches.

Lemma C10_seeded_searches_deterministic_witness :
  fst (optimize_distribution_weights (fun _ _ => 0) (fun _ => 0) 0
         (fun _ => "params") false
         (fun _ _ _ _ _ _ => failing_search)
         (fun f bounds seed _ _ _ => one_step_search f (map fst bounds) seed)
         (fun f x0 _ _ seed => one_step_search f x0 seed)
         two_shocks_optimizer "total_return" None None "genetic"
         (day 0) (day 1) (fresh_optimizer 0))
  = fst (optimize_distribution_weights (fun _ _ => 0) (fun _ => 0) 0
           (fun _ => "params") false
           (fun _ _ _ _ _ _ => failing_search)
           (fun f bounds seed _ _ _ => one_step_search f (map fst bounds) seed)
           (fun f x0 _ _ seed => one_step_search f x0 seed)
           two_shocks_optimizer "total_return" None None "genetic"
           (day 0) (day 1) (fresh_optimizer 1)).
Proof.
  apply C10_seeded_searches_deterministic.
  - intros f bounds seed _ _ _ Hf. apply one_step_search_seeded. exact Hf.
  - intros f x0 _ _ seed Hf. apply one_step_search_seeded. exact Hf.
  - left. reflexivity.
  - reflexivity.
Defined.

Lemma served_optimizer_eq :
  snd (genetic_run "total_rebalances" (fresh_optimizer 0)) = served_optimizer.
Proof. vm_compute. reflexivity. Qed.

Lemma fresh_run_eq :
  fst (genetic_run "total_return" (fresh_optimizer 0)) = fresh_run.
Proof. vm_compute. reflexivity. Qed.

Lemma served_run_eq :
  fst (genetic_run "total_return" served_optimizer) = served_run.
Proof. vm_compute. reflexivity. Qed.


(** C10 fails as stated: the cache is keyed by the parameter vector alone
    and is never cleared.  Two runs with the method 'genetic' on the same
    data, configuration, objective and dates return different results when
    one optimizer is new and the other has served a run for another
    objective: the second reuses that objective's value for the vector. *)
Lemma C10_counterexample :
  exists s r1 r2 v1 v2,
    snd (genetic_run "total_rebalances" (fresh_optimizer 0)) = s
    /\ fst (genetic_run "total_return" (fresh_optimizer 0)) = Ok r1
    /\ fst (genetic_run "total_return" s) = Ok r2
    /\ optimal_value r1 = Fin v1
    /\ optimal_value r2 = Fin v2
    /\ ~ v1 == v2.
Proof.
  pose proof served_optimizer_eq as Es.
  pose proof fresh_run_eq as E1. unfold fresh_run in E1.
  pose proof served_run_eq as E2. unfold served_run in E2.
  exists served_optimizer. eexists _, _, _, _.
  split; [exact Es|]. split; [exact E1|]. split; [exact E2|].
  split; [reflexivity|]. split; [reflexivity|].
  vm_compute. discriminate.
Qed.

(** The simulation of the two-day example, evaluated once. *)
Lemma two_shocks_simulation_eq :
  _run_simulation default_config two_shocks 0%nat store0
  = two_shocks_simulation.
Proof. vm_compute. reflexivity. Qed.

(** * Further properties of the backtester *)

(** ** Data preparation *)

Lemma insert_by_date_perm (r : Row) (l : list Row) :
  insert_by_date r l ≡ₚ r :: l.
Proof.
  induction l as [|x l IH]; simpl.
  - reflexivity.
  - destruct (date r <=? date x)%Z; [reflexivity|].
    rewrite IH. apply Permutation_swap.
Qed.

Lemma sort_values_date_perm (data : list Row) : sort_values_date data ≡ₚ data.
Proof.
  induction data as [|r l IH]; simpl.
  - reflexivity.
  - rewrite insert_by_date_perm, IH. reflexivity.
Qed.









Lemma ffill_from_complete (col : list (option Q)) : forall last,
  Forall (fun v => v <> None) col -> ffill_from last col = col.
Proof.
  induction col as [|v col IH]; intros last Hp; [reflexivity|].
  apply List.Forall_cons_iff in Hp as [Hv Hp].
  destruct v as [x|]; [|congruence].
  cbn [ffill_from]. rewrite IH by exact Hp. reflexivity.
Qed.

Lemma bfill_complete (col : list (option Q)) :
  Forall (fun v => v <> None) col -> bfill col = col.
Proof.
  induction col as [|v col IH]; intros Hp; [reflexivity|].
  apply List.Forall_cons_iff in Hp as [Hv Hp].
  destruct v as [x|]; [|congruence].
  cbn [bfill]. rewrite IH by exact Hp. reflexivity.
Qed.



Lemma with_columns_same (data : list RawRow) :
  with_columns data (map raw_cmBTC data) (map raw_cmUSD data)
    (map raw_cmBRL data) = data.
Proof.
  induction data as [|[t b u r] data IH]; [reflexivity|].
  cbn [map with_columns raw_date raw_cmBTC raw_cmUSD raw_cmBRL].
  rewrite IH. reflexivity.
Qed.




(** Without a missing value in the sorted frame the fills change nothing. *)
Lemma prepare_data_complete (sort_values : list RawRow -> list RawRow)
    (data : list RawRow) :
  (forall col, In col raw_columns ->
     Forall (fun v => v <> None) (map col (sort_values data))) ->
  Missing._prepare_data sort_values data = sort_values data.
Proof.
  intros Hs. unfold Missing._prepare_data.
  assert (Hf : fillna ffill (sort_values data) = sort_values data).
  { unfold fillna, ffill.
    rewrite !ffill_from_complete by (apply Hs; cbn; tauto).
    apply with_columns_same. }
  rewrite Hf. unfold fillna.
  rewrite !bfill_complete by (apply Hs; cbn; tauto).
  apply with_columns_same.
Qed.




Lemma insert_raw_by_date_raw (r : Row) (l : list Row) :
  insert_raw_by_date (raw r) (map raw l) = map raw (insert_by_date r l).
Proof.
  induction l as [|x l IH]; [reflexivity|].
  cbn [map insert_raw_by_date insert_by_date raw_date raw].
  destruct (date r <=? date x)%Z; [reflexivity|].
  cbn [map]. rewrite IH. reflexivity.
Qed.

Lemma sort_raw_values_date_raw (data : list Row) :
  sort_raw_values_date (map raw data) = map raw (sort_values_date data).
Proof.
  induction data as [|r l IH]; [reflexivity|].
  cbn [map sort_raw_values_date sort_values_date fold_right].
  fold (sort_raw_values_date (map raw l)). fold (sort_values_date l).
  rewrite IH. apply insert_raw_by_date_raw.
Qed.

(** On a frame without missing values the source's [_prepare_data], with
    the sort by insertion, is the [_prepare_data] of the backtester
    above. *)
Lemma prepare_data_of_complete_frame (data : list Row) :
  Missing._prepare_data sort_raw_values_date (map raw data)
  = map raw (_prepare_data data).
Proof.
  rewrite prepare_data_complete.
  - apply sort_raw_values_date_raw.
  - intros col Hc. rewrite sort_raw_values_date_raw, map_map.
    apply List.Forall_map, List.Forall_forall. intros r _.
    destruct Hc as [<- | [<- | [<- | []]]]; discriminate.
Qed.


(** Sorting rows that are already in date order changes nothing. *)
Lemma insert_by_date_head (r : Row) (l : list Row) :
  Forall (fun x => (date r <= date x)%Z) l -> insert_by_date r l = r :: l.
Proof.
  destruct 1 as [|x l Hx Hl]; simpl; [reflexivity|].
  apply Z.leb_le in Hx. rewrite Hx. reflexivity.
Qed.

Lemma sort_values_date_idempotent (l : list Row) :
  date_sorted l -> sort_values_date l = l.
Proof.
  unfold date_sorted. induction 1 as [|r l Hs IH Hr]; simpl.
  - reflexivity.
  - rewrite IH. apply insert_by_date_head. exact Hr.
Qed.

(** X2.  [_filter_data] keeps exactly the rows of the backtester whose date
    lies between the two bounds, both included, and keeps them in date
    order. *)
Theorem X2_filter_data_range (data : list Row) (cfg : OptimizationConfig)
    (start_date end_date : timestamp) (r : Row) :
  (In r (_filter_data (CCYOEBacktester__init__ data cfg) start_date end_date)
   <-> In r data /\ (start_date <= date r <= end_date)%Z)
  /\ date_sorted
       (_filter_data (CCYOEBacktester__init__ data cfg) start_date end_date).
Proof.
  unfold _filter_data, CCYOEBacktester__init__. cbn [self_data]. split.
  - rewrite List.filter_In, andb_true_iff, !Z.leb_le.
    assert (Hp : In r (_prepare_data data) <-> In r data).
    { pose proof (sort_values_date_perm data) as Hperm.
      split; apply Permutation_in; [exact Hperm | symmetry; exact Hperm]. }
    rewrite Hp. tauto.
  - apply filter_sorted. apply sort_values_date_sorted.
Qed.

(** ** The shape of a run *)

Lemma loop_series (cfg : OptimizationConfig) (p : loc) (rows : list Row) :
  forall (st st' : SimState) (h h' : gmap nat dict),
    for_each rows (simulation_step cfg p) st h = (Ok st', h') ->
    daily_yields st' = daily_yields st ++ rows
    /\ map dv_date (daily_values st')
       = map dv_date (daily_values st) ++ map date rows
    /\ (length (rebalance_events st')
        <= length (rebalance_events st) + length rows)%nat.
Proof.
  induction rows as [|row rows IH]; intros st st' h h' Hl; cbn [for_each] in Hl.
  - apply ret_Ok in Hl as [-> _]. rewrite !app_nil_r. cbn. repeat split; lia.
  - apply bind_Ok in Hl as (st1 & h1 & Hstep & Hl).
    destruct (IH _ _ _ _ Hl) as (Hy & Hd & He).
    pose proof (simulation_step_events _ _ _ _ _ _ _ Hstep) as Hev.
    apply simulation_step_Ok in Hstep
      as (reb & h0 & d1 & btc & usd & brl & _ & _ & _ & _ & _ & _ & Hst).
    assert (Hy1 : daily_yields st1 = daily_yields st ++ [row]) by (subst st1; reflexivity).
    assert (Hd1 : map dv_date (daily_values st1)
                  = map dv_date (daily_values st) ++ [date row]).
    { subst st1. cbn [daily_values]. rewrite map_app. reflexivity. }
    rewrite Hy, Hd, Hy1, Hd1, <- !app_assoc. cbn [map app length].
    repeat split.
    destruct Hev as [[He1 _] | (ev & He1 & _)]; rewrite He1 in He.
    + lia.
    + rewrite length_app in He. cbn in He. lia.
Qed.

Lemma run_simulation_Ok (cfg : OptimizationConfig) (data : list Row)
    (ip : loc) (h h' : gmap nat dict) (res : SimulationResults) :
  _run_simulation cfg data ip h = (Ok res, h') ->
  exists (d0 : dict) (st : SimState),
    h !! ip = Some d0
    /\ final_portfolio res = fresh (dom h)
    /\ for_each data (simulation_step cfg (fresh (dom h))) initial_state
         (<[fresh (dom h) := d0]> h) = (Ok st, h')
    /\ sim_daily_values res = daily_values st
    /\ sim_rebalance_events res = rebalance_events st
    /\ sim_daily_yields res = daily_yields st.
Proof.
  unfold _run_simulation, deepcopy. intros Hr.
  apply bind_Ok in Hr as (c & h1 & Hc & Hr).
  apply bind_Ok in Hc as (d0 & h0 & Hd0 & Hc).
  apply load_Ok in Hd0 as [Hd0 ->].
  unfold alloc in Hc. injection Hc as <- <-.
  apply bind_Ok in Hr as (st & h2 & Hloop & Hr).
  apply ret_Ok in Hr as [-> ->].
  exists d0, st. repeat split; assumption.
Qed.

(** X3.  A simulation that returns has recorded one daily value per row,
    dated as the rows are and in their order, has kept the rows themselves
    as its yield series, and has recorded at most one rebalance per row. *)
Theorem X3_run_simulation_series (cfg : OptimizationConfig) (data : list Row)
    (ip : loc) (h h' : gmap nat dict) (res : SimulationResults) :
  _run_simulation cfg data ip h = (Ok res, h') ->
  sim_daily_yields res = data
  /\ map dv_date (sim_daily_values res) = map date data
  /\ (length (sim_rebalance_events res) <= length data)%nat.
Proof.
  intros Hr.
  apply run_simulation_Ok in Hr as (d0 & st & _ & _ & Hloop & -> & -> & ->).
  apply loop_series in Hloop as (Hy & Hd & He). cbn in Hy, Hd, He.
  repeat split; assumption.
Qed.

Lemma X3_run_simulation_series_witness :
  exists res h',
    _run_simulation default_config two_shocks 0%nat store0 = (Ok res, h')
    /\ sim_daily_yields res = two_shocks
    /\ map dv_date (sim_daily_values res) = map date two_shocks.
Proof.
  pose proof two_shocks_simulation_eq as E. unfold two_shocks_simulation in E.
  eexists _, _. split; [exact E|].
  destruct (X3_run_simulation_series _ _ _ _ _ _ E) as (H1 & H2 & _).
  split; assumption.
Defined.

(** ** Ranges that are too short *)

Lemma run_backtest_Ok
    (float_pow : Q -> Q -> Q) (series_std : list Q -> Q) (sqrt_252 : Q)
    (self : CCYOEBacktester) (start_date end_date : timestamp)
    (ip : option loc) (h h' : gmap nat dict) (r : BacktestResults) :
  run_backtest float_pow series_std sqrt_252 self start_date end_date ip h
  = (Ok r, h') ->
  exists (l : loc) (h0 : gmap nat dict) (res : SimulationResults),
    _filter_data self start_date end_date <> []
    /\ _run_simulation (self_config self)
         (_filter_data self start_date end_date) l h0 = (Ok res, h')
    /\ _calculate_results float_pow series_std sqrt_252 (self_config self)
         (sim_daily_values res) (sim_rebalance_events res)
         (sim_daily_yields res) = Ok r.
Proof.
  unfold run_backtest.
  destruct (_filter_data self start_date end_date) as [|row rows] eqn:Hf;
    [discriminate|].
  cbn [length Nat.eqb]. intros Hr.
  apply bind_Ok in Hr as (l & h0 & _ & Hr).
  apply bind_Ok in Hr as (res & h1 & Hsim & Hr).
  apply lift_Ok in Hr as [Hr ->].
  exists l, h0, res. split; [discriminate|]. split; assumption.
Qed.

Lemma filter_data_empty (data : list Row) (cfg : OptimizationConfig)
    (start_date end_date : timestamp) :
  (forall r, In r data -> ~ (start_date <= date r <= end_date)%Z) ->
  _filter_data (CCYOEBacktester__init__ data cfg) start_date end_date = [].
Proof.
  intros Hout.
  destruct (_filter_data (CCYOEBacktester__init__ data cfg) start_date end_date)
    as [|row rows] eqn:Hf; [reflexivity|].
  exfalso.
  assert (Hin : In row (_filter_data (CCYOEBacktester__init__ data cfg)
                          start_date end_date))
    by (rewrite Hf; left; reflexivity).
  unfold _filter_data, CCYOEBacktester__init__ in Hin. cbn [self_data] in Hin.
  apply List.filter_In in Hin as [Hin Hr].
  apply andb_true_iff in Hr as [H1 H2]. apply Z.leb_le in H1, H2.
  apply (Hout row); [|lia].
  eapply Permutation_in; [apply sort_values_date_perm | exact Hin].
Qed.

(** X4.  When no row of the data is dated within the range, [run_backtest]
    raises [ValueError] and leaves the store as it was. *)
Theorem X4_run_backtest_empty_range
    (float_pow : Q -> Q -> Q) (series_std : list Q -> Q) (sqrt_252 : Q)
    (data : list Row) (cfg : OptimizationConfig)
    (start_date end_date : timestamp) (ip : option loc) (h : gmap nat dict) :
  (forall r, In r data -> ~ (start_date <= date r <= end_date)%Z) ->
  run_backtest float_pow series_std sqrt_252
    (CCYOEBacktester__init__ data cfg) start_date end_date ip h
  = (Raise (ValueError "No data available for specified date range"), h).
Proof.
  intros Hout. unfold run_backtest.
  rewrite (filter_data_empty data cfg start_date end_date Hout).
  reflexivity.
Qed.

Lemma X4_run_backtest_empty_range_witness :
  run_backtest (fun _ _ => 0) (fun _ => 0) 0
    (CCYOEBacktester__init__ two_shocks default_config) (day 5) (day 9)
    None ∅
  = (Raise (ValueError "No data available for specified date range"), ∅).
Proof.
  apply X4_run_backtest_empty_range.
  intros r [<- | [<- | []]]; cbn; unfold day, ns_per_day; lia.
Defined.

(** X5.  When exactly one row is dated within the range, [run_backtest]
    returns no result: with a single daily value there is no return to
    take the last of. *)
Theorem X5_run_backtest_single_row
    (float_pow : Q -> Q -> Q) (series_std : list Q -> Q) (sqrt_252 : Q)
    (self : CCYOEBacktester) (start_date end_date : timestamp)
    (ip : option loc) (h h' : gmap nat dict) (r : BacktestResults) :
  length (_filter_data self start_date end_date) = 1%nat ->
  run_backtest float_pow series_std sqrt_252 self start_date end_date ip h
  <> (Ok r, h').
Proof.
  intros Hlen Hr.
  apply run_backtest_Ok in Hr as (l & h0 & res & _ & Hsim & Hcalc).
  apply run_simulation_Ok in Hsim as (d0 & st & _ & _ & Hloop & Hdv & _ & _).
  apply loop_series in Hloop as (_ & Hd & _).
  assert (Hn : length (sim_daily_values res) = 1%nat).
  { rewrite Hdv. rewrite <- (length_map dv_date), Hd. cbn.
    rewrite length_map. exact Hlen. }
  destruct (sim_daily_values res) as [|dv [|dv' dvs]];
    [discriminate Hn | | discriminate Hn].
  unfold _calculate_results in Hcalc. cbn in Hcalc. discriminate Hcalc.
Qed.

Lemma X5_run_backtest_single_row_witness :
  ~ exists r h',
      run_backtest (fun _ _ => 0) (fun _ => 0) 0
        (CCYOEBacktester__init__ two_shocks default_config) (day 0) (day 0)
        None ∅ = (Ok r, h').
Proof.
  intros (r & h' & Hr). revert Hr. apply X5_run_backtest_single_row. reflexivity.
Defined.

(** ** Runs without excess, and the events of a run *)

Lemma check_excess_yields (cfg : OptimizationConfig) (row : Row) (p : loc)
    (last : option timestamp) (t : timestamp) :
  snd (_check_rebalance_conditions cfg (current_yields_of row) p last t)
  = [("cmBTC", py_max0 (cmBTC row - target_of cfg "cmBTC"));
     ("cmUSD", py_max0 (cmUSD row - target_of cfg "cmUSD"));
     ("cmBRL", py_max0 (cmBRL row - target_of cfg "cmBRL"))].
Proof. reflexivity. Qed.

Lemma fires_threshold (cfg : OptimizationConfig) (row : Row) (p : loc)
    (last : option timestamp) (t : timestamp) :
  fst (_check_rebalance_conditions cfg (current_yields_of row) p last t) = true ->
  rebalance_threshold cfg <= code_total_excess cfg row.
Proof.
  rewrite check_total_excess. intros Hf.
  apply andb_true_iff in Hf as [Hf _]. apply Qle_bool_iff in Hf. exact Hf.
Qed.

Lemma no_excess_no_fire (cfg : OptimizationConfig) (row : Row) (p : loc)
    (last : option timestamp) (t : timestamp) :
  0 < rebalance_threshold cfg ->
  cmBTC row <= target_of cfg "cmBTC" ->
  cmUSD row <= target_of cfg "cmUSD" ->
  cmBRL row <= target_of cfg "cmBRL" ->
  fst (_check_rebalance_conditions cfg (current_yields_of row) p last t) = false.
Proof.
  intros Ht H1 H2 H3.
  destruct (fst _) eqn:Hf; [|reflexivity]. exfalso.
  apply fires_threshold in Hf. unfold code_total_excess, py_max0 in Hf.
  assert (E1 : Qltb 0 (cmBTC row - target_of cfg "cmBTC") = false)
    by (apply Qltb_false; lra).
  assert (E2 : Qltb 0 (cmUSD row - target_of cfg "cmUSD") = false)
    by (apply Qltb_false; lra).
  assert (E3 : Qltb 0 (cmBRL row - target_of cfg "cmBRL") = false)
    by (apply Qltb_false; lra).
  rewrite E1, E2, E3 in Hf. lra.
Qed.

Lemma quiet_loop (cfg : OptimizationConfig) (p : loc) (rows : list Row) :
  0 < rebalance_threshold cfg ->
  Forall (at_or_below_target cfg) rows ->
  forall (st st' : SimState) (h h' : gmap nat dict) (d : dict) (b u r : Q),
    for_each rows (simulation_step cfg p) st h = (Ok st', h') ->
    h !! p = Some d ->
    dict_get d "cmBTC" = Some b ->
    dict_get d "cmUSD" = Some u ->
    dict_get d "cmBRL" = Some r ->
    rebalance_events st' = rebalance_events st
    /\ exists d',
         h' !! p = Some d'
         /\ dict_get d' "cmBTC" = Some (compound_over cmBTC rows b)
         /\ dict_get d' "cmUSD" = Some (compound_over cmUSD rows u)
         /\ dict_get d' "cmBRL" = Some (compound_over cmBRL rows r).
Proof.
  intros Ht. induction 1 as [|row rows (H1 & H2 & H3) Hrows IH];
    intros st st' h h' d b u r Hl Hd Hb Hu Hr; cbn [for_each] in Hl.
  - apply ret_Ok in Hl as [-> ->]. split; [reflexivity|].
    exists d. repeat split; assumption.
  - apply bind_Ok in Hl as (st1 & h1 & Hstep & Hl).
    apply simulation_step_Ok in Hstep
      as (reb & h0 & d1 & btc & usd & brl & Hreb & Hd1 & _ & _ & _ & Hc & Hst).
    apply rebalance_phase_fires in Hreb.
    rewrite (no_excess_no_fire cfg row p _ _ Ht H1 H2 H3) in Hreb.
    destruct Hreb as [-> ->].
    assert (d1 = d) as -> by congruence.
    destruct (compounding_loop _ _ _ _ _ Hd Hc) as (d' & -> & Hb' & Hu' & Hr').
    rewrite Hb in Hb'. rewrite Hu in Hu'. rewrite Hr in Hr'. cbn in Hb', Hu', Hr'.
    destruct (IH _ _ _ _ d' _ _ _ Hl (lookup_insert_eq _ _ _) Hb' Hu' Hr')
      as (He & d'' & Hd'' & Hb'' & Hu'' & Hr'').
    split.
    + rewrite He, Hst. reflexivity.
    + exists d''. repeat split; assumption.
Qed.

(** X6.  Under a positive threshold, a series on which no yield exceeds
    its target produces no rebalance event, and the simulation ends with
    each of the three balances of the initial portfolio compounded day by
    day at the asset's own yield. *)
Theorem X6_no_excess_no_rebalance (cfg : OptimizationConfig) (data : list Row)
    (ip : loc) (h h' : gmap nat dict) (res : SimulationResults)
    (d0 : dict) (b u r : Q) :
  0 < rebalance_threshold cfg ->
  Forall (at_or_below_target cfg) data ->
  h !! ip = Some d0 ->
  dict_get d0 "cmBTC" = Some b ->
  dict_get d0 "cmUSD" = Some u ->
  dict_get d0 "cmBRL" = Some r ->
  _run_simulation cfg data ip h = (Ok res, h') ->
  sim_rebalance_events res = []
  /\ exists d',
       h' !! final_portfolio res = Some d'
       /\ dict_get d' "cmBTC" = Some (compound_over cmBTC data b)
       /\ dict_get d' "cmUSD" = Some (compound_over cmUSD data u)
       /\ dict_get d' "cmBRL" = Some (compound_over cmBRL data r).
Proof.
  intros Ht Hq Hd0 Hb Hu Hr Hrun.
  apply run_simulation_Ok in Hrun as (d0' & st & Hd0' & -> & Hloop & _ & -> & _).
  assert (d0' = d0) as -> by congruence.
  destruct (quiet_loop cfg _ data Ht Hq _ _ _ _ d0 b u r Hloop
              (lookup_insert_eq _ _ _) Hb Hu Hr) as (He & d' & Hd' & Hrest).
  split; [exact He|]. exists d'. split; assumption.
Qed.

Lemma X6_no_excess_no_rebalance_witness :
  exists res h',
    _run_simulation default_config [flat_row; flat_row] 0%nat store0
    = (Ok res, h')
    /\ sim_rebalance_events res = [].
Proof.
  destruct (_run_simulation default_config [flat_row; flat_row] 0%nat store0)
    as [[res| |] h'] eqn:E; try (vm_compute in E; discriminate).
  exists res, h'. split; [reflexivity|].
  refine (proj1 (X6_no_excess_no_rebalance default_config [flat_row; flat_row]
                   0%nat store0 h' res default_portfolio 10 25 40
                   _ _ _ _ _ _ E)); try reflexivity.
  repeat constructor; vm_compute; discriminate.
Defined.

Lemma execute_rebalancing_Some (cfg : OptimizationConfig) (p : loc)
    (ex ys : dict) (t : timestamp) (h h' : gmap nat dict)
    (ev : option RebalanceEvent) :
  0 < py_sum (dict_values ex) ->
  _execute_rebalancing cfg p ex ys t h = (Ok ev, h') ->
  exists e,
    ev = Some e
    /\ ev_date e = t
    /\ total_excess_yield e = py_sum (dict_values ex)
    /\ gas_cost e = gas_cost_usd cfg.
Proof.
  intros Hpos. unfold _execute_rebalancing.
  destruct (Qle_bool (py_sum (dict_values ex)) 0) eqn:E.
  - apply Qle_bool_iff in E. lra.
  - intros Hr.
    apply bind_Ok in Hr as (d & h0 & _ & Hr).
    apply bind_Ok in Hr as (rd & h1 & _ & Hr).
    apply bind_Ok in Hr as (acc & h2 & _ & Hr).
    apply ret_Ok in Hr as [-> _].
    eexists. repeat split; reflexivity.
Qed.

Lemma step_full_event (cfg : OptimizationConfig) (p : loc)
    (st st' : SimState) (row : Row) (h h' : gmap nat dict) :
  0 < rebalance_threshold cfg ->
  simulation_step cfg p st row h = (Ok st', h') ->
  rebalance_events st' = rebalance_events st
  \/ exists e,
       rebalance_events st' = rebalance_events st ++ [Some e]
       /\ ev_date e = date row
       /\ total_excess_yield e = code_total_excess cfg row
       /\ rebalance_threshold cfg <= total_excess_yield e
       /\ gas_cost e = gas_cost_usd cfg.
Proof.
  intros Ht Hs.
  apply simulation_step_Ok in Hs
    as (reb & h1 & d1 & btc & usd & brl & Hreb & _ & _ & _ & _ & _ & ->).
  apply rebalance_phase_fires in Hreb. cbn [rebalance_events].
  destruct (fst (_check_rebalance_conditions cfg (current_yields_of row) p
                   (last_rebalance_date st) (date row))) eqn:Hf.
  - right. destruct Hreb as (ev & Hex & ->).
    apply fires_threshold in Hf. rewrite check_excess_yields in Hex.
    apply execute_rebalancing_Some in Hex as (e & -> & Hd & Hte & Hg).
    + exists e. change (py_sum _) with (code_total_excess cfg row) in Hte.
      rewrite Hte. repeat split; assumption.
    + change (py_sum _) with (code_total_excess cfg row). lra.
  - left. destruct Hreb as [-> _]. reflexivity.
Qed.

Lemma loop_full_events (cfg : OptimizationConfig) (p : loc) (all : list Row) :
  0 < rebalance_threshold cfg ->
  forall (rows : list Row) (st st' : SimState) (h h' : gmap nat dict),
    (forall r, In r rows -> In r all) ->
    for_each rows (simulation_step cfg p) st h = (Ok st', h') ->
    Forall (full_event cfg all) (rebalance_events st) ->
    Forall (full_event cfg all) (rebalance_events st').
Proof.
  intros Ht. induction rows as [|row rows IH];
    intros st st' h h' Hin Hl Hall; cbn [for_each] in Hl.
  - apply ret_Ok in Hl as [-> _]. exact Hall.
  - apply bind_Ok in Hl as (st1 & h1 & Hstep & Hl).
    apply (IH st1 st' h1 h'); [intros r Hr; apply Hin; right; exact Hr | exact Hl |].
    destruct (step_full_event _ _ _ _ _ _ _ Ht Hstep)
      as [-> | (e & -> & Hd & Hte & Hthr & Hg)]; [exact Hall|].
    apply Forall_app. split; [exact Hall|]. constructor; [|constructor].
    exists e, row. repeat split; try assumption. apply Hin. left. reflexivity.
Qed.

Lemma run_simulation_full_events (cfg : OptimizationConfig) (data : list Row)
    (ip : loc) (h h' : gmap nat dict) (res : SimulationResults) :
  0 < rebalance_threshold cfg ->
  _run_simulation cfg data ip h = (Ok res, h') ->
  Forall (full_event cfg data) (sim_rebalance_events res).
Proof.
  intros Ht Hrun.
  apply run_simulation_Ok in Hrun as (d0 & st & _ & _ & Hloop & _ & -> & _).
  apply (loop_full_events cfg _ data Ht data _ _ _ _ (fun r Hr => Hr) Hloop).
  constructor.
Qed.

(** X7.  Under a positive threshold every event that a simulation records
    is a full record, never the empty dictionary: it carries the date of one
    of the rows, the total excess of that row, which is at least the
    threshold, and the configured gas cost. *)
Theorem X7_events_are_full_records (cfg : OptimizationConfig) (data : list Row)
    (ip : loc) (h h' : gmap nat dict) (res : SimulationResults) :
  0 < rebalance_threshold cfg ->
  _run_simulation cfg data ip h = (Ok res, h') ->
  Forall (full_event cfg data) (sim_rebalance_events res).
Proof. apply run_simulation_full_events. Qed.

Lemma X7_events_are_full_records_witness :
  exists res h',
    _run_simulation default_config two_shocks 0%nat store0 = (Ok res, h')
    /\ Forall (full_event default_config two_shocks) (sim_rebalance_events res).
Proof.
  pose proof two_shocks_simulation_eq as E. unfold two_shocks_simulation in E.
  eexists _, _. split; [exact E|].
  apply (X7_events_are_full_records default_config _ _ _ _ _ eq_refl E).
Defined.

Lemma gas_sum (cfg : OptimizationConfig) (rows : list Row)
    (events : list (option RebalanceEvent)) :
  Forall (full_event cfg rows) events ->
  exists evs,
    omap id events = evs
    /\ length evs = length events
    /\ py_sum (map gas_cost evs)
       == gas_cost_usd cfg * inject_Z (Z.of_nat (length events)).
Proof.
  induction 1 as [|ev events (e & row & -> & _ & _ & _ & _ & Hg) _ IH].
  - exists []. split; [reflexivity|]. split; [reflexivity|].
    cbn [map length]. rewrite py_sum_nil. change (inject_Z (Z.of_nat 0)) with 0. ring.
  - destruct IH as (evs & Hevs & Hlen & Hsum).
    exists (e :: evs). split; [|split].
    + cbn. rewrite Hevs. reflexivity.
    + cbn. rewrite Hlen. reflexivity.
    + cbn [map length]. rewrite py_sum_cons, Hsum, Hg, Nat2Z.inj_succ.
      unfold Z.succ. rewrite inject_Z_plus. change (inject_Z 1) with 1. ring.
Qed.

(** X8.  Under a positive threshold the total gas cost that a backtest
    reports is the configured gas cost times the number of rebalances it
    reports, and that number is the number of recorded events. *)
Theorem X8_total_gas_costs
    (float_pow : Q -> Q -> Q) (series_std : list Q -> Q) (sqrt_252 : Q)
    (self : CCYOEBacktester) (start_date end_date : timestamp)
    (ip : option loc) (h h' : gmap nat dict) (r : BacktestResults) :
  0 < rebalance_threshold (self_config self) ->
  run_backtest float_pow series_std sqrt_252 self start_date end_date ip h
  = (Ok r, h') ->
  total_rebalances r = length (res_rebalance_events r)
  /\ total_gas_costs r
     == gas_cost_usd (self_config self)
        * inject_Z (Z.of_nat (total_rebalances r)).
Proof.
  intros Ht Hr.
  apply run_backtest_Ok in Hr as (l & h0 & res & _ & Hsim & Hcalc).
  pose proof (run_simulation_full_events _ _ _ _ _ _ Ht Hsim) as Hfull.
  apply gas_sum in Hfull as (evs & Hevs & Hlen & Hsum).
  unfold _calculate_results in Hcalc.
  repeat match type of Hcalc with
    | obind ?o _ = Ok _ =>
        lazymatch o with
        | (if (0 <? _)%nat then events_column_sum "gas_cost" _ _ else _) =>
            fail
        | _ => destruct o; cbn [obind] in Hcalc; try discriminate
        end
    end.
  match type of Hcalc with
  | obind ?o _ = Ok _ => destruct o as [gas| |] eqn:Hgas;
                         cbn [obind] in Hcalc; try discriminate
  end.
  repeat match type of Hcalc with
    | obind ?o _ = Ok _ => destruct o; cbn [obind] in Hcalc; try discriminate
    end.
  injection Hcalc as <-. cbn [total_rebalances res_rebalance_events total_gas_costs].
  split; [reflexivity|].
  destruct (sim_rebalance_events res) as [|ev events] eqn:Hev.
  - cbn in Hgas. injection Hgas as <-. cbn. ring.
  - cbn [length Nat.ltb Nat.leb] in Hgas. unfold events_column_sum in Hgas.
    rewrite Hevs in Hgas.
    destruct evs as [|e evs]; [discriminate Hlen|].
    injection Hgas as <-. exact Hsum.
Qed.

Lemma X8_total_gas_costs_witness :
  exists r h',
    run_backtest (fun _ _ => 0) (fun _ => 0) 0
      (CCYOEBacktester__init__ two_shocks default_config) (day 0) (day 1)
      None ∅ = (Ok r, h')
    /\ total_gas_costs r == 50 * 2.
Proof.
  pose proof two_shocks_backtest_eq as E. unfold two_shocks_backtest in E.
  eexists _, _. split; [exact E|].
  destruct (X8_total_gas_costs _ _ _ _ _ _ _ _ _ _ (eq_refl : 0 < rebalance_threshold (self_config (CCYOEBacktester__init__ two_shocks default_config))) E) as [_ Hg].
  exact Hg.
Defined.

(** ** The accounting of a rebalance *)

Lemma dict_set_sum_fresh (d : dict) (k : string) (v : Q) :
  dict_get d k = None ->
  py_sum (dict_values (dict_set d k v)) == py_sum (dict_values d) + v.
Proof.
  induction d as [|[k0 v0] d IH]; simpl.
  - intros _. unfold dict_values. cbn [map snd]. rewrite py_sum_cons, !py_sum_nil. lra.
  - destruct (String.eqb k0 k); [discriminate|]. intros Hg.
    unfold dict_values in *. cbn [map snd]. rewrite !py_sum_cons, (IH Hg). lra.
Qed.

Lemma dict_set_sum_present (d : dict) (k : string) (old v : Q) :
  dict_get d k = Some old ->
  py_sum (dict_values (dict_set d k v)) == py_sum (dict_values d) - old + v.
Proof.
  induction d as [|[k0 v0] d IH]; simpl; [discriminate|].
  destruct (String.eqb k0 k).
  - intros [= ->]. unfold dict_values. cbn [map snd]. rewrite !py_sum_cons. lra.
  - intros Hg. unfold dict_values in *. cbn [map snd].
    rewrite !py_sum_cons, (IH Hg). lra.
Qed.

Lemma dict_set_keys_present (d : dict) (k : string) (old v : Q) :
  dict_get d k = Some old -> dict_keys (dict_set d k v) = dict_keys d.
Proof.
  induction d as [|[k0 v0] d IH]; simpl; [discriminate|].
  destruct (String.eqb k0 k) eqn:E.
  - intros _. reflexivity.
  - intros Hg. unfold dict_keys in *. cbn. f_equal. exact (IH Hg).
Qed.

Lemma getitem_Ok (p : loc) (k : string) (h h' : gmap nat dict) (v : Q) :
  getitem p k h = (Ok v, h') ->
  exists d, h !! p = Some d /\ dict_get d k = Some v /\ h' = h.
Proof.
  unfold getitem. intros Hg.
  apply bind_Ok in Hg as (d & h0 & Hd & Hg). apply load_Ok in Hd as [Hd ->].
  apply lift_Ok in Hg as [Hg ->]. unfold dict_getitem in Hg.
  destruct (dict_get d k) as [v'|] eqn:E; [|discriminate].
  injection Hg as ->. exists d. repeat split; assumption.
Qed.

Lemma apply_boost_Ok (cfg : OptimizationConfig) (p : loc) (impact : dict)
    (tc : Q) (asset : string) (boost : Q) (h h' : gmap nat dict)
    (acc' : dict * Q) (d : dict) :
  apply_boost cfg p (impact, tc) (asset, boost) h = (Ok acc', h') ->
  h !! p = Some d ->
  (acc' = (impact, tc) /\ h' = h)
  \/ exists v,
       dict_get d asset = Some v
       /\ acc' = (dict_set impact asset (v * (boost / 10000)),
                  tc + v * (boost / 10000) * transaction_cost cfg / 10000)
       /\ h' = <[p := dict_set (dict_set d asset (v + v * (boost / 10000))) asset
                         (v + v * (boost / 10000)
                          - v * (boost / 10000) * transaction_cost cfg / 10000)]> h.
Proof.
  unfold apply_boost. destruct (Qltb 0 boost).
  - intros Hb Hd. right.
    apply bind_Ok in Hb as (v & h0 & Hv & Hb).
    apply getitem_Ok in Hv as (d0 & Hd0 & Hv & ->).
    apply bind_Ok in Hb as (v1 & h1 & Hv1 & Hb).
    apply getitem_Ok in Hv1 as (d1 & Hd1 & Hv1 & ->).
    apply bind_Ok in Hb as (u1 & h2 & Hs1 & Hb).
    apply setitem_Ok in Hs1 as (d2 & Hd2 & ->).
    apply bind_Ok in Hb as (v2 & h3 & Hv2 & Hb).
    apply getitem_Ok in Hv2 as (d3 & Hd3 & Hv2 & ->).
    apply bind_Ok in Hb as (u2 & h4 & Hs2 & Hb).
    apply setitem_Ok in Hs2 as (d4 & Hd4 & ->).
    apply ret_Ok in Hb as [-> ->].
    rewrite lookup_insert_eq in Hd3, Hd4.
    assert (d0 = d) as -> by congruence.
    assert (d1 = d) as -> by congruence.
    assert (d2 = d) as -> by congruence.
    injection Hd3 as <-. injection Hd4 as <-.
    rewrite dict_get_set_eq in Hv2. injection Hv2 as <-.
    assert (v1 = v) as -> by congruence.
    exists v. split; [exact Hv|]. split; [reflexivity|].
    rewrite insert_insert_eq. reflexivity.
  - intros Hb Hd. left. apply ret_Ok in Hb as [-> ->]. split; reflexivity.
Qed.

Lemma boost_loop (cfg : OptimizationConfig) (p : loc) (items : list (string * Q)) :
  NoDup (map fst items) ->
  forall (impact : dict) (tc : Q) (h h' : gmap nat dict) (acc' : dict * Q)
         (d : dict),
    for_each items (apply_boost cfg p) (impact, tc) h = (Ok acc', h') ->
    h !! p = Some d ->
    (forall k, In k (map fst items) -> dict_get impact k = None) ->
    exists d',
      h' !! p = Some d'
      /\ dict_keys d' = dict_keys d
      /\ snd acc' - tc
         == transaction_cost cfg / 10000
            * (py_sum (dict_values (fst acc')) - py_sum (dict_values impact))
      /\ py_sum (dict_values d') - py_sum (dict_values d)
         == (py_sum (dict_values (fst acc')) - py_sum (dict_values impact))
            - (snd acc' - tc).
Proof.
  induction items as [|[asset boost] items IH];
    intros Hnd impact tc h h' acc' d Hl Hd Hfresh; cbn [for_each] in Hl.
  - apply ret_Ok in Hl as [-> ->]. exists d. cbn [fst snd].
    repeat split; try assumption; ring.
  - cbn [map fst] in Hnd. apply NoDup_cons in Hnd as [Hnotin Hnd].
    apply bind_Ok in Hl as ([impact1 tc1] & h1 & Hb & Hl).
    destruct (apply_boost_Ok _ _ _ _ _ _ _ _ _ _ Hb Hd)
      as [[[= -> ->] ->] | (v & Hv & [= -> ->] & ->)].
    + apply (IH Hnd impact tc h h' acc' d Hl Hd).
      intros k Hk. apply Hfresh. right. exact Hk.
    + assert (Hlook : (<[p := dict_set (dict_set d asset (v + v * (boost / 10000)))
                                asset
                                (v + v * (boost / 10000)
                                 - v * (boost / 10000) * transaction_cost cfg
                                   / 10000)]> h) !! p = Some
                         (dict_set (dict_set d asset (v + v * (boost / 10000)))
                            asset
                            (v + v * (boost / 10000)
                             - v * (boost / 10000) * transaction_cost cfg / 10000)))
        by apply lookup_insert_eq.
      destruct (IH Hnd _ _ _ _ _ _ Hl Hlook) as (d' & Hd' & Hk' & Hc & Hs).
      { intros k Hk. rewrite dict_get_set_ne.
        - apply Hfresh. right. exact Hk.
        - intros ->. apply Hnotin. apply list_elem_of_In. exact Hk. }
      exists d'. split; [exact Hd'|]. split.
      { rewrite Hk'.
        rewrite (dict_set_keys_present _ asset (v + v * (boost / 10000)))
          by apply dict_get_set_eq.
        apply (dict_set_keys_present _ asset v). exact Hv. }
      assert (Hi : py_sum (dict_values (dict_set impact asset (v * (boost / 10000))))
                   == py_sum (dict_values impact) + v * (boost / 10000)).
      { apply dict_set_sum_fresh. apply Hfresh. left. reflexivity. }
      assert (Hp : py_sum (dict_values
                             (dict_set (dict_set d asset (v + v * (boost / 10000)))
                                asset
                                (v + v * (boost / 10000)
                                 - v * (boost / 10000) * transaction_cost cfg
                                   / 10000)))
                   == py_sum (dict_values d) + v * (boost / 10000)
                      - v * (boost / 10000) * transaction_cost cfg / 10000).
      { rewrite (dict_set_sum_present _ asset (v + v * (boost / 10000)))
          by apply dict_get_set_eq.
        rewrite (dict_set_sum_present _ asset v) by exact Hv. field. }
      rewrite Hi in Hc, Hs. rewrite Hp in Hs.
      set (x := v * (boost / 10000)) in *.
      set (c := x * transaction_cost cfg / 10000) in *.
      split.
      * assert (E1 : snd acc' - tc == snd acc' - (tc + c) + c) by ring.
        rewrite E1, Hc. unfold c. field.
      * assert (E2 : py_sum (dict_values d') - py_sum (dict_values d)
                     == py_sum (dict_values d')
                        - (py_sum (dict_values d) + x - c) + (x - c)) by ring.
        rewrite E2, Hs. ring.
Qed.

Lemma ofor_each_keys {B} (l : list B) (body : dict -> B -> outcome dict) :
  (forall acc x acc', body acc x = Ok acc' -> dict_keys acc' = dict_keys acc) ->
  forall acc r, ofor_each l body acc = Ok r -> dict_keys r = dict_keys acc.
Proof.
  intros Hbody. induction l as [|x l IH]; intros acc r; simpl.
  - intros [= <-]. reflexivity.
  - destruct (body acc x) as [acc'| |] eqn:E; simpl; try discriminate.
    intros Hr. rewrite (IH _ _ Hr). apply (Hbody _ _ _ E).
Qed.

(** The redistribution always has the three assets as its keys. *)
Lemma redistribution_keys (cfg : OptimizationConfig)
    (portfolio excess_yields : dict) (total_excess : Q) (r : dict) :
  _calculate_yield_redistribution cfg portfolio excess_yields total_excess = Ok r ->
  dict_keys r = assets.
Proof.
  unfold _calculate_yield_redistribution. intros Hr.
  match type of Hr with
  | obind ?o1 _ = _ => destruct o1 as [r1| |] eqn:E1; simpl in Hr; try discriminate
  end.
  match type of Hr with
  | obind ?o2 _ = _ => destruct o2 as [r2| |] eqn:E2; simpl in Hr; try discriminate
  end.
  match type of Hr with
  | obind ?o3 _ = _ => destruct o3 as [r3| |] eqn:E3; simpl in Hr; try discriminate
  end.
  injection Hr as <-.
  apply ofor_each_keys in E3.
  2:{ intros acc [a v] acc'.
      destruct (py_div v _); simpl; try discriminate. apply dict_iadd_keys. }
  apply ofor_each_keys in E2.
  2:{ intros acc [a v] acc'.
      destruct (utilization cfg a v) as [u| |]; simpl; try discriminate.
      destruct (Qltb (8 # 10) u);
        [apply dict_iadd_keys | intros [= <-]; reflexivity]. }
  apply ofor_each_keys in E1.
  2:{ intros acc a acc'.
      destruct (Qltb 0 (total_excess * under_supplied_allocation cfg));
        [apply dict_iadd_keys | intros [= <-]; reflexivity]. }
  rewrite E3, E2, E1. reflexivity.
Qed.

(** X9.  A rebalance that records an event keeps the assets of the
    portfolio, charges a transaction cost equal to the cost rate (in basis
    points) of the total value increase it records, and leaves the
    portfolio worth what it was plus that increase less that cost. *)
Theorem X9_rebalance_accounting (cfg : OptimizationConfig) (p : loc)
    (ex ys : dict) (t : timestamp) (h h' : gmap nat dict)
    (ev : RebalanceEvent) (d : dict) :
  h !! p = Some d ->
  _execute_rebalancing cfg p ex ys t h = (Ok (Some ev), h') ->
  exists d',
    h' !! p = Some d'
    /\ dict_keys d' = dict_keys d
    /\ ev_transaction_cost ev
       == transaction_cost cfg / 10000
          * py_sum (dict_values (portfolio_impact ev))
    /\ py_sum (dict_values d')
       == py_sum (dict_values d) + py_sum (dict_values (portfolio_impact ev))
          - ev_transaction_cost ev.
Proof.
  intros Hd. unfold _execute_rebalancing.
  destruct (Qle_bool (py_sum (dict_values ex)) 0).
  { intros Hr. apply ret_Ok in Hr as [[=] _]. }
  intros Hr.
  apply bind_Ok in Hr as (d0 & h0 & Hd0 & Hr). apply load_Ok in Hd0 as [Hd0 ->].
  apply bind_Ok in Hr as (rd & h1 & Hrd & Hr). apply lift_Ok in Hrd as [Hrd ->].
  apply bind_Ok in Hr as (acc & h2 & Hloop & Hr).
  apply ret_Ok in Hr as [[= ->] ->].
  cbn [portfolio_impact ev_transaction_cost].
  apply redistribution_keys in Hrd.
  assert (Hnd : NoDup (map fst rd)).
  { unfold dict_keys in Hrd. rewrite Hrd. unfold assets.
    refine (bool_decide_unpack _ _). vm_compute. exact I. }
  destruct (boost_loop cfg p rd Hnd [] 0 _ _ acc d Hloop Hd)
    as (d' & Hd' & Hk & Hc & Hs); [intros k _; reflexivity|].
  exists d'. split; [exact Hd'|]. split; [exact Hk|].
  change (py_sum (dict_values [])) with 0 in Hc, Hs. split.
  - assert (E : snd acc == snd acc - 0) by ring. rewrite E, Hc. ring.
  - assert (E : py_sum (dict_values d')
                == py_sum (dict_values d')  - py_sum (dict_values d)
                   + py_sum (dict_values d)) by ring.
    rewrite E, Hs. ring.
Qed.

Lemma X9_rebalance_accounting_witness :
  exists ev h' d',
    _execute_rebalancing default_config 0%nat shock_excess
      (current_yields_of shock_row) (day 0) store0 = (Ok (Some ev), h')
    /\ h' !! 0%nat = Some d'
    /\ ev_transaction_cost ev
       == transaction_cost default_config / 10000
          * py_sum (dict_values (portfolio_impact ev)).
Proof.
  destruct (_execute_rebalancing default_config 0%nat shock_excess
              (current_yields_of shock_row) (day 0) store0)
    as [[[ev|]| |] h'] eqn:E; try (vm_compute in E; discriminate).
  destruct (X9_rebalance_accounting default_config 0%nat shock_excess
              (current_yields_of shock_row) (day 0) store0 h' ev
              default_portfolio eq_refl E) as (d' & Hd' & _ & Hc & _).
  exists ev, h', d'. repeat split; assumption.
Defined.

(** * Further properties of the metrics *)

(** X10.  Every result of [run_backtest] has a max drawdown that is not
    positive, a Sharpe ratio of zero unless the volatility is positive, and
    a Calmar ratio of zero when the max drawdown is zero. *)
Theorem X10_backtest_ratios
    (float_pow : Q -> Q -> Q) (series_std : list Q -> Q) (sqrt_252 : Q)
    (self : CCYOEBacktester) (start_date end_date : timestamp)
    (ip : option loc) (h h' : gmap nat dict) (r : BacktestResults) :
  run_backtest float_pow series_std sqrt_252 self start_date end_date ip h
  = (Ok r, h') ->
  max_drawdown r <= 0
  /\ (volatility r <= 0 -> sharpe_ratio r = 0)
  /\ (max_drawdown r == 0 -> calmar_ratio r = 0).
Proof.
  intros Hr. apply run_backtest_Ok in Hr as (l & h0 & res & _ & _ & Hc).
  exact (calculate_results_ratios _ _ _ _ _ _ _ _ Hc).
Qed.

Lemma X10_backtest_ratios_witness :
  exists r h',
    run_backtest (fun _ _ => 0) (fun _ => 0) 0
      (CCYOEBacktester__init__ two_shocks default_config) (day 0) (day 1)
      None ∅ = (Ok r, h')
    /\ max_drawdown r <= 0
    /\ sharpe_ratio r = 0.
Proof.
  pose proof two_shocks_backtest_eq as E. unfold two_shocks_backtest in E.
  eexists _, _. split; [exact E|].
  destruct (X10_backtest_ratios _ _ _ _ _ _ _ _ _ _ E) as (Hm & Hs & _).
  split; [exact Hm|]. apply Hs. vm_compute. discriminate.
Defined.

Lemma fold_left_Qmult (l : list Q) (a : Q) :
  fold_left Qmult l a == a * fold_left Qmult l 1.
Proof.
  revert a. induction l as [|x l IH]; intros a; simpl.
  - ring.
  - rewrite (IH (a * x)), (IH (1 * x)). ring.
Qed.

Lemma py_prod_app (a b : list Q) : py_prod (a ++ b) == py_prod a * py_prod b.
Proof.
  unfold py_prod. rewrite fold_left_app, fold_left_Qmult. reflexivity.
Qed.

(** X11.  Total returns compound: the total return of one series followed
    by another is [(1 + first) * (1 + second) - 1], an empty series counting
    as a return of zero. *)
Theorem X11_total_return_app (a b : list Q) :
  PerformanceMetrics_total_return (a ++ b)
  == (1 + PerformanceMetrics_total_return a)
     * (1 + PerformanceMetrics_total_return b) - 1.
Proof.
  assert (H : forall l, 1 + PerformanceMetrics_total_return l
                        == py_prod (map (fun r => 1 + r) l)).
  { intros l. unfold PerformanceMetrics_total_return.
    destruct l as [|x l]; cbn [length Nat.eqb]; [reflexivity | ring]. }
  rewrite !H.
  assert (E : PerformanceMetrics_total_return (a ++ b)
              == 1 + PerformanceMetrics_total_return (a ++ b) - 1) by ring.
  rewrite E, H, map_app, py_prod_app. reflexivity.
Qed.

(** ** Drawdown *)

Lemma cumprod_from_nonneg (l : list Q) (acc : Q) :
  0 <= acc -> Forall (fun f => 0 <= f) l ->
  Forall (fun w => 0 <= w) (cumprod_from acc l).
Proof.
  intros Hacc Hl. revert acc Hacc.
  induction Hl as [|f l Hf _ IH]; intros acc Hacc; simpl; constructor.
  - apply Qmult_le_0_compat; assumption.
  - apply IH. apply Qmult_le_0_compat; assumption.
Qed.

Lemma drawdown_from_bounds (l : list Q) :
  Forall (fun w => 0 <= w) l ->
  forall (m : Q) (dd : list Q),
    drawdown_series l (expanding_max_from m l) = Ok dd ->
    Forall (fun q => -(1) <= q /\ q <= 0) dd.
Proof.
  induction 1 as [|w l Hw _ IH]; intros m dd; simpl.
  - intros [= <-]. constructor.
  - destruct (py_div (w - Qmax m w) (Qmax m w)) as [q| |] eqn:D;
      simpl; try discriminate.
    destruct (drawdown_series l (expanding_max_from (Qmax m w) l))
      as [rest| |] eqn:R; simpl; try discriminate.
    intros [= <-]. constructor; [|apply (IH _ _ R)].
    apply py_div_Ok in D as [Hne ->].
    pose proof (Q.le_max_r m w) as Hmax.
    assert (Hpos : 0 < Qmax m w).
    { destruct (Qlt_le_dec 0 (Qmax m w)) as [Hp|Hn]; [exact Hp|].
      exfalso. apply Hne. lra. }
    split.
    + apply Qle_shift_div_l; [exact Hpos|]. lra.
    + apply Qle_shift_div_r; [exact Hpos|]. lra.
Qed.

Lemma series_min_bounds (l : list Q) (x lo hi : Q) :
  lo <= x <= hi -> Forall (fun q => lo <= q /\ q <= hi) l ->
  lo <= series_min x l <= hi.
Proof.
  unfold series_min. intros Hx Hl. revert x Hx.
  induction Hl as [|y l Hy _ IH]; intros x Hx; simpl; [exact Hx|].
  apply IH. destruct (Q.min_spec x y) as [[_ ->] | [_ ->]]; tauto.
Qed.

(** X12.  On a series in which no return is below -100%,
    [PerformanceMetrics.max_drawdown], when it is defined, lies between 0
    and 1. *)
Theorem X12_max_drawdown_range (returns : list Q) (m : Q) :
  Forall (fun r => -(1) <= r) returns ->
  PerformanceMetrics_max_drawdown returns = Ok m ->
  0 <= m <= 1.
Proof.
  intros Hr. unfold PerformanceMetrics_max_drawdown.
  destruct (length returns =? 0)%nat; [intros [= <-]; lra|].
  destruct returns as [|r returns]; [cbn; discriminate|].
  cbn [map cumprod expanding_max drawdown_series].
  apply Forall_cons in Hr as [Hr0 Hr].
  destruct (py_div (1 + r - (1 + r)) (1 + r)) as [q| |] eqn:D;
    cbn [obind]; try discriminate.
  destruct (drawdown_series _ _) as [rest| |] eqn:R; cbn [obind]; try discriminate.
  intros [= <-].
  apply py_div_Ok in D as [Hne ->].
  apply drawdown_from_bounds in R.
  2:{ apply cumprod_from_nonneg; [lra|].
      apply Forall_map. eapply List.Forall_impl; [|exact Hr].
      cbv beta. intros x Hx. lra. }
  assert (Hq : -(1) <= (1 + r - (1 + r)) / (1 + r) <= 0).
  { assert (E : (1 + r - (1 + r)) / (1 + r) == 0) by (field; exact Hne).
    rewrite E. lra. }
  pose proof (series_min_bounds rest _ (-(1)) 0 Hq R) as [Hlo Hhi].
  apply Qabs_case; intros; lra.
Qed.

Lemma X12_max_drawdown_range_witness :
  exists m,
    PerformanceMetrics_max_drawdown [1 # 10; -(1 # 10)] = Ok m /\ 0 <= m <= 1.
Proof.
  destruct (PerformanceMetrics_max_drawdown [1 # 10; -(1 # 10)])
    as [m| |] eqn:E; try (vm_compute in E; discriminate).
  exists m. split; [reflexivity|].
  apply (X12_max_drawdown_range [1 # 10; -(1 # 10)] m); [|exact E].
  repeat constructor; vm_compute; discriminate.
Defined.

Lemma drawdown_from_zero (fs : list Q) :
  Forall (fun f => 1 <= f) fs ->
  forall (acc m : Q),
    0 < acc -> m == acc ->
    exists dd,
      drawdown_series (cumprod_from acc fs)
        (expanding_max_from m (cumprod_from acc fs)) = Ok dd
      /\ Forall (fun q => q == 0) dd.
Proof.
  induction 1 as [|f fs Hf _ IH]; intros acc m Hacc Hm; simpl.
  - exists []. split; [reflexivity | constructor].
  - assert (Hw : acc <= acc * f) by nra.
    assert (Hmax : Qmax m (acc * f) == acc * f) by (apply Q.max_r; lra).
    unfold py_div.
    destruct (Qeq_bool (Qmax m (acc * f)) 0) eqn:E.
    { apply Qeq_bool_iff in E. lra. }
    cbn [obind].
    destruct (IH (acc * f) (Qmax m (acc * f))) as (dd & -> & Hdd); [lra | exact Hmax |].
    cbn [obind]. eexists. split; [reflexivity|].
    constructor; [|exact Hdd]. rewrite Hmax. field. lra.
Qed.

Lemma series_min_zero (l : list Q) (x : Q) :
  x == 0 -> Forall (fun q => q == 0) l -> series_min x l == 0.
Proof.
  intros Hx Hl.
  assert (H : 0 <= series_min x l <= 0).
  { apply series_min_bounds; [lra|].
    eapply List.Forall_impl; [|exact Hl]. cbv beta. intros q Hq. lra. }
  lra.
Qed.

(** X13.  On a series without a negative return
    [PerformanceMetrics.max_drawdown] is defined and is zero, and
    [PerformanceMetrics.calmar_ratio] is then zero whatever the annualized
    return. *)
Theorem X13_no_loss_no_drawdown (ann_return : Q) (returns : list Q) :
  Forall (fun r => 0 <= r) returns ->
  (exists m, PerformanceMetrics_max_drawdown returns = Ok m /\ m == 0)
  /\ PerformanceMetrics_calmar_ratio ann_return returns = Ok 0.
Proof.
  intros Hr.
  assert (Hm : exists m, PerformanceMetrics_max_drawdown returns = Ok m /\ m == 0).
  { unfold PerformanceMetrics_max_drawdown.
    destruct returns as [|r returns]; [exists 0; split; reflexivity|].
    cbn [length Nat.eqb map cumprod expanding_max drawdown_series].
    apply Forall_cons in Hr as [Hr0 Hr].
    unfold py_div. destruct (Qeq_bool (1 + r) 0) eqn:E.
    { apply Qeq_bool_iff in E. lra. }
    cbn [obind].
    destruct (drawdown_from_zero (map (fun r => 1 + r) returns)) with
      (acc := 1 + r) (m := 1 + r) as (dd & -> & Hdd).
    { apply Forall_map. eapply List.Forall_impl; [|exact Hr].
      cbv beta. intros x Hx. lra. }
    { lra. }
    { reflexivity. }
    cbn [obind]. eexists. split; [reflexivity|].
    assert (Hz : series_min ((1 + r - (1 + r)) / (1 + r)) dd == 0).
    { apply series_min_zero; [|exact Hdd]. field. lra. }
    rewrite Hz. reflexivity. }
  split; [exact Hm|].
  destruct Hm as (m & Hmd & Hz). unfold PerformanceMetrics_calmar_ratio.
  destruct (length returns =? 0)%nat; [reflexivity|].
  rewrite Hmd. cbn [obind]. apply Qeq_bool_iff in Hz. rewrite Hz. reflexivity.
Qed.

Lemma X13_no_loss_no_drawdown_witness :
  PerformanceMetrics_calmar_ratio 5 [1 # 10; 0; 2 # 10] = Ok 0.
Proof.
  apply X13_no_loss_no_drawdown. repeat constructor; vm_compute; discriminate.
Defined.

(** * Further properties of the optimizer *)

(** ** Parameter vectors and configurations *)

(** X14.  A vector of six parameters mapped to a configuration and back is
    the vector itself, whatever the base configuration; and a configuration
    mapped to its vector and back, with itself as the base, is the
    configuration itself. *)
Theorem X14_params_config_round_trip :
  (forall (self : YieldOptimizer) (params : list Q),
      length params = 6%nat ->
      exists cfg,
        _params_to_config self params = Ok cfg
        /\ _config_to_params cfg = params)
  /\ (forall (data : list Row) (c : OptimizationConfig),
        _params_to_config {| opt_data := data; base_config := Some c |}
          (_config_to_params c) = Ok c).
Proof.
  split.
  - intros self params Hlen.
    destruct params as [|p0 [|p1 [|p2 [|p3 [|p4 [|p5 [|p6 rest]]]]]]];
      try discriminate Hlen.
    unfold _params_to_config.
    destruct (base_config self) as [c|]; eexists; split; reflexivity.
  - intros data c. destruct c. reflexivity.
Qed.

Lemma X14_params_config_round_trip_witness :
  exists cfg,
    _params_to_config two_shocks_optimizer default_x0 = Ok cfg
    /\ _config_to_params cfg = default_x0.
Proof.
  apply (proj1 X14_params_config_round_trip). reflexivity.
Defined.

(** ** The evaluation cache *)

Section CacheProperties.

Variable float_pow : Q -> Q -> Q.
Variable series_std : list Q -> Q.
Variable sqrt_252 : Q.
Variable np_str : list Q -> string.

Let objective := objective_function float_pow series_std sqrt_252 np_str.

Lemma objective_function_hit (self : YieldOptimizer) (name : string)
    (start_date end_date : timestamp) (params : list Q) (s : OptState) (v : Q) :
  _cache s !! np_str params = Some v ->
  objective self name start_date end_date params s = (Ok (Fin v), s).
Proof.
  intros Hhit. unfold objective, objective_function.
  destruct (params_to_config_total self params) as [cfg ->].
  unfold bind at 1. unfold lift at 1. unfold bind at 1.
  unfold cache_lookup. rewrite Hhit. reflexivity.
Qed.

Lemma objective_function_Fin (self : YieldOptimizer) (name : string)
    (start_date end_date : timestamp) (params : list Q) (s s' : OptState)
    (v : Q) :
  objective self name start_date end_date params s = (Ok (Fin v), s') ->
  (_cache s !! np_str params = Some v /\ s' = s)
  \/ (_cache s !! np_str params = None
      /\ s' = {| _cache := <[np_str params := v]> (_cache s);
                 _evaluation_count := S (_evaluation_count s);
                 global_random_state := global_random_state s |}).
Proof.
  unfold objective, objective_function.
  destruct (params_to_config_total self params) as [cfg ->].
  unfold bind at 1. unfold lift at 1. unfold bind at 1. unfold cache_lookup.
  destruct (_cache s !! np_str params) as [c|] eqn:Hc.
  - intros [= <- <-]. left. split; reflexivity.
  - intros Hobj. right. split; [reflexivity|]. revert Hobj.
    unfold try_except. unfold bind at 1. unfold lift at 1.
    destruct (run_backtest_fresh _ _ _ _ _ _) as [results| |];
      [|intros [= _ _] | intros [=]].
    destruct (results_getattr results name) as [[value| |]|];
      try (intros [=]; fail).
    unfold bind, lift, cache_store, set_evaluation_count, ret. cbn.
    intros [= <- <-]. reflexivity.
Qed.

(** X15.  Once an evaluation of the objective has returned a finite value,
    every later evaluation at a vector with the same cache key returns that
    value and leaves the optimizer as it is, also when it asks for another
    objective or other dates; the evaluation count goes up by one when the
    value is computed and stays when it comes from the cache. *)
Theorem X15_objective_memoized (self : YieldOptimizer) (name : string)
    (start_date end_date : timestamp) (params : list Q) (s s' : OptState)
    (v : Q) :
  objective self name start_date end_date params s = (Ok (Fin v), s') ->
  _cache s' !! np_str params = Some v
  /\ (_evaluation_count s'
      = match _cache s !! np_str params with
        | Some _ => _evaluation_count s
        | None => S (_evaluation_count s)
        end)
  /\ forall (name' : string) (start_date' end_date' : timestamp)
            (params' : list Q),
       np_str params' = np_str params ->
       objective self name' start_date' end_date' params' s' = (Ok (Fin v), s').
Proof.
  intros Hobj.
  assert (Hc : _cache s' !! np_str params = Some v
               /\ _evaluation_count s'
                  = match _cache s !! np_str params with
                    | Some _ => _evaluation_count s
                    | None => S (_evaluation_count s)
                    end).
  { apply objective_function_Fin in Hobj as [[Hhit ->] | [Hmiss ->]].
    - split; [exact Hhit | rewrite Hhit; reflexivity].
    - rewrite Hmiss. cbn. split; [apply lookup_insert_eq | reflexivity]. }
  destruct Hc as [Hc Hn]. split; [exact Hc|]. split; [exact Hn|].
  intros name' start_date' end_date' params' Hkey.
  apply objective_function_hit. rewrite Hkey. exact Hc.
Qed.

End CacheProperties.

Lemma first_evaluation_eq :
  objective_function (fun _ _ => 0) (fun _ => 0) 0 (fun _ => "params")
    two_shocks_optimizer "total_return" (day 0) (day 1) default_x0
    (fresh_optimizer 0) = first_evaluation.
Proof. vm_compute. reflexivity. Qed.

Lemma X15_objective_memoized_witness :
  exists v s',
    objective_function (fun _ _ => 0) (fun _ => 0) 0 (fun _ => "params")
      two_shocks_optimizer "total_return" (day 0) (day 1) default_x0
      (fresh_optimizer 0) = (Ok (Fin v), s')
    /\ objective_function (fun _ _ => 0) (fun _ => 0) 0 (fun _ => "params")
         two_shocks_optimizer "max_drawdown" (day 3) (day 9) [1; 2]
         s' = (Ok (Fin v), s').
Proof.
  pose proof first_evaluation_eq as E. unfold first_evaluation in E.
  eexists _, _. split; [exact E|].
  apply (X15_objective_memoized _ _ _ _ _ _ _ _ _ _ _ _ E). reflexivity.
Defined.

(** ** The penalty of the population search *)

Lemma Qsquare_nonneg (x : Q) : 0 <= x ^ 2.
Proof. assert (E : x ^ 2 == x * x) by reflexivity. rewrite E. nra. Qed.

Lemma Qsquare_zero (x : Q) : x ^ 2 == 0 <-> x == 0.
Proof.
  assert (E : x ^ 2 == x * x) by reflexivity. rewrite E. split.
  - intros H. apply Qmult_integral in H. tauto.
  - intros ->. reflexivity.
Qed.

Lemma eq_penalty (y : Q) :
  0 <= 1000 * Qabs y ^ 2 /\ (1000 * Qabs y ^ 2 == 0 <-> y == 0).
Proof.
  pose proof (Qsquare_nonneg (Qabs y)) as Hs. split; [lra|]. split.
  - intros H. assert (Hz : Qabs y ^ 2 == 0) by lra.
    apply (proj1 (Qsquare_zero _)) in Hz. clear H Hs. revert Hz.
    apply (Qabs_case y (fun a => a == 0 -> y == 0)); intros H0 H1; lra.
  - intros ->. reflexivity.
Qed.

Lemma ineq_penalty (y : Q) :
  0 <= 1000 * py_max0 (- y) ^ 2 /\ (1000 * py_max0 (- y) ^ 2 == 0 <-> 0 <= y).
Proof.
  pose proof (Qsquare_nonneg (py_max0 (- y))) as Hs. split; [lra|].
  unfold py_max0. destruct (Qltb 0 (- y)) eqn:E.
  - apply Qltb_true in E. split.
    + intros H. assert (Hz : (- y) ^ 2 == 0) by lra.
      apply (proj1 (Qsquare_zero _)) in Hz. lra.
    + intros H. lra.
  - apply Qltb_false in E. split; [intros _; lra | intros _; reflexivity].
Qed.

(** X16.  With the default constraints, the objective that the population
    search minimises is the objective itself plus a penalty that is never
    negative, and that is zero exactly when the four weights sum to one and
    each lies between the minimum and the maximum allocation. *)
Theorem X16_penalized_objective (f : list Q -> O score)
    (p0 p1 p2 p3 : Q) (rest : list Q) (s s' : OptState) (v : score) :
  f (p0 :: p1 :: p2 :: p3 :: rest) s = (Ok v, s') ->
  exists penalty,
    penalized_objective f (_setup_constraints None)
      (p0 :: p1 :: p2 :: p3 :: rest) s = (Ok (score_add v penalty), s')
    /\ 0 <= penalty
    /\ (penalty == 0 <-> feasible_weights p0 p1 p2 p3).
Proof.
  intros Hf. unfold penalized_objective.
  unfold bind at 1. unfold lift at 1. cbn [_setup_constraints app map seq].
  cbn [ofor_each obind ctype cfun String.eqb Ascii.eqb Bool.eqb
       weight_sum_constraint min_constraint max_constraint param_at nth_error].
  unfold bind at 1. rewrite Hf. unfold ret.
  eexists. split; [reflexivity|].
  destruct (eq_penalty (p0 + p1 + p2 + p3 - 1)) as [Ha Hia].
  destruct (ineq_penalty (p0 - min_allocation)) as [Hb0 Hib0].
  destruct (ineq_penalty (p1 - min_allocation)) as [Hb1 Hib1].
  destruct (ineq_penalty (p2 - min_allocation)) as [Hb2 Hib2].
  destruct (ineq_penalty (p3 - min_allocation)) as [Hb3 Hib3].
  destruct (ineq_penalty (max_allocation - p0)) as [Hc0 Hic0].
  destruct (ineq_penalty (max_allocation - p1)) as [Hc1 Hic1].
  destruct (ineq_penalty (max_allocation - p2)) as [Hc2 Hic2].
  destruct (ineq_penalty (max_allocation - p3)) as [Hc3 Hic3].
  set (a := 1000 * Qabs (p0 + p1 + p2 + p3 - 1) ^ 2) in *.
  set (b0 := 1000 * py_max0 (- (p0 - min_allocation)) ^ 2) in *.
  set (b1 := 1000 * py_max0 (- (p1 - min_allocation)) ^ 2) in *.
  set (b2 := 1000 * py_max0 (- (p2 - min_allocation)) ^ 2) in *.
  set (b3 := 1000 * py_max0 (- (p3 - min_allocation)) ^ 2) in *.
  set (c0 := 1000 * py_max0 (- (max_allocation - p0)) ^ 2) in *.
  set (c1 := 1000 * py_max0 (- (max_allocation - p1)) ^ 2) in *.
  set (c2 := 1000 * py_max0 (- (max_allocation - p2)) ^ 2) in *.
  set (c3 := 1000 * py_max0 (- (max_allocation - p3)) ^ 2) in *.
  clearbody a b0 b1 b2 b3 c0 c1 c2 c3. clear Hf.
  split; [clear Hia Hib0 Hib1 Hib2 Hib3 Hic0 Hic1 Hic2 Hic3; lra|].
  unfold feasible_weights. split.
  - intros Hz.
    assert (a == 0 /\ b0 == 0 /\ b1 == 0 /\ b2 == 0 /\ b3 == 0
            /\ c0 == 0 /\ c1 == 0 /\ c2 == 0 /\ c3 == 0)
      as (Ea & E0 & E1 & E2 & E3 & F0 & F1 & F2 & F3)
      by (clear Hia Hib0 Hib1 Hib2 Hib3 Hic0 Hic1 Hic2 Hic3; repeat split; lra).
    apply Hia in Ea. apply Hib0 in E0. apply Hib1 in E1. apply Hib2 in E2.
    apply Hib3 in E3. apply Hic0 in F0. apply Hic1 in F1. apply Hic2 in F2.
    apply Hic3 in F3.
    clear Hia Hib0 Hib1 Hib2 Hib3 Hic0 Hic1 Hic2 Hic3.
    repeat split; lra.
  - intros (Hs & [L0 U0] & [L1 U1] & [L2 U2] & [L3 U3]).
    assert (Ea : a == 0) by (apply Hia; clear - Hs; lra).
    assert (E0 : b0 == 0) by (apply Hib0; clear - L0; lra).
    assert (E1 : b1 == 0) by (apply Hib1; clear - L1; lra).
    assert (E2 : b2 == 0) by (apply Hib2; clear - L2; lra).
    assert (E3 : b3 == 0) by (apply Hib3; clear - L3; lra).
    assert (F0 : c0 == 0) by (apply Hic0; clear - U0; lra).
    assert (F1 : c1 == 0) by (apply Hic1; clear - U1; lra).
    assert (F2 : c2 == 0) by (apply Hic2; clear - U2; lra).
    assert (F3 : c3 == 0) by (apply Hic3; clear - U3; lra).
    clear - Ea E0 E1 E2 E3 F0 F1 F2 F3. lra.
Qed.

Lemma X16_penalized_objective_witness :
  exists penalty,
    penalized_objective (fun _ => ret (Fin 7)) (_setup_constraints None)
      default_x0 (fresh_optimizer 0)
    = (Ok (score_add (Fin 7) penalty), fresh_optimizer 0)
    /\ 0 <= penalty.
Proof.
  destruct (X16_penalized_objective (fun _ => ret (Fin 7))
              (4 # 10) (3 # 10) (2 # 10) (1 # 10) [100; 5]
              (fresh_optimizer 0) (fresh_optimizer 0) (Fin 7) eq_refl)
    as (penalty & Hp & Hn & _).
  exists penalty. split; assumption.
Defined.

(** ** Validation of a result *)

Lemma in_bounds_iff (v lo hi : Q) :
  negb (Qltb v lo || Qltb hi v) = true <-> lo <= v /\ v <= hi.
Proof.
  rewrite negb_true_iff, orb_false_iff, !Qltb_false. reflexivity.
Qed.

(** X17.  A result whose parameters are the six named entries of a vector
    is valid exactly when the four weights sum to one within 1e-6 and each
    of the six parameters lies within its default bounds; and the weights of
    a valid result are weights that the configuration constructor
    accepts. *)
Theorem X17_validate_optimization_results (r : OptimizationResult)
    (x0 x1 x2 x3 x4 x5 : Q) :
  optimal_params r = named_params [x0; x1; x2; x3; x4; x5] ->
  (validate_optimization_results r = true <->
     Qabs (x0 + x1 + x2 + x3 - 1) <= 1 # 1000000
     /\ within_default_bounds x0 x1 x2 x3 x4 x5)
  /\ (validate_optimization_results r = true ->
      forall a : OptimizationConfigArgs,
        arg_under_supplied_allocation a = x0 ->
        arg_strategic_growth_allocation a = x1 ->
        arg_proportional_allocation a = x2 ->
        arg_treasury_allocation a = x3 ->
        exists c, OptimizationConfig__post_init__ a = Ok c).
Proof.
  intros Hp.
  assert (Hv : validate_optimization_results r = true <->
               Qabs (x0 + x1 + x2 + x3 - 1) <= 1 # 1000000
               /\ within_default_bounds x0 x1 x2 x3 x4 x5).
  { unfold validate_optimization_results, validate_asset_weights.
    rewrite Hp. unfold named_params, param_names.
    change (List.filter _ _)
      with [("under_supplied_allocation", x0);
            ("strategic_growth_allocation", x1);
            ("proportional_allocation", x2);
            ("treasury_allocation", x3)].
    change (py_sum _) with (0 + x0 + x1 + x2 + x3).
    unfold _setup_bounds.
    cbn [combine forallb dict_get String.eqb Ascii.eqb Bool.eqb].
    unfold within_default_bounds.
    destruct (Qle_bool (Qabs (0 + x0 + x1 + x2 + x3 - 1)) (1 # 1000000)) eqn:E;
      cbn [negb].
    - apply Qle_bool_iff in E.
      assert (Hs : 0 + x0 + x1 + x2 + x3 - 1 == x0 + x1 + x2 + x3 - 1) by ring.
      rewrite Hs in E.
      rewrite !andb_true_iff, !in_bounds_iff. tauto.
    - split; [discriminate|]. intros [Hs _]. exfalso.
      assert (Hs' : 0 + x0 + x1 + x2 + x3 - 1 == x0 + x1 + x2 + x3 - 1) by ring.
      rewrite <- Hs' in Hs. apply Qle_bool_iff in Hs. congruence. }
  split; [exact Hv|].
  intros Hvalid a H0 H1 H2 H3. apply Hv in Hvalid as [Hs _].
  unfold OptimizationConfig__post_init__.
  rewrite H0, H1, H2, H3.
  assert (Hc : np_isclose (x0 + x1 + x2 + x3) 1 = true).
  { apply np_isclose_one. unfold weight_tolerance.
    assert (1 # 1000000 <= 1001 # 100000000) by (vm_compute; discriminate). lra. }
  rewrite Hc. cbn [negb]. eexists. reflexivity.
Qed.

Lemma X17_validate_optimization_results_witness :
  validate_optimization_results
    {| optimal_params := named_params default_x0;
       optimal_value := Fin 1;
       optimization_method := "scipy";
       convergence_status := "success";
       iterations := 3;
       function_evaluations := 20;
       backtest_results := None |} = true.
Proof.
  apply (proj1 (X17_validate_optimization_results
           {| optimal_params := named_params default_x0;
              optimal_value := Fin 1;
              optimization_method := "scipy";
              convergence_status := "success";
              iterations := 3;
              function_evaluations := 20;
              backtest_results := None |}
           (4 # 10) (3 # 10) (2 # 10) (1 # 10) 100 5 eq_refl)).
  split; [vm_compute; discriminate|].
  unfold within_default_bounds. repeat split; vm_compute; discriminate.
Defined.

(** ** The scipy search *)

Section ScipySearch.

Variable float_pow : Q -> Q -> Q.
Variable series_std : list Q -> Q.
Variable sqrt_252 : Q.
Variable np_str : list Q -> string.
Variable CVXPY_AVAILABLE : bool.
Variable minimize :
  (list Q -> O score) -> list Q -> string -> list (Q * Q) ->
  option (list constraint) -> nat -> O OptimizeResult.
Variable differential_evolution :
  (list Q -> O score) -> list (Q * Q) -> option Z -> nat -> nat -> Q ->
  O OptimizeResult.
Variable basinhopping :
  (list Q -> O score) -> list Q -> nat -> minimizer_kwargs -> option Z ->
  O OptimizeResult.

Lemma setup_constraints_cons additional :
  exists c cs, _setup_constraints additional = c :: cs.
Proof. unfold _setup_constraints. cbn [app]. eauto. Qed.

(** X18.  With method 'scipy' the search is one SLSQP call with the
    constraints and a budget of 1000 iterations, started from a zeroed
    evaluation counter; L-BFGS-B is never run, whatever the additional
    constraints, since the list of constraints is never empty.  If SLSQP
    raises, or returns an objective that is not below infinity, the search
    raises RuntimeError; otherwise its result is reported. *)
Theorem X18_scipy_is_one_slsqp_call (self : YieldOptimizer) (objective : string)
    (constraints : option (list (string * (list Q -> outcome Q))))
    (bounds : option (list (string * (Q * Q))))
    (start_date end_date : timestamp) (s : OptState) :
  optimize_distribution_weights float_pow series_std sqrt_252 np_str
    CVXPY_AVAILABLE minimize differential_evolution basinhopping
    self objective constraints bounds "scipy" start_date end_date s
  = match
      minimize
        (_create_objective_function float_pow series_std sqrt_252 np_str
           self objective start_date end_date)
        (initial_guess self) "SLSQP" (_setup_bounds bounds)
        (Some (_setup_constraints constraints)) 1000%nat
        {| _cache := _cache s;
           _evaluation_count := 0;
           global_random_state := global_random_state s |}
    with
    | (Ok result, s') =>
        if score_lt (res_fun result) PosInf then
          (Ok {| optimal_params := named_params (res_x result);
                 optimal_value := negate_unless_inf (res_fun result);
                 optimization_method := "scipy";
                 convergence_status :=
                   if res_success result then "success" else "failed";
                 iterations := default 0%nat (res_nit result);
                 function_evaluations :=
                   default (_evaluation_count s') (res_nfev result);
                 backtest_results := None |}, s')
        else (Raise (RuntimeError "All optimization methods failed"), s')
    | (Raise _, s') =>
        (Raise (RuntimeError "All optimization methods failed"), s')
    | (Undef, s') => (Undef, s')
    end.
Proof.
  destruct (setup_constraints_cons constraints) as (c & cs & Hc).
  unfold optimize_distribution_weights.
  change (String.eqb "scipy" "scipy") with true. cbv iota.
  unfold bind at 1. unfold set_evaluation_count at 1.
  unfold _optimize_scipy.
  cbn [for_each]. unfold bind at 1. unfold bind at 1.
  unfold try_method at 1.
  change (String.eqb "SLSQP" "SLSQP") with true. cbv iota.
  unfold try_except at 1. unfold bind at 1.
  destruct (minimize _ _ _ _ _ _ _) as [[result | e | ] s'].
  - cbn [snd].
    destruct (score_lt (res_fun result) PosInf) eqn:E.
    + unfold ret at 1. unfold bind at 1.
      unfold try_method.
      change (String.eqb "L-BFGS-B" "SLSQP") with false. cbv iota.
      rewrite Hc. reflexivity.
    + unfold ret at 1. unfold bind at 1.
      unfold try_method.
      change (String.eqb "L-BFGS-B" "SLSQP") with false. cbv iota.
      rewrite Hc. reflexivity.
  - unfold ret at 1. unfold bind at 1.
    unfold try_method.
    change (String.eqb "L-BFGS-B" "SLSQP") with false. cbv iota.
    rewrite Hc. reflexivity.
  - reflexivity.
Qed.

End ScipySearch.

(** ** Stress scenarios *)

Lemma map_column_date asset f (rows : list Row) :
  map date (map (map_column asset f) rows) = map date rows.
Proof. rewrite map_map. reflexivity. Qed.

Lemma scale_deviations_dates k rows asset :
  map date (scale_deviations k rows asset) = map date rows.
Proof.
  unfold scale_deviations. destruct rows as [|r rows]; [reflexivity|].
  apply map_column_date.
Qed.

Lemma shocks_dates (shocks : dict) : forall rows rows',
  ofor_each shocks column_iadd rows = Ok rows' ->
  map date rows' = map date rows.
Proof.
  induction shocks as [|[asset shock] shocks IH]; intros rows rows' E.
  - cbn in E. congruence.
  - cbn [ofor_each] in E. unfold column_iadd at 1 in E.
    destruct (String.eqb asset "date"); [discriminate|].
    cbn [obind] in E. apply IH in E. rewrite E. apply map_column_date.
Qed.

Lemma apply_stress_scenario_dates self scenario data' :
  _apply_stress_scenario self scenario = Ok data' ->
  map date data' = map date (self_data self).
Proof.
  unfold _apply_stress_scenario.
  destruct (String.eqb _ "yield_shock"); [apply shocks_dates|].
  destruct (String.eqb _ "volatility_increase").
  - intros [= <-]. unfold assets. cbn [fold_left].
    rewrite !scale_deviations_dates. reflexivity.
  - destruct (String.eqb _ "correlation_breakdown"); [discriminate|].
    congruence.
Qed.

Lemma date_sorted_map (rows : list Row) :
  date_sorted rows <-> StronglySorted Z.le (map date rows).
Proof.
  unfold date_sorted. induction rows as [|r rows IH]; cbn [map].
  - split; constructor.
  - split; intros Hs; apply StronglySorted_inv in Hs as [Hs Hf];
      constructor; try (apply IH; exact Hs).
    + rewrite List.Forall_map. exact Hf.
    + rewrite List.Forall_map in Hf. exact Hf.
Qed.

(** X19.  A stress scenario changes yields only: the stressed frame has
    the dates of the backtester's frame, row by row, and so stays sorted by
    date. *)
Theorem X19_stress_scenario_keeps_dates (self : CCYOEBacktester)
    (scenario : Scenario) (stressed_data : list Row) :
  _apply_stress_scenario self scenario = Ok stressed_data ->
  map date stressed_data = map date (self_data self)
  /\ length stressed_data = length (self_data self)
  /\ (date_sorted (self_data self) -> date_sorted stressed_data).
Proof.
  intros E. apply apply_stress_scenario_dates in E.
  split; [exact E|]. split.
  - rewrite <- (length_map date stressed_data), E. apply length_map.
  - rewrite !date_sorted_map, E. trivial.
Qed.

Lemma X19_stress_scenario_keeps_dates_witness :
  map date
    (fold_left (scale_deviations 2) assets
       (self_data (CCYOEBacktester__init__ two_shocks default_config)))
  = map date (self_data (CCYOEBacktester__init__ two_shocks default_config)).
Proof.
  apply (X19_stress_scenario_keeps_dates
           (CCYOEBacktester__init__ two_shocks default_config)
           doubled_volatility).
  reflexivity.
Defined.

(** [mean + (y - mean) * k] on a list of numbers *)
Lemma py_sum_scaled (m k : Q) (l : list Q) :
  py_sum (map (fun y => m + (y - m) * k) l)
  == inject_Z (Z.of_nat (length l)) * m
     + (py_sum l - inject_Z (Z.of_nat (length l)) * m) * k.
Proof.
  induction l as [|y l IH].
  - cbn [map length]. rewrite py_sum_nil.
    change (inject_Z (Z.of_nat 0)) with 0. ring.
  - cbn [map length]. rewrite !py_sum_cons, IH, Nat2Z.inj_succ.
    unfold Z.succ. rewrite inject_Z_plus. change (inject_Z 1) with 1. ring.
Qed.

Lemma inject_length_nonzero {A} (x : A) (l : list A) :
  ~ inject_Z (Z.of_nat (length (x :: l))) == 0.
Proof.
  cbn [length]. rewrite Nat2Z.inj_succ. unfold Z.succ.
  change 0 with (inject_Z 0). rewrite inject_Z_injective. lia.
Qed.

Lemma column_scale_same (a : string) (k : Q) (rows : list Row) :
  In a assets ->
  map (column a) (scale_deviations k rows a)
  = match rows with
    | [] => []
    | _ :: _ =>
        let m := py_sum (map (column a) rows)
                 / inject_Z (Z.of_nat (length rows)) in
        map (fun y => m + (y - m) * k) (map (column a) rows)
    end.
Proof.
  intros Ha. unfold scale_deviations. destruct rows as [|r rows]; [reflexivity|].
  cbv zeta. rewrite !map_map. apply map_ext. intros r'.
  destruct Ha as [<- | [<- | [<- | []]]]; reflexivity.
Qed.

Lemma column_scale_other (a a' : string) (k : Q) (rows : list Row) :
  In a assets -> In a' assets -> a <> a' ->
  map (column a) (scale_deviations k rows a') = map (column a) rows.
Proof.
  intros Ha Ha' Hne. unfold scale_deviations.
  destruct rows as [|r rows]; [reflexivity|].
  cbv zeta. rewrite !map_map. apply map_ext. intros r'.
  destruct Ha as [<- | [<- | [<- | []]]];
    destruct Ha' as [<- | [<- | [<- | []]]];
    try reflexivity; congruence.
Qed.

Lemma scale_deviations_length k rows a :
  length (scale_deviations k rows a) = length rows.
Proof.
  rewrite <- (length_map date), scale_deviations_dates. apply length_map.
Qed.

Lemma scale_deviations_cons k r rows a :
  exists r' rows', scale_deviations k (r :: rows) a = r' :: rows'.
Proof. unfold scale_deviations. cbn [map]. eauto. Qed.

(** Every column of the stressed frame is the scaled column of the
    original one: the three updates do not interfere. *)
Lemma volatility_columns (a : string) (k : Q) (r : Row) (rows : list Row) :
  In a assets ->
  map (column a) (fold_left (scale_deviations k) assets (r :: rows))
  = let m := py_sum (map (column a) (r :: rows))
             / inject_Z (Z.of_nat (length (r :: rows))) in
    map (fun y => m + (y - m) * k) (map (column a) (r :: rows)).
Proof.
  intros Ha. unfold assets at 1. cbn [fold_left].
  destruct (scale_deviations_cons k r rows "cmBTC") as (r1 & rows1 & E1).
  destruct (scale_deviations_cons k r1 rows1 "cmUSD") as (r2 & rows2 & E2).
  assert (L1 : length (r1 :: rows1) = length (r :: rows))
    by (rewrite <- E1; apply scale_deviations_length).
  assert (L2 : length (r2 :: rows2) = length (r :: rows))
    by (rewrite <- E2, scale_deviations_length; exact L1).
  assert (B : In "cmBTC" assets) by (cbn; tauto).
  assert (U : In "cmUSD" assets) by (cbn; tauto).
  assert (R : In "cmBRL" assets) by (cbn; tauto).
  destruct Ha as [<- | [<- | [<- | []]]].
  - rewrite (column_scale_other "cmBTC" "cmBRL") by (trivial; discriminate).
    rewrite (column_scale_other "cmBTC" "cmUSD") by (trivial; discriminate).
    rewrite (column_scale_same "cmBTC") by trivial. reflexivity.
  - rewrite (column_scale_other "cmUSD" "cmBRL") by (trivial; discriminate).
    rewrite E1, (column_scale_same "cmUSD") by trivial.
    rewrite L1, <- E1.
    rewrite (column_scale_other "cmUSD" "cmBTC") by (trivial; discriminate).
    reflexivity.
  - rewrite E1, E2, (column_scale_same "cmBRL") by trivial.
    rewrite L2, <- E2.
    rewrite (column_scale_other "cmBRL" "cmUSD") by (trivial; discriminate).
    rewrite <- E1.
    rewrite (column_scale_other "cmBRL" "cmBTC") by (trivial; discriminate).
    reflexivity.
Qed.

Lemma map_eq_Forall2 {A B} (f : A -> B) (g : A -> B) : forall (l l' : list A),
  map f l' = map g l -> Forall2 (fun r r' => f r' = g r) l l'.
Proof.
  induction l as [|x l IH]; intros [|x' l'] E; try discriminate.
  - constructor.
  - cbn [map] in E. injection E as E1 E2. constructor; auto.
Qed.

(** X20.  A 'volatility_increase' scenario (multiplier 1.5 unless given)
    on a frame with at least one row keeps the mean of every asset's
    yields and multiplies every deviation from that mean by the
    multiplier. *)
Theorem X20_volatility_increase_keeps_means (self : CCYOEBacktester)
    (scenario : Scenario) (asset : string) :
  sc_type scenario = Some "volatility_increase" ->
  self_data self <> [] ->
  In asset assets ->
  exists stressed_data mean_yield mean_stressed,
    _apply_stress_scenario self scenario = Ok stressed_data
    /\ column_mean (column asset) (self_data self) = Ok mean_yield
    /\ column_mean (column asset) stressed_data = Ok mean_stressed
    /\ mean_stressed == mean_yield
    /\ Forall2
         (fun r r' =>
            column asset r' - mean_yield
            == default (3 # 2) (sc_multiplier scenario)
               * (column asset r - mean_yield))
         (self_data self) stressed_data.
Proof.
  intros Ht Hne Ha. unfold _apply_stress_scenario. rewrite Ht.
  cbn [default].
  change (String.eqb "volatility_increase" "yield_shock") with false.
  change (String.eqb "volatility_increase" "volatility_increase") with true.
  cbv iota.
  set (k := match sc_multiplier scenario with Some x => x | None => 3 # 2 end).
  destruct (self_data self) as [|r rows]; [congruence|]. clear Hne.
  pose proof (volatility_columns asset k r rows Ha) as Hc. cbv zeta in Hc.
  set (n := inject_Z (Z.of_nat (length (r :: rows)))) in *.
  assert (Hn : ~ n == 0) by apply inject_length_nonzero.
  set (stressed := fold_left (scale_deviations k) assets (r :: rows)) in *.
  set (m := py_sum (map (column asset) (r :: rows)) / n) in *.
  assert (Hl : length stressed = length (r :: rows)).
  { subst stressed. unfold assets. cbn [fold_left].
    rewrite !scale_deviations_length. reflexivity. }
  assert (Hz : Qeq_bool n 0 = false).
  { destruct (Qeq_bool n 0) eqn:E; [|reflexivity].
    apply Qeq_bool_iff in E. contradiction. }
  exists stressed, m, (py_sum (map (column asset) stressed) / n).
  split; [reflexivity|]. split.
  { unfold column_mean, py_div. fold n. rewrite Hz. reflexivity. }
  split.
  { unfold column_mean, py_div. rewrite Hl. fold n. rewrite Hz. reflexivity. }
  split.
  - rewrite Hc, py_sum_scaled, length_map. fold n.
    assert (Hm : n * m == py_sum (map (column asset) (r :: rows))).
    { subst m. apply Qmult_div_r. exact Hn. }
    rewrite Hm. unfold m. field. exact Hn.
  - rewrite map_map in Hc. apply map_eq_Forall2 in Hc.
    eapply Forall2_impl; [exact Hc|]. cbv beta. intros x y ->.
    change (default (3 # 2) (sc_multiplier scenario)) with k. ring.
Qed.

Lemma X20_volatility_increase_keeps_means_witness :
  exists stressed_data mean_yield mean_stressed,
    _apply_stress_scenario (CCYOEBacktester__init__ two_shocks default_config)
      doubled_volatility = Ok stressed_data
    /\ column_mean (column "cmBRL")
         (self_data (CCYOEBacktester__init__ two_shocks default_config))
       = Ok mean_yield
    /\ column_mean (column "cmBRL") stressed_data = Ok mean_stressed
    /\ mean_stressed == mean_yield
    /\ Forall2
         (fun r r' =>
            column "cmBRL" r' - mean_yield
            == 2 * (column "cmBRL" r - mean_yield))
         (self_data (CCYOEBacktester__init__ two_shocks default_config))
         stressed_data.
Proof.
  apply (X20_volatility_increase_keeps_means
           (CCYOEBacktester__init__ two_shocks default_config)
           doubled_volatility "cmBRL").
  - reflexivity.
  - vm_compute. discriminate.
  - cbn. tauto.
Defined.

Lemma column_map_column (a k : string) (f : Q -> Q) (r : Row) :
  In a assets ->
  column a (map_column k f r)
  = if String.eqb k a then f (column a r) else column a r.
Proof.
  intros [<- | [<- | [<- | []]]]; reflexivity.
Qed.

Lemma shocks_shift_rows (shocks : dict) : forall rows,
  dict_get shocks "date" = None ->
  ofor_each shocks column_iadd rows = Ok (map (shift_row shocks) rows).
Proof.
  induction shocks as [|[k v] shocks IH]; intros rows Hd.
  - cbn. rewrite map_id. reflexivity.
  - cbn [dict_get] in Hd. cbn [ofor_each]. unfold column_iadd at 1.
    destruct (String.eqb k "date"); [discriminate|].
    cbn [obind]. rewrite IH by exact Hd. rewrite map_map. reflexivity.
Qed.

Lemma shift_row_date (shocks : dict) : forall r,
  date (shift_row shocks r) = date r.
Proof.
  induction shocks as [|[k v] shocks IH]; intros r; [reflexivity|].
  cbn [shift_row fold_left]. fold (shift_row shocks). rewrite IH. reflexivity.
Qed.

Lemma dict_get_not_in (shocks : dict) (a : string) :
  ~ In a (map fst shocks) -> dict_get shocks a = None.
Proof.
  induction shocks as [|[k v] shocks IH]; [reflexivity|].
  cbn [map fst In dict_get]. intros Hn.
  destruct (String.eqb_spec k a); [tauto|]. apply IH. tauto.
Qed.

Lemma shift_row_column (a : string) (shocks : dict) : forall r,
  In a assets ->
  List.NoDup (map fst shocks) ->
  column a (shift_row shocks r)
  == column a r + default 0 (dict_get shocks a).
Proof.
  induction shocks as [|[k v] shocks IH]; intros r Ha Hnd.
  - cbn. ring.
  - cbn [map fst] in Hnd. apply List.NoDup_cons_iff in Hnd as [Hk Hnd].
    cbn [shift_row fold_left fst snd]. fold (shift_row shocks).
    rewrite IH by assumption. rewrite column_map_column by exact Ha.
    cbn [dict_get]. destruct (String.eqb_spec k a) as [-> | Hne].
    + rewrite (dict_get_not_in shocks a Hk). cbn [default id]. ring.
    + reflexivity.
Qed.

(** X21.  A 'yield_shock' scenario (the type of a scenario that names
    none) adds to every yield of an asset the shock listed for that asset
    and leaves the assets without a shock, and every date, as they were;
    shocks for names that are no column are ignored. *)
Theorem X21_yield_shock_shifts_columns (self : CCYOEBacktester)
    (scenario : Scenario) :
  default "yield_shock" (sc_type scenario) = "yield_shock" ->
  List.NoDup (dict_keys (default [] (sc_shocks scenario))) ->
  dict_get (default [] (sc_shocks scenario)) "date" = None ->
  exists stressed_data,
    _apply_stress_scenario self scenario = Ok stressed_data
    /\ Forall2
         (fun r r' =>
            date r' = date r
            /\ forall asset, In asset assets ->
                 column asset r'
                 == column asset r
                    + default 0
                        (dict_get (default [] (sc_shocks scenario)) asset))
         (self_data self) stressed_data.
Proof.
  intros Ht Hnd Hd. unfold _apply_stress_scenario. rewrite Ht.
  change (String.eqb "yield_shock" "yield_shock") with true. cbv iota.
  rewrite shocks_shift_rows by exact Hd.
  eexists. split; [reflexivity|].
  induction (self_data self) as [|r rows IH]; cbn [map]; constructor.
  - split; [apply shift_row_date|].
    intros asset Ha. apply shift_row_column; assumption.
  - exact IH.
Qed.

Lemma X21_yield_shock_shifts_columns_witness :
  exists stressed_data,
    _apply_stress_scenario (CCYOEBacktester__init__ two_shocks default_config)
      brl_shock = Ok stressed_data
    /\ Forall2
         (fun r r' =>
            date r' = date r
            /\ forall asset, In asset assets ->
                 column asset r'
                 == column asset r
                    + default 0
                        (dict_get [("cmBRL", - (300)); ("SELIC", 50)] asset))
         (self_data (CCYOEBacktester__init__ two_shocks default_config))
         stressed_data.
Proof.
  apply (X21_yield_shock_shifts_columns
           (CCYOEBacktester__init__ two_shocks default_config) brl_shock).
  - reflexivity.
  - cbn. constructor; [cbn; intros [H | []]; discriminate H|].
    constructor; [cbn; tauto|]. constructor.
  - reflexivity.
Defined.

(** X22.  Scenarios leave the dates alone, so a stress test over a range
    with no data fails like a backtest: at its first scenario it raises
    [ValueError], whatever the scenario did to the yields, and no later
    scenario is run. *)
Theorem X22_stress_test_empty_range
    (float_pow : Q -> Q -> Q) (series_std : list Q -> Q) (sqrt_252 : Q)
    (self : CCYOEBacktester) (start_date end_date : timestamp)
    (scenario : Scenario) (rest : list Scenario) (stressed_data : list Row)
    (h : gmap nat dict) :
  (forall r, In r (self_data self) ->
     ~ (start_date <= date r <= end_date)%Z) ->
  _apply_stress_scenario self scenario = Ok stressed_data ->
  run_stress_test float_pow series_std sqrt_252 self start_date end_date
    (scenario :: rest) h
  = (Raise (ValueError "No data available for specified date range"), h).
Proof.
  intros Hout Hs. unfold run_stress_test. cbn [for_each].
  unfold bind at 1. unfold bind at 1. rewrite Hs. unfold lift at 1.
  unfold bind at 1. unfold run_backtest.
  rewrite filter_data_empty; [reflexivity|].
  intros r Hr. apply apply_stress_scenario_dates in Hs.
  apply (in_map date) in Hr. rewrite Hs in Hr.
  apply in_map_iff in Hr as (r0 & Hd & Hr0). rewrite <- Hd.
  apply Hout. exact Hr0.
Qed.

Lemma X22_stress_test_empty_range_witness :
  run_stress_test (fun _ _ => 0) (fun _ => 0) 0
    (CCYOEBacktester__init__ two_shocks default_config) (day 5) (day 9)
    [doubled_volatility; brl_shock] ∅
  = (Raise (ValueError "No data available for specified date range"), ∅).
Proof.
  apply (X22_stress_test_empty_range _ _ _ _ _ _ _ _
           (fold_left (scale_deviations 2) assets
              (self_data (CCYOEBacktester__init__ two_shocks default_config)))).
  - intros r Hr. vm_compute in Hr. destruct Hr as [<- | [<- | []]];
      cbn; unfold day, ns_per_day; lia.
  - reflexivity.
Defined.

(** ** The grid search *)

Lemma threshold_grid_search_eq :
  optimize_parameters (fun _ _ => 0) (fun _ => 0) 0
    (CCYOEBacktester__init__ two_shocks default_config) (day 0) (day 1)
    threshold_grid "total_return" = threshold_grid_search.
Proof. vm_compute. reflexivity. Qed.

Lemma obind_Ok_r {A} (o : outcome A) : obind o Ok = o.
Proof. destruct o; reflexivity. Qed.

Lemma generate_parameter_combinations_In
    (parameter_ranges : list (string * option (list Q))) (params : dict) :
  In params (_generate_parameter_combinations parameter_ranges)
  <-> exists name values value,
        In (name, Some values) parameter_ranges
        /\ In value values
        /\ params = [(name, value)].
Proof.
  unfold _generate_parameter_combinations. rewrite in_flat_map. split.
  - intros ([name [values|]] & Hin & Hp); [|destruct Hp].
    apply in_map_iff in Hp as (value & <- & Hv). eauto 6.
  - intros (name & values & value & Hin & Hv & ->).
    exists (name, Some values). split; [exact Hin|].
    apply in_map_iff. eauto.
Qed.

Section GridSearchProperties.

Variable float_pow : Q -> Q -> Q.
Variable series_std : list Q -> Q.
Variable sqrt_252 : Q.
Variable self : CCYOEBacktester.
Variables start_date end_date : timestamp.
Variable optimization_metric : string.

Lemma combination_point_fun params c r m c' r' m' :
  combination_point float_pow series_std sqrt_252 self start_date end_date
    optimization_metric params c r m ->
  combination_point float_pow series_std sqrt_252 self start_date end_date
    optimization_metric params c' r' m' ->
  c' = c /\ r' = r /\ m' = m.
Proof.
  intros (H1 & H2 & H3) (H1' & H2' & H3').
  rewrite H1 in H1'. injection H1' as <-.
  rewrite H2 in H2'. injection H2' as <-.
  rewrite H3 in H3'. injection H3' as <-. auto.
Qed.

Lemma grid_inv_skip seen best params :
  grid_inv float_pow series_std sqrt_252 self start_date end_date
    optimization_metric seen best ->
  (forall c r m,
     ~ combination_point float_pow series_std sqrt_252 self start_date
         end_date optimization_metric params c r m) ->
  grid_inv float_pow series_std sqrt_252 self start_date end_date
    optimization_metric (seen ++ [params]) best.
Proof.
  intros Hinv Hno. unfold grid_inv in *.
  destruct best as [[[c|] [r|]] [m|]]; try contradiction.
  - destruct Hinv as [(p & Hp & Hpt) Hmax]. split.
    + exists p. split; [apply in_or_app; left; exact Hp | exact Hpt].
    + intros p' c' r' m' Hin Hpt'. apply in_app_or in Hin as [Hin | [<- | []]].
      * eapply Hmax; eassumption.
      * exfalso. eapply Hno; eassumption.
  - intros p' c' r' m' Hin Hpt'. apply in_app_or in Hin as [Hin | [<- | []]].
    + eapply Hinv; eassumption.
    + eapply Hno; eassumption.
Qed.

Lemma grid_step_inv seen best params best' :
  grid_inv float_pow series_std sqrt_252 self start_date end_date
    optimization_metric seen best ->
  grid_step float_pow series_std sqrt_252 self start_date end_date
    optimization_metric best params = Ok best' ->
  grid_inv float_pow series_std sqrt_252 self start_date end_date
    optimization_metric (seen ++ [params]) best'.
Proof.
  intros Hinv. unfold grid_step.
  destruct (ofor_each params _ (self_config self)) as [c | e | ] eqn:Hc;
    cbn [obind]; try discriminate.
  destruct (run_backtest_fresh _ _ _ _ _ _) as [r | e | ] eqn:Hr;
    try discriminate.
  2:{ intros [= <-]. apply grid_inv_skip; [exact Hinv|].
      intros c' r' m' (H1 & H2 & _). unfold combination_point in *.
      rewrite Hc in H1. injection H1 as <-. rewrite Hr in H2. discriminate. }
  destruct (results_getattr r optimization_metric) as [[m | e | ] | ] eqn:Hm;
    try discriminate.
  2:{ intros [= <-]. apply grid_inv_skip; [exact Hinv|].
      intros c' r' m' (H1 & H2 & H3).
      rewrite Hc in H1. injection H1 as <-.
      rewrite Hr in H2. injection H2 as <-.
      rewrite Hm in H3. discriminate. }
  assert (Hpt : combination_point float_pow series_std sqrt_252 self
                  start_date end_date optimization_metric params c r m)
    by (unfold combination_point; auto).
  destruct best as [[[bc|] [br|]] [b|]]; cbn [snd];
    unfold grid_inv in Hinv; try contradiction.
  - destruct Hinv as [(p & Hp & Hbest) Hmax].
    destruct (Qltb b m) eqn:Hlt; intros [= <-].
    + apply Qltb_true in Hlt. split.
      * exists params. split; [apply in_or_app; right; left; reflexivity|].
        exact Hpt.
      * intros p' c' r' m' Hin Hpt'.
        apply in_app_or in Hin as [Hin | [<- | []]].
        -- apply Qle_trans with b; [eapply Hmax; eassumption|].
           apply Qlt_le_weak. exact Hlt.
        -- destruct (combination_point_fun _ _ _ _ _ _ _ Hpt Hpt')
             as (_ & _ & ->). apply Qle_refl.
    + apply Qltb_false in Hlt. split.
      * exists p. split; [apply in_or_app; left; exact Hp | exact Hbest].
      * intros p' c' r' m' Hin Hpt'.
        apply in_app_or in Hin as [Hin | [<- | []]].
        -- eapply Hmax; eassumption.
        -- destruct (combination_point_fun _ _ _ _ _ _ _ Hpt Hpt')
             as (_ & _ & ->). exact Hlt.
  - intros [= <-]. split.
    + exists params. split; [apply in_or_app; right; left; reflexivity|].
      exact Hpt.
    + intros p' c' r' m' Hin Hpt'.
      apply in_app_or in Hin as [Hin | [<- | []]].
      * exfalso. eapply Hinv; eassumption.
      * destruct (combination_point_fun _ _ _ _ _ _ _ Hpt Hpt')
          as (_ & _ & ->). apply Qle_refl.
Qed.

Lemma grid_loop_inv (l : list dict) : forall seen best best',
  grid_inv float_pow series_std sqrt_252 self start_date end_date
    optimization_metric seen best ->
  ofor_each l
    (grid_step float_pow series_std sqrt_252 self start_date end_date
       optimization_metric) best = Ok best' ->
  grid_inv float_pow series_std sqrt_252 self start_date end_date
    optimization_metric (seen ++ l) best'.
Proof.
  induction l as [|params l IH]; intros seen best best' Hinv.
  - cbn. intros [= <-]. rewrite app_nil_r. exact Hinv.
  - cbn [ofor_each].
    destruct (grid_step _ _ _ _ _ _ _ best params) as [best1 | e | ] eqn:Hs;
      cbn [obind]; try discriminate.
    intros Hl. change (params :: l) with ([params] ++ l).
    rewrite app_assoc. eapply IH; [|exact Hl].
    eapply grid_step_inv; eassumption.
Qed.

Lemma combination_point_single name value c r m :
  combination_point float_pow series_std sqrt_252 self start_date end_date
    optimization_metric [(name, value)] c r m
  <-> grid_point float_pow series_std sqrt_252 self start_date end_date
        optimization_metric name value c r m.
Proof.
  unfold combination_point, grid_point. cbn [ofor_each].
  rewrite obind_Ok_r. reflexivity.
Qed.

(** X23.  The grid search tries one parameter at a time: every candidate
    is the backtester's configuration with a single value of a single
    listed range assigned.  When it returns a configuration and a result,
    they are those of such a grid point, and no grid point whose backtest
    succeeds has a larger metric; when it returns [(None, None)], no grid
    point has a backtest that succeeds with the metric. *)
Theorem X23_grid_search_best
    (parameter_ranges : list (string * option (list Q)))
    (best_config : option OptimizationConfig)
    (best_results : option BacktestResults) :
  optimize_parameters float_pow series_std sqrt_252 self start_date end_date
    parameter_ranges optimization_metric = Ok (best_config, best_results) ->
  match best_config, best_results with
  | Some c, Some r =>
      exists name values value m,
        In (name, Some values) parameter_ranges
        /\ In value values
        /\ grid_point float_pow series_std sqrt_252 self start_date end_date
             optimization_metric name value c r m
        /\ forall name' values' value' c' r' m',
             In (name', Some values') parameter_ranges ->
             In value' values' ->
             grid_point float_pow series_std sqrt_252 self start_date
               end_date optimization_metric name' value' c' r' m' ->
             m' <= m
  | None, None =>
      forall name values value c r m,
        In (name, Some values) parameter_ranges ->
        In value values ->
        ~ grid_point float_pow series_std sqrt_252 self start_date end_date
            optimization_metric name value c r m
  | _, _ => False
  end.
Proof.
  unfold optimize_parameters.
  destruct (ofor_each _ _ _) as [best | e | ] eqn:Hl; cbn [obind];
    try discriminate.
  intros [= Hb].
  apply (grid_loop_inv _ [] (None, None, None)) in Hl;
    [|intros p c r m []].
  cbn [app] in Hl. unfold grid_inv in Hl.
  destruct best as [[bc br] bm]. cbn [fst] in Hb.
  injection Hb as -> ->.
  destruct best_config as [c|], best_results as [r|], bm as [m|];
    try contradiction.
  - destruct Hl as [(p & Hp & Hpt) Hmax].
    apply generate_parameter_combinations_In in Hp
      as (name & values & value & Hin & Hv & ->).
    exists name, values, value, m.
    split; [exact Hin|]. split; [exact Hv|].
    split; [apply combination_point_single; exact Hpt|].
    intros name' values' value' c' r' m' Hin' Hv' Hpt'.
    apply (Hmax [(name', value')] c' r' m').
    + apply generate_parameter_combinations_In. eauto 6.
    + apply combination_point_single. exact Hpt'.
  - intros name values value c r m Hin Hv Hpt.
    apply (Hl [(name, value)] c r m).
    + apply generate_parameter_combinations_In. eauto 6.
    + apply combination_point_single. exact Hpt.
Qed.

End GridSearchProperties.

Lemma X23_grid_search_best_witness :
  exists c r,
    optimize_parameters (fun _ _ => 0) (fun _ => 0) 0
      (CCYOEBacktester__init__ two_shocks default_config) (day 0) (day 1)
      threshold_grid "total_return" = Ok (Some c, Some r)
    /\ exists name values value m,
         In (name, Some values) threshold_grid
         /\ In value values
         /\ grid_point (fun _ _ => 0) (fun _ => 0) 0
              (CCYOEBacktester__init__ two_shocks default_config)
              (day 0) (day 1) "total_return" name value c r m
         /\ forall name' values' value' c' r' m',
              In (name', Some values') threshold_grid ->
              In value' values' ->
              grid_point (fun _ _ => 0) (fun _ => 0) 0
                (CCYOEBacktester__init__ two_shocks default_config)
                (day 0) (day 1) "total_return" name' value' c' r' m' ->
              m' <= m.
Proof.
  pose proof threshold_grid_search_eq as E. unfold threshold_grid_search in E.
  eexists _, _. split; [exact E|].
  exact (X23_grid_search_best _ _ _ _ _ _ _ _ _ _ E).
Defined.
